(** * Pokedex: a shallow embedding of [pokedex.py]

    The program asks for a Pokemon name, fetches its record from the PokeAPI,
    reshapes it into a flat dictionary, prints it and saves it as a JSON file
    under the folder [pokedex].

    Text is modelled as byte strings holding the UTF-8 encoding of the Python
    text, Python values as a tree of JSON-shaped values, floats as IEEE 754
    binary64 values ([spec_float] of the standard library), exceptions as
    an inductive type threaded by a result monad, and the outside world
    (console, network, file system) as an explicit state. *)

From Stdlib Require Import ZArith List String Ascii Bool Lia.
From Stdlib Require Import Decimal DecimalFacts DecimalString DecimalPos DecimalN DecimalZ.
From Stdlib Require Import Floats.SpecFloat.
From stdpp Require Import gmap strings list.

Local Open Scope Z_scope.
Local Open Scope string_scope.

(** ** Text *)

Module Text.

Definition code (c : ascii) : N := N_of_ascii c.

Definition in_range (lo hi : N) (c : ascii) : bool :=
  ((lo <=? code c) && (code c <=? hi))%N.

Definition is_upper : ascii -> bool := in_range 65 90.
Definition is_lower : ascii -> bool := in_range 97 122.

(** [str.lower] and [str.upper] on one character.  Python maps every cased
    letter of Unicode; the model maps the letters A-Z and a-z and leaves
    every other byte as it is. *)
Definition lower_char (c : ascii) : ascii :=
  if is_upper c then ascii_of_N (code c + 32) else c.

Definition upper_char (c : ascii) : ascii :=
  if is_lower c then ascii_of_N (code c - 32) else c.

Fixpoint map_chars (f : ascii -> ascii) (s : string) : string :=
  match s with
  | EmptyString => EmptyString
  | String c r => String (f c) (map_chars f r)
  end.

(** [s.lower()] *)
Definition lower : string -> string := map_chars lower_char.

(** [s.capitalize()]: first character in upper case, the rest in lower
    case. *)
Definition capitalize (s : string) : string :=
  match s with
  | EmptyString => EmptyString
  | String c r => String (upper_char c) (lower r)
  end.

(** [s.replace(a, b)] for one-character [a] and [b]. *)
Definition replace (a b : ascii) : string -> string :=
  map_chars (fun c => if Ascii.eqb c a then b else c).

(** The characters [str.strip] removes ([str.isspace]): U+0009..U+000D,
    U+001C..U+0020, and, in their UTF-8 encodings, U+0085, U+00A0, U+1680,
    U+2000..U+200A, U+2028, U+2029, U+202F, U+205F and U+3000. *)
Definition space1 (c : ascii) : bool :=
  in_range 9 13 c || in_range 28 32 c.

Definition space2 (c1 c2 : ascii) : bool :=
  (code c1 =? 194)%N && ((code c2 =? 133) || (code c2 =? 160))%N.

Definition space3 (c1 c2 c3 : ascii) : bool :=
  ((code c1 =? 225) && (code c2 =? 154) && (code c3 =? 128))%N
  || ((code c1 =? 226) && (code c2 =? 128)
      && (in_range 128 138 c3 || in_range 168 169 c3 || (code c3 =? 175)))%N
  || ((code c1 =? 226) && (code c2 =? 129) && (code c3 =? 159))%N
  || ((code c1 =? 227) && (code c2 =? 128) && (code c3 =? 128))%N.

(** [s.lstrip()].  With [back] the bytes of a character are met last
    byte first, as in the reversed text. *)
Fixpoint lstrip_gen (back : bool) (s : string) : string :=
  match s with
  | String c1 r1 =>
      if space1 c1 then lstrip_gen back r1 else
      match r1 with
      | String c2 r2 =>
          if (if back then space2 c2 c1 else space2 c1 c2)
          then lstrip_gen back r2 else
          match r2 with
          | String c3 r3 =>
              if (if back then space3 c3 c2 c1 else space3 c1 c2 c3)
              then lstrip_gen back r3 else s
          | EmptyString => s
          end
      | EmptyString => s
      end
  | EmptyString => s
  end.

Definition lstrip : string -> string := lstrip_gen false.
Definition rstrip (s : string) : string :=
  String.rev (lstrip_gen true (String.rev s)).

(** [s.strip()] *)
Definition strip (s : string) : string := rstrip (lstrip s).

(** [sep.join(parts)] *)
Fixpoint join (sep : string) (parts : list string) : string :=
  match parts with
  | [] => ""
  | [p] => p
  | p :: ps => p +:+ sep +:+ join sep ps
  end.

(** [ch * n] for a one-character text. *)
Fixpoint repeat_char (c : ascii) (n : nat) : string :=
  match n with
  | O => ""
  | S n' => String c (repeat_char c n')
  end.

(** [str(n)] for an integer: decimal digits, a minus sign when negative.
    Python refuses, with a [ValueError], an integer of more digits than the
    limit of the interpreter (4300 by default); the model writes every
    integer, and the statements that depend on an integer of a record being
    written bound it. *)
Definition of_Z (n : Z) : string := NilZero.string_of_int (Z.to_int n).

Definition starts_with (c : ascii) (s : string) : bool :=
  match s with
  | String c' _ => Ascii.eqb c c'
  | EmptyString => false
  end.

Fixpoint contains (c : ascii) (s : string) : bool :=
  match s with
  | String c' r => Ascii.eqb c c' || contains c r
  | EmptyString => false
  end.

End Text.

(** ** Python values, exceptions and results *)

(** The values [json.loads] builds and the program handles.  A [dict] keeps
    its items in insertion order. *)
#[warnings="-register-all"] Inductive value : Type :=
  | VNone
  | VBool (b : bool)
  | VInt (n : Z)
  | VFloat (f : spec_float)
  | VStr (s : string)
  | VList (items : list value)
  | VDict (items : list (string * value)).

(** The exception classes the program can meet.  [RequestException] stands
    for [requests.exceptions.RequestException] and its subclasses, [OSError]
    for [OSError] (alias [IOError]) and its subclasses. *)
Inductive exn : Type :=
  | KeyError (key : string)
  | TypeError
  | AttributeError
  | OverflowError
  | ZeroDivisionError
  | ValueError
  | RequestException (detail : string)
  | OSError (detail : string).

Inductive result (A : Type) : Type :=
  | Ok (a : A)
  | Raise (e : exn).
Arguments Ok {A} a.
Arguments Raise {A} e.

#[export] Instance result_ret : MRet result := fun A a => Ok a.
#[export] Instance result_bind : MBind result := fun A B k m =>
  match m with
  | Ok a => k a
  | Raise e => Raise e
  end.

(** [m >>= f] chains to the left, as method calls and subscripts do. *)
Notation "m >>= f" := (mbind f m) (at level 50, left associativity).

Definition is_request_exception (e : exn) : bool :=
  match e with
  | RequestException _ => true
  | _ => false
  end.

Definition is_os_error (e : exn) : bool :=
  match e with
  | OSError _ => true
  | _ => false
  end.

(** ** Floats: IEEE 754 binary64 *)

Module Float.

Definition prec : Z := 53.
Definition emax : Z := 1024.

Definition of_Z (n : Z) : spec_float := binary_normalize prec emax n 0 false.

Definition div : spec_float -> spec_float -> spec_float := SFdiv prec emax.

(** [a / b] on two integers: the quotient rounded once to the nearest
    float, [OverflowError] when it is too large for a float.  The program
    only divides by 10. *)
Definition int_truediv (a b : Z) : result spec_float :=
  match a, b with
  | _, Z0 => Raise ZeroDivisionError
  | Z0, _ => Ok (S754_zero (b <? 0)%Z)
  | _, _ =>
      match SFdiv prec emax
              (S754_finite (a <? 0)%Z (Z.to_pos (Z.abs a)) 0)
              (S754_finite (b <? 0)%Z (Z.to_pos (Z.abs b)) 0) with
      | S754_infinity _ => Raise OverflowError
      | f => Ok f
      end
  end.

Definition is_zero (f : spec_float) : bool :=
  match f with
  | S754_zero _ => true
  | _ => false
  end.

End Float.

(** ** The operations of Python the program uses on values *)

Module Py.

Fixpoint lookup (key : string) (items : list (string * value)) : option value :=
  match items with
  | [] => None
  | (k, v) :: rest => if String.eqb k key then Some v else lookup key rest
  end.

(** [v[key]] for a text key: only a [dict] can be indexed by a text. *)
Definition getitem (key : string) (v : value) : result value :=
  match v with
  | VDict items =>
      match lookup key items with
      | Some x => Ok x
      | None => Raise (KeyError key)
      end
  | _ => Raise TypeError
  end.

Fixpoint chars (s : string) : list value :=
  match s with
  | EmptyString => []
  | String c r => VStr (String c EmptyString) :: chars r
  end.

(** [v[:5]]: the first five items of a list or characters of a text
    (bytes here; the program indexes each of them by a text key at once, so
    only whether there is one shows). *)
Definition slice5 (v : value) : result value :=
  match v with
  | VList items => Ok (VList (firstn 5 items))
  | VStr s => Ok (VStr (String.substring 0 5 s))
  | _ => Raise TypeError
  end.

(** [for x in v]: the items of a list, the keys of a dict, the characters
    of a text. *)
Definition iter (v : value) : result (list value) :=
  match v with
  | VList items => Ok items
  | VDict items => Ok (map (fun kv => VStr (fst kv)) items)
  | VStr s => Ok (chars s)
  | _ => Raise TypeError
  end.

(** A method of [str] called on [v]; the methods used return a text. *)
Definition str_method (f : string -> string) (v : value) : result string :=
  match v with
  | VStr s => Ok (f s)
  | _ => Raise AttributeError
  end.

(** [v / 10] *)
Definition div10 (v : value) : result spec_float :=
  match v with
  | VInt n => Float.int_truediv n 10
  | VBool b => Float.int_truediv (if b then 1 else 0) 10
  | VFloat f => Ok (Float.div f (Float.of_Z 10))
  | _ => Raise TypeError
  end.

(** [bool(v)], the test of [if v:]. *)
Definition truthy (v : value) : bool :=
  match v with
  | VNone => false
  | VBool b => b
  | VInt n => negb (n =? 0)%Z
  | VFloat f => negb (Float.is_zero f)
  | VStr s => negb (String.eqb s "")
  | VList items => match items with [] => false | _ => true end
  | VDict items => match items with [] => false | _ => true end
  end.

End Py.

(** ** Floats as text: [repr] and [float] *)

Module FloatText.

Import Float.

(** A number as JSON and Python write it: sign, integer digits, the digits
    after the point when there is one, the exponent (negative?, digits)
    when there is one. *)
Record number : Type := {
  num_neg : bool;
  num_int : uint;
  num_frac : option uint;
  num_exp : option (bool * uint)
}.

Definition digits_text : uint -> string := NilEmpty.string_of_uint.

Definition print (t : number) : string :=
  (if num_neg t then "-" else "")
  +:+ digits_text (num_int t)
  +:+ match num_frac t with
      | Some f => "." +:+ digits_text f
      | None => ""
      end
  +:+ match num_exp t with
      | Some (neg, e) => "e" +:+ (if neg then "-" else "+") +:+ digits_text e
      | None => ""
      end.

Definition digits_value (d : uint) : Z := Z.of_N (N.of_uint d).

(** The float nearest to [c * 10 ^ p], for [c >= 0]: what [float(text)]
    returns, infinite when out of range. *)
Definition of_decimal (neg : bool) (c p : Z) : spec_float :=
  match c with
  | Zpos c' =>
      if (0 <=? p)%Z
      then binary_round prec emax neg (c' * Z.to_pos (10 ^ p))%positive 0
      else SFdiv prec emax (S754_finite neg c' 0)
                           (S754_finite false (Z.to_pos (10 ^ (- p))) 0)
  | _ => S754_zero neg
  end.

Definition frac_digits (t : number) : uint :=
  match num_frac t with
  | Some f => f
  | None => Nil
  end.

Definition exp_value (t : number) : Z :=
  match num_exp t with
  | Some (neg, e) => if neg then - digits_value e else digits_value e
  | None => 0
  end.

Definition to_float (t : number) : spec_float :=
  let k := Z.of_nat (nb_digits (frac_digits t)) in
  of_decimal (num_neg t)
    (digits_value (num_int t) * 10 ^ k + digits_value (frac_digits t))
    (exp_value t - k).

(** *** The shortest digits that read back *)

Definition eqb (x y : spec_float) : bool :=
  match x, y with
  | S754_zero a, S754_zero b => Bool.eqb a b
  | S754_infinity a, S754_infinity b => Bool.eqb a b
  | S754_nan, S754_nan => true
  | S754_finite a m e, S754_finite b m' e' =>
      Bool.eqb a b && (m =? m')%positive && (e =? e')%Z
  | _, _ => false
  end.

(** [m * 2 ^ e] as a fraction. *)
Definition ratio (m : positive) (e : Z) : Z * Z :=
  if (0 <=? e)%Z then (Zpos m * 2 ^ e, 1) else (Zpos m, 2 ^ (- e)).

(** [n / d] scaled by [10 ^ (- p)]: quotient and remainder with divisor. *)
Definition scaled (n d p : Z) : Z * Z * Z :=
  let '(n', d') := if (0 <=? p)%Z then (n, d * 10 ^ p) else (n * 10 ^ (- p), d) in
  (n' / d', n' mod d', d').

(** The position of the decimal point: the [k] with
    [10 ^ (k - 1) <= n / d < 10 ^ k], searched from an estimate. *)
Fixpoint point_up (fuel : nat) (n d k : Z) : Z :=
  match fuel with
  | O => k
  | S fuel' =>
      if (fst (fst (scaled n d k)) =? 0)%Z then k
      else point_up fuel' n d (k + 1)
  end.

Fixpoint point_down (fuel : nat) (n d k : Z) : Z :=
  match fuel with
  | O => k
  | S fuel' =>
      if (fst (fst (scaled n d (k - 1))) =? 0)%Z
      then point_down fuel' n d (k - 1)
      else k
  end.

Definition point (m : positive) (e : Z) : Z :=
  let '(n, d) := ratio m e in
  let k0 := ((Zpos (digits2_pos m) + e) * 30103 / 100000)%Z in
  point_down 700 n d (point_up 700 n d k0).

(** With [n] digits: the neighbours of the value below and above, the one
    that reads back, the nearer one when both do (the even one on a tie). *)
Definition pick (m : positive) (e : Z) (k : Z) (n : Z) (last : bool)
  : option (Z * Z) :=
  let '(num, den) := ratio m e in
  let p := (k - n)%Z in
  let '(lo, r, d) := scaled num den p in
  let back c := eqb (of_decimal false c p) (S754_finite false m e) in
  let nearest :=
    match (2 * r ?= d)%Z with
    | Lt => lo
    | Gt => (lo + 1)%Z
    | Eq => if Z.even lo then lo else (lo + 1)%Z
    end in
  if (r =? 0)%Z then Some (lo, p)
  else if last then Some (nearest, p)
  else match back lo, back (lo + 1)%Z with
       | true, true => Some (nearest, p)
       | true, false => Some (lo, p)
       | false, true => Some ((lo + 1)%Z, p)
       | false, false => None
       end.

Fixpoint shortest_from (fuel : nat) (m : positive) (e k n : Z) : Z * Z :=
  match fuel with
  | O => (Zpos m, 0)
  | S fuel' =>
      match pick m e k n (match fuel' with O => true | _ => false end) with
      | Some cp => cp
      | None => shortest_from fuel' m e k (n + 1)
      end
  end.

Fixpoint drop_zeros (fuel : nat) (c p : Z) : Z * Z :=
  match fuel with
  | O => (c, p)
  | S fuel' =>
      if ((c mod 10 =? 0) && negb (c =? 0))%Z
      then drop_zeros fuel' (c / 10) (p + 1)
      else (c, p)
  end.

(** The digits of [repr] and the position of the point after them. *)
Definition shortest (m : positive) (e : Z) : uint * Z :=
  let '(c, p) := shortest_from 17 m e (point m e) 1 in
  let '(c', p') := drop_zeros 400 c p in
  let ds := Pos.to_uint (Z.to_pos c') in
  (ds, (p' + Z.of_nat (nb_digits ds))%Z).

(** *** The layout of [repr] *)

Definition zeros (n : nat) : list digits := repeat d0 n.

Definition two_digits (n : Z) : uint :=
  let ds := N.to_uint (Z.to_N n) in
  if (n <? 10)%Z then D0 ds else ds.

Definition layout (neg : bool) (ds : uint) (k : Z) : number :=
  let l := to_list ds in
  let n := Z.of_nat (List.length l) in
  if ((k <=? -4) || (16 <? k))%Z then
    {| num_neg := neg;
       num_int := of_list (firstn 1 l);
       num_frac := match skipn 1 l with
                   | [] => None
                   | tl => Some (of_list tl)
                   end;
       num_exp := Some ((k - 1 <? 0)%Z, two_digits (Z.abs (k - 1))) |}
  else if (k <=? 0)%Z then
    {| num_neg := neg;
       num_int := D0 Nil;
       num_frac := Some (of_list (zeros (Z.to_nat (- k)) ++ l));
       num_exp := None |}
  else if (n <=? k)%Z then
    {| num_neg := neg;
       num_int := of_list (l ++ zeros (Z.to_nat (k - n)));
       num_frac := Some (D0 Nil);
       num_exp := None |}
  else
    {| num_neg := neg;
       num_int := of_list (firstn (Z.to_nat k) l);
       num_frac := Some (of_list (skipn (Z.to_nat k) l));
       num_exp := None |}.

(** The number [repr(f)] writes for a finite [f]. *)
Definition number_of (f : spec_float) : number :=
  match f with
  | S754_finite s m e => let '(ds, k) := shortest m e in layout s ds k
  | S754_zero s => layout s (D0 Nil) 1
  | _ => layout false (D0 Nil) 1
  end.

(** [repr(f)], also [str(f)]. *)
Definition repr (f : spec_float) : string :=
  match f with
  | S754_nan => "nan"
  | S754_infinity s => if s then "-inf" else "inf"
  | _ => print (number_of f)
  end.

End FloatText.

(** ** Texts with special characters *)

Definition quote : ascii := ascii_of_N 34.
Definition apostrophe : ascii := ascii_of_N 39.
Definition backslash : ascii := ascii_of_N 92.
Definition newline : ascii := ascii_of_N 10.
Definition nl : string := String newline "".

(** A text in quotes. *)
Definition quoted (s : string) : string := String quote s +:+ String quote "".

Definition hex_char (n : N) : ascii :=
  if (n <? 10)%N then ascii_of_N (48 + n) else ascii_of_N (87 + n).

(** [str(v)] and [repr(v)], used by the formatted texts of the display. *)
Module Repr.

Definition escape_char (q : ascii) (c : ascii) : string :=
  let n := Text.code c in
  if Ascii.eqb c q || Ascii.eqb c backslash then String backslash (String c "")
  else if (n =? 9)%N then String backslash "t"
  else if (n =? 10)%N then String backslash "n"
  else if (n =? 13)%N then String backslash "r"
  else if ((n <? 32) || (n =? 127))%N
       then String backslash (String "x" (String (hex_char (n / 16))
                                            (String (hex_char (n mod 16)) "")))
  else String c "".

Fixpoint escape (q : ascii) (s : string) : string :=
  match s with
  | EmptyString => ""
  | String c r => escape_char q c +:+ escape q r
  end.

(** [repr(s)] of a text: in apostrophes, in quotes when it holds an
    apostrophe and no quote.  Bytes of characters outside ASCII are kept
    (Python escapes those that are not printable). *)
Definition of_str (s : string) : string :=
  let q := if Text.contains apostrophe s && negb (Text.contains quote s)
           then quote else apostrophe in
  String q (escape q s) +:+ String q "".

Fixpoint of_value (v : value) : string :=
  match v with
  | VNone => "None"
  | VBool b => if b then "True" else "False"
  | VInt n => Text.of_Z n
  | VFloat f => FloatText.repr f
  | VStr s => of_str s
  | VList items => "[" +:+ Text.join ", " (map of_value items) +:+ "]"
  | VDict items =>
      "{" +:+ Text.join ", "
                (map (fun kv => of_str (fst kv) +:+ ": " +:+ of_value (snd kv))
                     items)
      +:+ "}"
  end.

(** [str(v)], what a replacement field of a formatted text shows. *)
Definition str (v : value) : string :=
  match v with
  | VStr s => s
  | _ => of_value v
  end.

End Repr.

(** ** JSON text: [json.dump(v, f, indent=4, ensure_ascii=False)] *)

Module Json.

(** Only the quote, the backslash and the control characters are escaped;
    every other character, ASCII or not, is written as it is. *)
Definition escape_char (c : ascii) : string :=
  let n := Text.code c in
  if (n =? 34)%N then String backslash (String quote "")
  else if (n =? 92)%N then String backslash (String backslash "")
  else if (n =? 10)%N then String backslash "n"
  else if (n =? 13)%N then String backslash "r"
  else if (n =? 9)%N then String backslash "t"
  else if (n =? 8)%N then String backslash "b"
  else if (n =? 12)%N then String backslash "f"
  else if (n <? 32)%N
       then String backslash (String "u" (String "0" (String "0"
              (String (hex_char (n / 16)) (String (hex_char (n mod 16)) "")))))
  else String c "".

Fixpoint escape (s : string) : string :=
  match s with
  | EmptyString => ""
  | String c r => escape_char c +:+ escape r
  end.

Definition dump_str (s : string) : string :=
  String quote (escape s) +:+ String quote "".

Definition dump_float (f : spec_float) : string :=
  match f with
  | S754_nan => "NaN"
  | S754_infinity s => if s then "-Infinity" else "Infinity"
  | _ => FloatText.repr f
  end.

(** A new line and the indentation of [level]: four spaces a level. *)
Definition indent (level : nat) : string :=
  nl +:+ Text.repeat_char " " (4 * level).

(** [sep] before every item but the first. *)
Fixpoint seq_text (sep : string) (texts : list string) : string :=
  match texts with
  | [] => ""
  | [t] => t
  | t :: rest => t +:+ sep +:+ seq_text sep rest
  end.

Fixpoint dump (level : nat) (v : value) : string :=
  match v with
  | VNone => "null"
  | VBool b => if b then "true" else "false"
  | VInt n => Text.of_Z n
  | VFloat f => dump_float f
  | VStr s => dump_str s
  | VList [] => "[]"
  | VList items =>
      "[" +:+ indent (S level)
      +:+ seq_text ("," +:+ indent (S level)) (map (dump (S level)) items)
      +:+ indent level +:+ "]"
  | VDict [] => "{}"
  | VDict items =>
      "{" +:+ indent (S level)
      +:+ seq_text ("," +:+ indent (S level))
            (map (fun kv => dump_str (fst kv) +:+ ": " +:+ dump (S level) (snd kv))
                 items)
      +:+ indent level +:+ "}"
  end.

Definition dumps : value -> string := dump 0.

End Json.

(** ** Reading JSON text: [json.loads] *)

Module JsonRead.

Definition is_ws (c : ascii) : bool :=
  let n := Text.code c in
  ((n =? 32) || (n =? 9) || (n =? 10) || (n =? 13))%N.

Fixpoint skip_ws (s : string) : string :=
  match s with
  | String c r => if is_ws c then skip_ws r else s
  | EmptyString => s
  end.

(** *** Texts *)

Definition hex_value (c : ascii) : option N :=
  let n := Text.code c in
  if Text.in_range 48 57 c then Some (n - 48)%N
  else if Text.in_range 97 102 c then Some (n - 87)%N
  else if Text.in_range 65 70 c then Some (n - 55)%N
  else None.

Definition hex4 (a b c d : ascii) : option N :=
  match hex_value a, hex_value b, hex_value c, hex_value d with
  | Some x, Some y, Some z, Some t => Some (((x * 16 + y) * 16 + z) * 16 + t)%N
  | _, _, _, _ => None
  end.

Definition byte (n : N) : string := String (ascii_of_N n) "".

(** The UTF-8 bytes of a character; none for a surrogate, which alone is no
    character. *)
Definition utf8 (n : N) : option string :=
  if (n <? 128)%N then Some (byte n)
  else if (n <? 2048)%N then
    Some (byte (192 + n / 64) +:+ byte (128 + n mod 64))
  else if ((55296 <=? n) && (n <=? 57343))%N then None
  else if (n <? 65536)%N then
    Some (byte (224 + n / 4096) +:+ byte (128 + (n / 64) mod 64)
          +:+ byte (128 + n mod 64))
  else if (n <? 1114112)%N then
    Some (byte (240 + n / 262144) +:+ byte (128 + (n / 4096) mod 64)
          +:+ byte (128 + (n / 64) mod 64) +:+ byte (128 + n mod 64))
  else None.

(** The character a backslash and [c] stand for. *)
Definition simple_escape (c : ascii) : option ascii :=
  let n := Text.code c in
  if ((n =? 34) || (n =? 92) || (n =? 47))%N then Some c
  else if (n =? 98)%N then Some (ascii_of_N 8)
  else if (n =? 102)%N then Some (ascii_of_N 12)
  else if (n =? 110)%N then Some (ascii_of_N 10)
  else if (n =? 114)%N then Some (ascii_of_N 13)
  else if (n =? 116)%N then Some (ascii_of_N 9)
  else None.

Definition prepend (prefix : option string) (r : option (string * string))
  : option (string * string) :=
  match prefix, r with
  | Some p, Some (t, rest) => Some (p +:+ t, rest)
  | _, _ => None
  end.

(** The text after an opening quote, up to the closing one, and what
    follows.  Control characters are refused; two escapes of surrogates make
    one character. *)
Fixpoint scan_string (s : string) : option (string * string) :=
  match s with
  | EmptyString => None
  | String c r =>
      if Ascii.eqb c quote then Some ("", r)
      else if Ascii.eqb c backslash then
        match r with
        | String e r1 =>
            match simple_escape e with
            | Some ch => prepend (Some (String ch "")) (scan_string r1)
            | None =>
                if negb (Ascii.eqb e "u") then None else
                match r1 with
                | String h1 (String h2 (String h3 (String h4 r2))) =>
                    match hex4 h1 h2 h3 h4 with
                    | None => None
                    | Some n =>
                        if negb ((55296 <=? n) && (n <=? 56319))%N
                        then prepend (utf8 n) (scan_string r2) else
                        match r2 with
                        | String b (String u (String k1 (String k2
                            (String k3 (String k4 r3))))) =>
                            if negb (Ascii.eqb b backslash && Ascii.eqb u "u")
                            then None else
                            match hex4 k1 k2 k3 k4 with
                            | None => None
                            | Some n2 =>
                                if ((56320 <=? n2) && (n2 <=? 57343))%N
                                then prepend
                                       (utf8 (65536 + (n - 55296) * 1024
                                              + (n2 - 56320)))
                                       (scan_string r3)
                                else None
                            end
                        | _ => None
                        end
                    end
                | _ => None
                end
            end
        | EmptyString => None
        end
      else if (Text.code c <? 32)%N then None
      else prepend (Some (String c "")) (scan_string r)
  end.

(** *** Numbers *)

Definition digit_of (c : ascii) : option (uint -> uint) :=
  let n := Text.code c in
  if (n =? 48)%N then Some D0 else if (n =? 49)%N then Some D1
  else if (n =? 50)%N then Some D2 else if (n =? 51)%N then Some D3
  else if (n =? 52)%N then Some D4 else if (n =? 53)%N then Some D5
  else if (n =? 54)%N then Some D6 else if (n =? 55)%N then Some D7
  else if (n =? 56)%N then Some D8 else if (n =? 57)%N then Some D9
  else None.

(** The longest run of digits at the head of [s]. *)
Fixpoint scan_digits (s : string) : uint * string :=
  match s with
  | String c r =>
      match digit_of c with
      | Some d => let '(ds, rest) := scan_digits r in (d ds, rest)
      | None => (Nil, s)
      end
  | EmptyString => (Nil, s)
  end.

Definition scan_sign (s : string) : bool * string :=
  match s with
  | String c r => if Ascii.eqb c "-" then (true, r) else (false, s)
  | EmptyString => (false, s)
  end.

(** The integer part: a lone zero, or digits that start with none. *)
Definition scan_int (s : string) : option (uint * string) :=
  match s with
  | String c r =>
      if Ascii.eqb c "0" then Some (D0 Nil, r)
      else match scan_digits s with
           | (Nil, _) => None
           | found => Some found
           end
  | EmptyString => None
  end.

(** A point and digits, when both are there. *)
Definition scan_frac (s : string) : option uint * string :=
  match s with
  | String c r =>
      if Ascii.eqb c "." then
        match scan_digits r with
        | (Nil, _) => (None, s)
        | (ds, rest) => (Some ds, rest)
        end
      else (None, s)
  | EmptyString => (None, s)
  end.

(** [e] or [E], a sign or none, and digits, when the digits are there. *)
Definition scan_exp (s : string) : option (bool * uint) * string :=
  match s with
  | String c r =>
      if Ascii.eqb c "e" || Ascii.eqb c "E" then
        let '(neg, r1) :=
          match r with
          | String g r' =>
              if Ascii.eqb g "-" then (true, r')
              else if Ascii.eqb g "+" then (false, r')
              else (false, r)
          | EmptyString => (false, r)
          end in
        match scan_digits r1 with
        | (Nil, _) => (None, s)
        | (ds, rest) => (Some (neg, ds), rest)
        end
      else (None, s)
  | EmptyString => (None, s)
  end.

Definition scan_number (s : string) : option (FloatText.number * string) :=
  let '(neg, s1) := scan_sign s in
  match scan_int s1 with
  | None => None
  | Some (int, s2) =>
      let '(frac, s3) := scan_frac s2 in
      let '(exp, s4) := scan_exp s3 in
      Some ({| FloatText.num_neg := neg; FloatText.num_int := int;
               FloatText.num_frac := frac; FloatText.num_exp := exp |}, s4)
  end.

(** An integer when there is neither point nor exponent, a float
    otherwise. *)
Definition number_value (t : FloatText.number) : value :=
  match FloatText.num_frac t, FloatText.num_exp t with
  | None, None =>
      let n := FloatText.digits_value (FloatText.num_int t) in
      VInt (if FloatText.num_neg t then - n else n)
  | _, _ => VFloat (FloatText.to_float t)
  end.

(** *** Values *)

(** [s] without the prefix [word], when it starts with it. *)
Fixpoint after (word s : string) : option string :=
  match word, s with
  | EmptyString, _ => Some s
  | String a word', String b s' => if Ascii.eqb a b then after word' s' else None
  | String _ _, EmptyString => None
  end.

(** [d[key] = v] on the items of a dict: the new value takes the place of the
    old one, or the end. *)
Fixpoint dict_set (key : string) (v : value) (items : list (string * value))
  : list (string * value) :=
  match items with
  | [] => [(key, v)]
  | (k, x) :: rest =>
      if String.eqb k key then (k, v) :: rest
      else (k, x) :: dict_set key v rest
  end.

Definition dict_of (pairs : list (string * value)) : list (string * value) :=
  fold_left (fun items kv => dict_set (fst kv) (snd kv) items) pairs [].

Definition literal (s : string) : option (value * string) :=
  match after "null" s with Some rest => Some (VNone, rest) | None =>
  match after "true" s with Some rest => Some (VBool true, rest) | None =>
  match after "false" s with Some rest => Some (VBool false, rest) | None =>
  match scan_number s with Some (t, rest) => Some (number_value t, rest) | None =>
  match after "NaN" s with Some rest => Some (VFloat S754_nan, rest) | None =>
  match after "Infinity" s with
  | Some rest => Some (VFloat (S754_infinity false), rest)
  | None =>
  match after "-Infinity" s with
  | Some rest => Some (VFloat (S754_infinity true), rest)
  | None => None
  end end end end end end end.

Fixpoint parse_value (fuel : nat) (s : string) : option (value * string) :=
  match fuel with
  | O => None
  | S fuel' =>
      match s with
      | EmptyString => None
      | String c r =>
          if Ascii.eqb c quote then
            match scan_string r with
            | Some (t, rest) => Some (VStr t, rest)
            | None => None
            end
          else if Ascii.eqb c "[" then
            match skip_ws r with
            | String c' rest =>
                if Ascii.eqb c' "]" then Some (VList [], rest)
                else match parse_items fuel' (skip_ws r) with
                     | Some (items, rest') => Some (VList items, rest')
                     | None => None
                     end
            | EmptyString => None
            end
          else if Ascii.eqb c "{" then
            match skip_ws r with
            | String c' rest =>
                if Ascii.eqb c' "}" then Some (VDict [], rest)
                else match parse_members fuel' (skip_ws r) with
                     | Some (pairs, rest') => Some (VDict (dict_of pairs), rest')
                     | None => None
                     end
            | EmptyString => None
            end
          else literal s
      end
  end

with parse_items (fuel : nat) (s : string) : option (list value * string) :=
  match fuel with
  | O => None
  | S fuel' =>
      match parse_value fuel' s with
      | Some (v, rest) =>
          match skip_ws rest with
          | String c rest' =>
              if Ascii.eqb c "]" then Some ([v], rest')
              else if Ascii.eqb c "," then
                match parse_items fuel' (skip_ws rest') with
                | Some (vs, rest'') => Some (v :: vs, rest'')
                | None => None
                end
              else None
          | EmptyString => None
          end
      | None => None
      end
  end

with parse_members (fuel : nat) (s : string)
  : option (list (string * value) * string) :=
  match fuel with
  | O => None
  | S fuel' =>
      match s with
      | String q r =>
          if negb (Ascii.eqb q quote) then None else
          match scan_string r with
          | Some (key, rest) =>
              match skip_ws rest with
              | String c rest1 =>
                  if negb (Ascii.eqb c ":") then None else
                  match parse_value fuel' (skip_ws rest1) with
                  | Some (v, rest2) =>
                      match skip_ws rest2 with
                      | String c' rest3 =>
                          if Ascii.eqb c' "}" then Some ([(key, v)], rest3)
                          else if Ascii.eqb c' "," then
                            match parse_members fuel' (skip_ws rest3) with
                            | Some (kvs, rest4) => Some ((key, v) :: kvs, rest4)
                            | None => None
                            end
                          else None
                      | EmptyString => None
                      end
                  | None => None
                  end
              | EmptyString => None
              end
          | None => None
          end
      | EmptyString => None
      end
  end.

(** [json.loads(s)]: one value, blanks around it, nothing else. *)
Definition loads (s : string) : option value :=
  match parse_value (2 * String.length s + 2) (skip_ws s) with
  | Some (v, rest) =>
      match skip_ws rest with
      | EmptyString => Some v
      | _ => None
      end
  | None => None
  end.

End JsonRead.

(** ** The extracted record *)

(** The dictionary [extraer_informacion_relevante] builds, with its eight
    keys in the order of the dictionary display. *)
Record info : Type := {
  nombre : string;
  id : value;
  peso_kg : spec_float;
  altura_m : spec_float;
  imagen_frontal_url : value;
  tipos : list string;
  habilidades : list string;
  movimientos_principales : list string
}.

(** [x[outer]["name"]] *)
Definition nested_name (outer : string) (x : value) : result value :=
  Py.getitem outer x >>= Py.getitem "name".

Definition tipo_de (t : value) : result string :=
  nested_name "type" t >>= Py.str_method Text.capitalize.

Definition habilidad_de (a : value) : result string :=
  s ← nested_name "ability" a >>= Py.str_method (Text.replace "-" " ");
  mret (Text.capitalize s).

Definition movimiento_de (m : value) : result string :=
  s ← nested_name "move" m >>= Py.str_method (Text.replace "-" " ");
  mret (Text.capitalize s).

(** The items of the dictionary display are evaluated in order; the first
    exception ends the evaluation. *)
Definition extraer_informacion_relevante (datos_pokemon : value) : result info :=
  nombre ← Py.getitem "name" datos_pokemon >>= Py.str_method Text.capitalize;
  id ← Py.getitem "id" datos_pokemon;
  peso_kg ← Py.getitem "weight" datos_pokemon >>= Py.div10;
  altura_m ← Py.getitem "height" datos_pokemon >>= Py.div10;
  imagen_frontal_url ←
    Py.getitem "sprites" datos_pokemon >>= Py.getitem "front_default";
  tipos ← Py.getitem "types" datos_pokemon >>= Py.iter >>= mapM tipo_de;
  habilidades ←
    Py.getitem "abilities" datos_pokemon >>= Py.iter >>= mapM habilidad_de;
  movimientos_principales ←
    Py.getitem "moves" datos_pokemon >>= Py.slice5 >>= Py.iter
      >>= mapM movimiento_de;
  mret {| nombre := nombre;
          id := id;
          peso_kg := peso_kg;
          altura_m := altura_m;
          imagen_frontal_url := imagen_frontal_url;
          tipos := tipos;
          habilidades := habilidades;
          movimientos_principales := movimientos_principales |}.

(** A record of the shape the service sends, cut down to the keys read. *)
Definition named (outer name : string) : value :=
  VDict [(outer, VDict [("name", VStr name); ("url", VStr "https://pokeapi.co")])].

Definition bulbasaur_moves : list string :=
  ["razor-wind"; "swords-dance"; "cut"; "bind"; "vine-whip"; "headbutt"; "tackle"].

Definition bulbasaur : value :=
  VDict [("abilities", VList [named "ability" "overgrow"; named "ability" "chlorophyll"]);
         ("height", VInt 7);
         ("id", VInt 1);
         ("moves", VList (map (named "move") bulbasaur_moves));
         ("name", VStr "bulbasaur");
         ("sprites", VDict [("back_default", VNone);
                            ("front_default", VStr "https://img/1.png")]);
         ("types", VList [named "type" "grass"; named "type" "poison"]);
         ("weight", VInt 69)].


(** ** Values that read back *)

Module Readable.

Definition is_digit (c : ascii) : bool := Text.in_range 48 57 c.

(** A number in the layout [repr] uses for a float: integer digits with no
    zero ahead of them, and a point or an exponent, each with its digits. *)
Definition no_leading_zero (ds : uint) : bool :=
  match ds with
  | Nil => false
  | D0 Nil => true
  | D0 _ => false
  | _ => true
  end.

Definition some_digits (ds : uint) : bool :=
  match ds with
  | Nil => false
  | _ => true
  end.

Definition float_layout (t : FloatText.number) : bool :=
  no_leading_zero (FloatText.num_int t)
  && match FloatText.num_frac t with
     | Some f => some_digits f
     | None => true
     end
  && match FloatText.num_exp t with
     | Some (_, e) => some_digits e
     | None => true
     end
  && match FloatText.num_frac t, FloatText.num_exp t with
     | None, None => false
     | _, _ => true
     end.

(** The number [repr] writes for a finite float reads back as the float.
    Python's [repr] is made so that this holds of every float. *)
Definition float_reads_back (f : spec_float) : bool :=
  match f with
  | S754_nan | S754_infinity _ => true
  | _ => FloatText.eqb (FloatText.to_float (FloatText.number_of f)) f
  end.

Fixpoint distinct (keys : list string) : bool :=
  match keys with
  | [] => true
  | k :: rest => negb (existsb (String.eqb k) rest) && distinct rest
  end.

(** A value as Python holds it: the keys of a dict are distinct; and its
    floats read back. *)
Fixpoint value_ok (v : value) : bool :=
  match v with
  | VFloat f => float_reads_back f
  | VList items => forallb value_ok items
  | VDict items =>
      distinct (map fst items)
      && forallb (fun kv => value_ok (snd kv)) items
  | _ => true
  end.

Definition info_ok (i : info) : bool :=
  value_ok (id i) && float_reads_back (peso_kg i)
  && float_reads_back (altura_m i) && value_ok (imagen_frontal_url i).

(** The steps a reader needs for a value. *)
Fixpoint size (v : value) : nat :=
  match v with
  | VList items => S (list_sum (map (fun x => S (size x)) items))
  | VDict items => S (list_sum (map (fun kv => S (size (snd kv))) items))
  | _ => 1
  end.

(** What may follow a number: no digit, no point, no exponent. *)
Definition ends_number (rest : string) : bool :=
  match rest with
  | EmptyString => true
  | String c _ =>
      negb (is_digit c || Ascii.eqb c "." || Ascii.eqb c "e" || Ascii.eqb c "E")
  end.

End Readable.

(** ** The world the program runs in *)

Inductive node : Type :=
  | Dir
  | File (content : string).

(** How the service answers one GET: a response with its status code and
    what [respuesta.json()] then gives, or an exception out of
    [requests.get]. *)
Inductive http_outcome : Type :=
  | Response (status_code : Z) (json : result value)
  | NoResponse (e : exn).

(** The console, the requests sent so far (oldest first), the file system
    (paths as the program writes them, relative to the working directory),
    whether files and folders may be created or written, and the remote
    service. *)
Record world : Type := {
  stdout : list string;
  requests : list string;
  fs : gmap string node;
  writable : bool;
  net : string -> http_outcome
}.

Definition with_stdout (out : list string) (w : world) : world :=
  {| stdout := out; requests := requests w; fs := fs w;
     writable := writable w; net := net w |}.

Definition with_requests (reqs : list string) (w : world) : world :=
  {| stdout := stdout w; requests := reqs; fs := fs w;
     writable := writable w; net := net w |}.

Definition with_fs (files : gmap string node) (w : world) : world :=
  {| stdout := stdout w; requests := requests w; fs := files;
     writable := writable w; net := net w |}.

(** A computation on the world that returns or raises. *)
Definition M (A : Type) : Type := world -> result A * world.

#[export] Instance M_ret : MRet M := fun A a w => (Ok a, w).
#[export] Instance M_bind : MBind M := fun A B k m w =>
  match m w with
  | (Ok a, w') => k a w'
  | (Raise e, w') => (Raise e, w')
  end.

Definition lift {A : Type} (r : result A) : M A := fun w => (r, w).

(** [try: body / except <classes>: handler] *)
Definition try_except {A : Type} (body : M A) (caught : exn -> bool)
    (handler : exn -> M A) : M A :=
  fun w =>
    match body w with
    | (Raise e, w') => if caught e then handler e w' else (Raise e, w')
    | done => done
    end.

(** [print(line)] *)
Definition print (line : string) : M unit :=
  fun w => (Ok tt, with_stdout (stdout w ++ [line]) w).

(** [input(prompt)]: the prompt goes to the console, [typed] is the line the
    user enters, without its end of line. *)
Definition input (prompt typed : string) : M string :=
  fun w => (Ok typed, with_stdout (stdout w ++ [prompt]) w).

(** [str(e)] *)
Definition exn_text (e : exn) : string :=
  match e with
  | KeyError key => Repr.of_str key
  | RequestException detail => detail
  | OSError detail => detail
  | _ => ""
  end.

(** *** The network *)

(** [requests.get(url)] *)
Definition requests_get (url : string) : M (Z * result value) :=
  fun w =>
    let w' := with_requests (requests w ++ [url]) w in
    match net w url with
    | Response status body => (Ok (status, body), w')
    | NoResponse e => (Raise e, w')
    end.

(** *** The file system *)

(** Files and folders are kept under the text of their path.  The model
    knows the paths written in one way -- relative to the working directory,
    one slash between components, no component [.] or [..] -- and takes two
    texts for two files: it resolves neither [..] nor links.  The statements
    that say which path is written keep to names without a slash, whose file
    has such a path. *)

(** [os.path.join(a, b)] on POSIX paths. *)
Definition path_join (a b : string) : string :=
  if Text.starts_with "/" b then b
  else if String.eqb a "" || Text.starts_with "/" (String.rev a) then a +:+ b
  else a +:+ "/" +:+ b.

(** The part of a path before its last slash. *)
Fixpoint dirname (path : string) : string :=
  match path with
  | EmptyString => ""
  | String c r =>
      if Text.contains "/" r then String c (dirname r) else ""
  end.

Definition is_dir (files : gmap string node) (path : string) : bool :=
  match files !! path with
  | Some Dir => true
  | _ => false
  end.

(** A file can be created in the working directory or in a folder that
    exists. *)
Definition parent_exists (files : gmap string node) (path : string) : bool :=
  String.eqb (dirname path) "" || is_dir files (dirname path).

(** What keeps [os.makedirs(name, exist_ok=True)], for a name of one
    component, from succeeding: a file of that name, or no right to create
    the folder. *)
Definition makedirs_error (w : world) (name : string) : option exn :=
  match fs w !! name with
  | Some Dir => None
  | Some (File _) =>
      Some (OSError ("[Errno 17] File exists: " +:+ Repr.of_str name))
  | None =>
      if writable w then None
      else Some (OSError ("[Errno 13] Permission denied: " +:+ Repr.of_str name))
  end.

Definition os_makedirs (name : string) : M unit :=
  fun w =>
    match makedirs_error w name with
    | Some e => (Raise e, w)
    | None =>
        match fs w !! name with
        | Some _ => (Ok tt, w)
        | None => (Ok tt, with_fs (<[name := Dir]> (fs w)) w)
        end
    end.

(** What keeps [open(path, 'w', encoding='utf-8')] from succeeding: a null
    character in the path (a [ValueError]), a folder at the path, no folder
    to hold the file, no right to write. *)
Definition open_error (w : world) (path : string) : option exn :=
  if Text.contains (ascii_of_N 0) path then Some ValueError
  else if is_dir (fs w) path then
    Some (OSError ("[Errno 21] Is a directory: " +:+ Repr.of_str path))
  else if negb (parent_exists (fs w) path) then
    Some (OSError ("[Errno 2] No such file or directory: " +:+ Repr.of_str path))
  else if negb (writable w) then
    Some (OSError ("[Errno 13] Permission denied: " +:+ Repr.of_str path))
  else None.

(** The file is created, or emptied when it exists. *)
Definition open_w (path : string) : M unit :=
  fun w =>
    match open_error w path with
    | Some e => (Raise e, w)
    | None => (Ok tt, with_fs (<[path := File ""]> (fs w)) w)
    end.

(** Writing [text] at the end of the open file. *)
Definition write (path text : string) : M unit :=
  fun w =>
    match fs w !! path with
    | Some (File old) => (Ok tt, with_fs (<[path := File (old +:+ text)]> (fs w)) w)
    | _ => (Raise (OSError "[Errno 9] Bad file descriptor"), w)
    end.

(** ** The program *)

Definition BASE_URL : string := "https://pokeapi.co/api/v2/pokemon/".
Definition POKEDEX_FOLDER : string := "pokedex".

(** *** Fetching *)

Definition nombre_normalizado (nombre_pokemon : string) : string :=
  Text.strip (Text.lower nombre_pokemon).

Definition request_url (nombre_pokemon : string) : string :=
  BASE_URL +:+ nombre_normalizado nombre_pokemon.

Definition obtener_datos_pokemon (nombre_pokemon : string) : M value :=
  let url := request_url nombre_pokemon in
  try_except
    ('(status_code, json) ← requests_get url;
     if (status_code =? 200)%Z then
       lift json
     else if (status_code =? 404)%Z then
       print ("Error: El Pokémon '" +:+ nombre_pokemon
              +:+ "' no existe en la Pokédex. Intenta con otro nombre.");;
       mret VNone
     else
       print ("Error al consultar la API: Código de estado HTTP "
              +:+ Text.of_Z status_code +:+ ".");;
       print "Detalles: Puede haber un problema con el servicio de la API.";;
       mret VNone)
    is_request_exception
    (fun e =>
       print (nl +:+ "Fatal Error: No se pudo conectar a la PokeAPI. Revisa tu conexión a internet o la URL base.");;
       print ("Detalles del error: " +:+ exn_text e);;
       mret VNone).

(** *** Showing *)

Definition rule : string := Text.repeat_char "=" 40.

Definition mostrar_datos_pokemon (info_pokemon : info) : M unit :=
  let nombre := nombre info_pokemon in
  print (nl +:+ rule);;
  print ("¡POKÉMON ENCONTRADO! - " +:+ nombre +:+ " (ID: "
         +:+ Repr.str (id info_pokemon) +:+ ")");;
  print rule;;
  print " ESTADÍSTICAS";;
  print ("  Peso: " +:+ FloatText.repr (peso_kg info_pokemon) +:+ " kg");;
  print ("  Tamaño (Altura): " +:+ FloatText.repr (altura_m info_pokemon) +:+ " m");;
  print "TIPOS";;
  print ("  Tipos: " +:+ Text.join ", " (tipos info_pokemon));;
  print "HABILIDADES";;
  print ("  Habilidades: " +:+ Text.join ", " (habilidades info_pokemon));;
  print "MOVIMIENTOS PRINCIPALES";;
  print ("  Top 5 Movimientos: "
         +:+ Text.join ", " (movimientos_principales info_pokemon));;
  print "IMAGEN";;
  print ("  Link de Imagen Frontal: "
         +:+ Repr.str (imagen_frontal_url info_pokemon));;
  print (nl +:+ rule).

(** *** Saving *)

Definition texts (l : list string) : value := VList (map VStr l).

(** The dictionary as [json.dump] receives it. *)
Definition info_dict (i : info) : value :=
  VDict [("nombre", VStr (nombre i));
         ("id", id i);
         ("peso_kg", VFloat (peso_kg i));
         ("altura_m", VFloat (altura_m i));
         ("imagen_frontal_url", imagen_frontal_url i);
         ("tipos", texts (tipos i));
         ("habilidades", texts (habilidades i));
         ("movimientos_principales", texts (movimientos_principales i))].

Definition nombre_archivo (info_pokemon : info) : string :=
  Text.replace " " "_" (Text.lower (nombre info_pokemon)) +:+ ".json".

Definition ruta_completa (info_pokemon : info) : string :=
  path_join POKEDEX_FOLDER (nombre_archivo info_pokemon).

(** [with open(ruta, 'w', encoding='utf-8') as f: json.dump(...)]: the file
    is opened, then the text of the dictionary is written, as one piece.
    ([json.dump] writes piece by piece and raises on an integer above the
    limit on digits, leaving a part of the text; the statements on the
    content of the file keep to records it writes whole.) *)
Definition escribir_json (ruta : string) (info_pokemon : info) : M unit :=
  open_w ruta;;
  write ruta (Json.dumps (info_dict info_pokemon)).

Definition guardar_informacion_json (info_pokemon : info) : M unit :=
  creada ←
    try_except
      (os_makedirs POKEDEX_FOLDER;; mret true)
      is_os_error
      (fun e =>
         print (nl +:+ "Error al crear la carpeta '" +:+ POKEDEX_FOLDER
                +:+ "': " +:+ exn_text e);;
         mret false);
  if creada : bool then
    let ruta := ruta_completa info_pokemon in
    try_except
      (escribir_json ruta info_pokemon;;
       print ("Información de " +:+ nombre info_pokemon
              +:+ " guardada exitosamente en:");;
       print ("   -> " +:+ ruta))
      is_os_error
      (fun e =>
         print (nl +:+ "Error al escribir el archivo JSON en " +:+ ruta
                +:+ ": " +:+ exn_text e))
  else mret tt.

(** *** The main function *)

Definition banner : M unit :=
  print "====================================";;
  print "       PROYECTO POKÉDEX       ";;
  print "====================================";;
  print "Consulta detalles de cualquier Pokémon usando la PokeAPI (https://pokeapi.co/).";;
  print "Bibliotecas requeridas: requests, json, os.".

(** [typed] is the line the user enters at the prompt. *)
Definition prompt : string :=
  nl +:+ "Introduce el nombre del Pokémon a buscar: ".

Definition ejecutar_pokedex (typed : string) : M unit :=
  banner;;
  nombre_busqueda ← input prompt typed;
  if negb (Py.truthy (VStr nombre_busqueda)) then
    print "El nombre del Pokémon no puede estar vacío."
  else
    datos_completos ← obtener_datos_pokemon nombre_busqueda;
    if Py.truthy datos_completos then
      info_a_guardar ← lift (extraer_informacion_relevante datos_completos);
      mostrar_datos_pokemon info_a_guardar;;
      guardar_informacion_json info_a_guardar
    else mret tt.

(** ** The keys a record is expected to hold *)

Definition has_key (key : string) (v : value) : bool :=
  match v with
  | VDict items =>
      match Py.lookup key items with
      | Some _ => true
      | None => false
      end
  | _ => false
  end.

(** [x[outer]["name"]] is there. *)
Definition has_name_under (outer : string) (x : value) : bool :=
  match Py.getitem outer x with
  | Ok y => has_key "name" y
  | Raise _ => false
  end.

(** Every entry of the list [r] holds [outer.name]. *)
Definition all_named (outer : string) (r : result value) : bool :=
  match r >>= Py.iter with
  | Ok entries => forallb (has_name_under outer) entries
  | Raise _ => false
  end.

(** The keys named once each, outside the list of moves. *)
Definition keys_outside_moves (datos : value) : bool :=
  has_key "name" datos && has_key "id" datos
  && has_key "weight" datos && has_key "height" datos
  && match Py.getitem "sprites" datos with
     | Ok sprites => has_key "front_default" sprites
     | Raise _ => false
     end
  && all_named "type" (Py.getitem "types" datos)
  && all_named "ability" (Py.getitem "abilities" datos).

(** Every key of the list of the specification: [name], [id], [weight],
    [height], [sprites.front_default], [types[].type.name],
    [abilities[].ability.name], [moves[].move.name]. *)
Definition keys_listed (datos : value) : bool :=
  keys_outside_moves datos && all_named "move" (Py.getitem "moves" datos).

(** The keys the extractor reads: of the moves, the first five only. *)
Definition keys_read (datos : value) : bool :=
  keys_outside_moves datos
  && all_named "move" (Py.getitem "moves" datos >>= Py.slice5).

(** *** The shape the extractor accepts *)

Definition is_text (v : value) : bool :=
  match v with
  | VStr _ => true
  | _ => false
  end.

(** [v / 10] is a float: [v] is a number whose tenth is in range. *)
Definition has_tenth (v : value) : bool :=
  match Py.div10 v with
  | Ok _ => true
  | Raise _ => false
  end.

(** [v[key]] is there and passes [test]. *)
Definition key_is (test : value -> bool) (key : string) (v : value) : bool :=
  match Py.getitem key v with
  | Ok x => test x
  | Raise _ => false
  end.

(** Every entry of [r] holds a text at [outer.name]. *)
Definition all_texts (outer : string) (r : result value) : bool :=
  match r >>= Py.iter with
  | Ok entries => forallb (key_is (key_is is_text "name") outer) entries
  | Raise _ => false
  end.

(** The keys the extractor reads are there, with values of the types its
    operations take. *)
Definition well_shaped (datos : value) : bool :=
  key_is is_text "name" datos
  && has_key "id" datos
  && key_is has_tenth "weight" datos
  && key_is has_tenth "height" datos
  && key_is (has_key "front_default") "sprites" datos
  && all_texts "type" (Py.getitem "types" datos)
  && all_texts "ability" (Py.getitem "abilities" datos)
  && all_texts "move" (Py.getitem "moves" datos >>= Py.slice5).

(** ** Reading a saved record *)

Fixpoint texts_of (items : list value) : option (list string) :=
  match items with
  | [] => Some []
  | VStr s :: rest =>
      match texts_of rest with
      | Some l => Some (s :: l)
      | None => None
      end
  | _ :: _ => None
  end.

Definition key_texts (key : string) (items : list (string * value))
  : option (list string) :=
  match Py.lookup key items with
  | Some (VList l) => texts_of l
  | _ => None
  end.

(** The record a parsed file stands for, field by field under the keys of
    [info_dict]. *)
Definition info_of_dict (v : value) : option info :=
  match v with
  | VDict items =>
      match Py.lookup "nombre" items, Py.lookup "id" items,
            Py.lookup "peso_kg" items, Py.lookup "altura_m" items,
            Py.lookup "imagen_frontal_url" items,
            key_texts "tipos" items, key_texts "habilidades" items,
            key_texts "movimientos_principales" items with
      | Some (VStr n), Some i, Some (VFloat p), Some (VFloat a), Some url,
        Some t, Some h, Some m =>
          Some {| nombre := n; id := i; peso_kg := p; altura_m := a;
                  imagen_frontal_url := url; tipos := t; habilidades := h;
                  movimientos_principales := m |}
      | _, _, _, _, _, _, _, _ => None
      end
  | _ => None
  end.

(** [json.load] on the file at [path], then the record it stands for. *)
Definition read_info (w : world) (path : string) : option info :=
  match fs w !! path with
  | Some (File text) =>
      match JsonRead.loads text with
      | Some v => info_of_dict v
      | None => None
      end
  | _ => None
  end.

(** ** Samples *)

(** Bulbasaur with a sixth move that has no name. *)
Definition sixth_move_unnamed : value :=
  VDict [("abilities", VList [named "ability" "overgrow"]);
         ("height", VInt 7);
         ("id", VInt 1);
         ("moves", VList (map (named "move") (firstn 5 bulbasaur_moves)
                          ++ [VDict [("version_group_details", VList [])]]));
         ("name", VStr "bulbasaur");
         ("sprites", VDict [("front_default", VNone)]);
         ("types", VList [named "type" "grass"]);
         ("weight", VInt 69)].

(** A record without the key [name]. *)
Definition nameless : value :=
  VDict [("count", VInt 1302); ("results", VList [])].

(** What the extractor builds of bulbasaur. *)
Definition bulbasaur_info : info :=
  {| nombre := "Bulbasaur";
     id := VInt 1;
     peso_kg := S754_finite false 7768709357214106 (-50);
     altura_m := S754_finite false 6305039478318694 (-53);
     imagen_frontal_url := VStr "https://img/1.png";
     tipos := ["Grass"; "Poison"];
     habilidades := ["Overgrow"; "Chlorophyll"];
     movimientos_principales :=
       ["Razor wind"; "Swords dance"; "Cut"; "Bind"; "Vine whip"] |}.

(** A service that knows bulbasaur only; asked for no name at all, it
    answers with the list of its resources. *)
Definition pokeapi (url : string) : http_outcome :=
  if String.eqb url (BASE_URL +:+ "bulbasaur") then Response 200 (Ok bulbasaur)
  else if String.eqb url BASE_URL then Response 200 (Ok nameless)
  else Response 404 (Raise ValueError).

(** A world where nothing has happened yet. *)
Definition fresh (service : string -> http_outcome) : world :=
  {| stdout := []; requests := []; fs := ∅; writable := true; net := service |}.

(** A record whose name is a rooted path, what the extractor builds of it,
    and a world with the folder [/tmp]. *)
Definition rooted : value :=
  VDict [("abilities", VList []); ("height", VInt 1); ("id", VInt 0);
         ("moves", VList []); ("name", VStr "/tmp/x");
         ("sprites", VDict [("front_default", VNone)]);
         ("types", VList []); ("weight", VInt 1)].

Definition rooted_info : info :=
  {| nombre := "/tmp/x";
     id := VInt 0;
     peso_kg := S754_finite false 7205759403792794 (-56);
     altura_m := S754_finite false 7205759403792794 (-56);
     imagen_frontal_url := VNone;
     tipos := [];
     habilidades := [];
     movimientos_principales := [] |}.

Definition with_tmp : world :=
  {| stdout := []; requests := []; fs := {[ "/tmp" := Dir ]};
     writable := true; net := pokeapi |}.

(** A world where a file has the name of the folder. *)
Definition blocked : world :=
  {| stdout := []; requests := []; fs := {[ "pokedex" := File "" ]};
     writable := true; net := pokeapi |}.

(** ** Notions the statements use *)

(** *** The extractor *)

(** A text of ASCII characters only: on such a text the case mappings of the
    model are those of Python, letter for letter. *)
Fixpoint ascii_only (s : string) : bool :=
  match s with
  | EmptyString => true
  | String c r => (Text.code c <? 128)%N && ascii_only r
  end.

(** The entry [out] comes from the item [m] of the source: [m[outer]["name"]]
    is a text, and when that text is ASCII, [out] is that name with hyphens
    replaced by spaces and capitalized, so the same text but for the case of
    its letters.  (For a name outside ASCII the entry is paired with its item
    and its text is left open: Python maps the case of letters the model does
    not know.) *)
Definition from_move (outer : string) (m : value) (out : string) : Prop :=
  exists s, nested_name outer m = Ok (VStr s)
            /\ (ascii_only s = true ->
                out = Text.capitalize (Text.replace "-" " " s)
                /\ Text.lower out = Text.lower (Text.replace "-" " " s)).

(** The extractor raises none of the exceptions of the network or of the
    file system. *)
Definition shape_error (e : exn) : bool :=
  match e with
  | KeyError _ | TypeError | AttributeError | OverflowError => true
  | _ => false
  end.

(** A computation that raises such exceptions only. *)
Definition shapely {A : Type} (m : result A) : Prop :=
  forall e, m = Raise e -> shape_error e = true.

(** *** Worlds and messages of a run *)

(** What the fetcher prints for a 404, for another status, and when the
    connection fails. *)
Definition not_found_message (nombre_pokemon : string) : string :=
  "Error: El Pokémon '" +:+ nombre_pokemon
  +:+ "' no existe en la Pokédex. Intenta con otro nombre.".

Definition status_messages (status_code : Z) : list string :=
  ["Error al consultar la API: Código de estado HTTP "
     +:+ Text.of_Z status_code +:+ ".";
   "Detalles: Puede haber un problema con el servicio de la API."].

Definition connection_messages (detail : string) : list string :=
  [nl +:+ "Fatal Error: No se pudo conectar a la PokeAPI. Revisa tu conexión a internet o la URL base.";
   "Detalles del error: " +:+ detail].

(** What the fetcher makes of each answer of the service: the value it
    returns or the exception it lets out, and the lines it prints.  Every
    answer is in one case: a response 200 whose body parses, one whose
    parsing raises an exception of the requests family, one whose parsing
    raises another exception, a response 404, a response of another status,
    a request that raises an exception of the requests family, a request that
    raises another exception. *)
Definition fetch_outcome (nombre_pokemon : string) (answer : http_outcome)
  : result value * list string :=
  match answer with
  | Response status_code body =>
      if (status_code =? 200)%Z then
        match body with
        | Ok datos => (Ok datos, [])
        | Raise (RequestException detail) =>
            (Ok VNone, connection_messages detail)
        | Raise e => (Raise e, [])
        end
      else if (status_code =? 404)%Z then
        (Ok VNone, [not_found_message nombre_pokemon])
      else (Ok VNone, status_messages status_code)
  | NoResponse (RequestException detail) =>
      (Ok VNone, connection_messages detail)
  | NoResponse e => (Raise e, [])
  end.

(** The world once the request for [nombre_pokemon] is sent. *)
Definition sent (nombre_pokemon : string) (w : world) : world :=
  with_requests (requests w ++ [request_url nombre_pokemon]) w.

(** The world once [lines] are printed. *)
Definition told (lines : list string) (w : world) : world :=
  with_stdout (stdout w ++ lines) w.

(** A service that knows pikachu. *)
Definition pikachu_service (url : string) : http_outcome :=
  if String.eqb url (BASE_URL +:+ "pikachu")
  then Response 200 (Ok (VDict [("name", VStr "pikachu"); ("id", VInt 25)]))
  else Response 404 (Raise ValueError).

(** The world when the name has been typed. *)
Definition asked (w : world) : world :=
  told ["====================================";
        "       PROYECTO POKÉDEX       ";
        "====================================";
        "Consulta detalles de cualquier Pokémon usando la PokeAPI (https://pokeapi.co/).";
        "Bibliotecas requeridas: requests, json, os.";
        prompt] w.

(** *** Worlds and texts of a save *)

(** The world once the folder is there. *)
Definition made (w : world) : world :=
  match fs w !! POKEDEX_FOLDER with
  | Some _ => w
  | None => with_fs (<[POKEDEX_FOLDER := Dir]> (fs w)) w
  end.

(** The world once the record is in its file. *)
Definition written (i : info) (w : world) : world :=
  with_fs (<[ruta_completa i := File (Json.dumps (info_dict i))]> (fs w)) w.

(** What a save prints: when the folder cannot be made, when the file cannot
    be written, when the record is saved. *)
Definition folder_error_message (e : exn) : string :=
  nl +:+ "Error al crear la carpeta '" +:+ POKEDEX_FOLDER +:+ "': " +:+ exn_text e.

Definition write_error_message (i : info) (e : exn) : string :=
  nl +:+ "Error al escribir el archivo JSON en " +:+ ruta_completa i
  +:+ ": " +:+ exn_text e.

Definition saved_messages (i : info) : list string :=
  ["Información de " +:+ nombre i +:+ " guardada exitosamente en:";
   "   -> " +:+ ruta_completa i].

(** A key, a colon, a space and the text of the value. *)
Definition field (key text : string) : string :=
  Json.dump_str key +:+ ": " +:+ text.

(** The text of the file: the eight keys in the order of the dictionary,
    each on a line of its own after four spaces. *)
Definition file_text (i : info) : string :=
  "{" +:+ (nl +:+ "    ")
  +:+ Json.seq_text ("," +:+ (nl +:+ "    "))
        [field "nombre" (Json.dump_str (nombre i));
         field "id" (Json.dump 1 (id i));
         field "peso_kg" (Json.dump_float (peso_kg i));
         field "altura_m" (Json.dump_float (altura_m i));
         field "imagen_frontal_url" (Json.dump 1 (imagen_frontal_url i));
         field "tipos" (Json.dump 1 (texts (tipos i)));
         field "habilidades" (Json.dump 1 (texts (habilidades i)));
         field "movimientos_principales"
               (Json.dump 1 (texts (movimientos_principales i)))]
  +:+ nl +:+ "}".

(** A world where the file of bulbasaur holds an older text. *)
Definition stale : world :=
  {| stdout := []; requests := [];
     fs := {[ "pokedex" := Dir; "pokedex/bulbasaur.json" := File "{}" ]};
     writable := true; net := pokeapi |}.

(** *** Numbers and values as texts *)

(** The parts of a number after its integer digits. *)
Definition frac_text (frac : option uint) : string :=
  match frac with
  | Some f => "." +:+ FloatText.digits_text f
  | None => ""
  end.

Definition exp_text (exp : option (bool * uint)) : string :=
  match exp with
  | Some (neg, e) =>
      "e" +:+ (if neg then "-" else "+") +:+ FloatText.digits_text e
  | None => ""
  end.

(** A number the scanner reads whole: integer digits with no zero ahead,
    digits after the point and in the exponent when they are there. *)
Definition number_ok (t : FloatText.number) : bool :=
  Readable.no_leading_zero (FloatText.num_int t)
  && match FloatText.num_frac t with
     | Some f => Readable.some_digits f
     | None => true
     end
  && match FloatText.num_exp t with
     | Some (_, e) => Readable.some_digits e
     | None => true
     end.

(** The number an integer is written as. *)
Definition int_number (n : Z) : FloatText.number :=
  {| FloatText.num_neg := (n <? 0)%Z;
     FloatText.num_int := N.to_uint (Z.abs_N n);
     FloatText.num_frac := None;
     FloatText.num_exp := None |}.

(** Digits that start with none of zero. *)
Definition head_nonzero (ds : uint) : bool :=
  match ds with
  | Nil | D0 _ => false
  | _ => true
  end.

(** No blank, and no bracket that closes. *)
Definition head_ok (s : string) : bool :=
  match s with
  | String c _ =>
      negb (JsonRead.is_ws c) && negb (Ascii.eqb c "]") && negb (Ascii.eqb c "}")
  | EmptyString => false
  end.

(** Read with enough steps, the text of [v] gives [v] and leaves what
    follows it. *)
Definition reads_back (v : value) : Prop :=
  Readable.value_ok v = true ->
  forall (level fuel : nat) (rest : string),
    (Readable.size v <= fuel)%nat ->
    Readable.ends_number rest = true ->
    JsonRead.parse_value fuel (Json.dump level v +:+ rest) = Some (v, rest).

(** An item of a dict as written. *)
Definition member_text (level : nat) (kv : string * value) : string :=
  Json.dump_str (fst kv) +:+ ": " +:+ Json.dump (S level) (snd kv).

(** *** Notions of the further properties *)

(** The entry [out] comes from the type [t] of the source:
    [t["type"]["name"]] is a text, and when that text is ASCII, [out] is that
    name capitalized. *)
Definition from_type (t : value) (out : string) : Prop :=
  exists s, nested_name "type" t = Ok (VStr s)
            /\ (ascii_only s = true -> out = Text.capitalize s).

(** Two values of the key [moves] the extractor cannot tell apart: the same
    value, or two lists with the same first five items. *)
Definition same_first_five (a b : option value) : Prop :=
  a = b
  \/ exists l1 l2, a = Some (VList l1) /\ b = Some (VList l2)
                   /\ firstn 5 l1 = firstn 5 l2.

(** Bulbasaur as the service sends it at a later date: one more key, one more
    move at the end, the keys in another order. *)
Definition bulbasaur_later : list (string * value) :=
  [("name", VStr "bulbasaur");
   ("base_experience", VInt 64);
   ("weight", VInt 69);
   ("types", VList [named "type" "grass"; named "type" "poison"]);
   ("sprites", VDict [("back_default", VNone);
                      ("front_default", VStr "https://img/1.png")]);
   ("moves", VList (map (named "move") (bulbasaur_moves ++ ["growl"])));
   ("id", VInt 1);
   ("height", VInt 7);
   ("abilities", VList [named "ability" "overgrow"; named "ability" "chlorophyll"])].

(** The lines [mostrar_datos_pokemon] prints for a record. *)
Definition shown (i : info) : list string :=
  [nl +:+ rule;
   "¡POKÉMON ENCONTRADO! - " +:+ nombre i +:+ " (ID: " +:+ Repr.str (id i) +:+ ")";
   rule;
   " ESTADÍSTICAS";
   "  Peso: " +:+ FloatText.repr (peso_kg i) +:+ " kg";
   "  Tamaño (Altura): " +:+ FloatText.repr (altura_m i) +:+ " m";
   "TIPOS";
   "  Tipos: " +:+ Text.join ", " (tipos i);
   "HABILIDADES";
   "  Habilidades: " +:+ Text.join ", " (habilidades i);
   "MOVIMIENTOS PRINCIPALES";
   "  Top 5 Movimientos: " +:+ Text.join ", " (movimientos_principales i);
   "IMAGEN";
   "  Link de Imagen Frontal: " +:+ Repr.str (imagen_frontal_url i);
   nl +:+ rule].

(** The null character, which no path may hold. *)
Definition NUL : ascii := ascii_of_N 0.

(** A record with the name [name] and nothing else of note. *)
Definition info_named (name : string) : info :=
  {| nombre := name;
     id := VInt 122;
     peso_kg := S754_zero false;
     altura_m := S754_zero false;
     imagen_frontal_url := VNone;
     tipos := [];
     habilidades := [];
     movimientos_principales := [] |}.

(** A world where nothing may be created or written. *)
Definition read_only : world :=
  {| stdout := []; requests := [];
     fs := {[ "pokedex" := Dir; "pokedex/bulbasaur.json" := File "{}" ]};
     writable := false; net := pokeapi |}.

(** The record a run extracts, when it gets that far: the line is not empty,
    the answer is a response 200 whose body parsed, and the body is truthy
    and of the shape the extractor reads. *)
Definition extracted (typed : string) (w : world) : option info :=
  if String.eqb typed "" then None
  else
    match net w (request_url typed) with
    | Response status_code (Ok datos) =>
        if (status_code =? 200)%Z && Py.truthy datos then
          match extraer_informacion_relevante datos with
          | Ok i => Some i
          | Raise _ => None
          end
        else None
    | _ => None
    end.

(** A value that [str] and [json.dump] write whatever the limit the
    interpreter puts on the digits of an integer (4300 by default, 640 at
    least): [None], a boolean, a float, a text, or an integer below
    [10 ^ 640].  The model writes every integer; Python raises [ValueError]
    above the limit. *)
Definition printable (v : value) : bool :=
  match v with
  | VInt n => (Z.abs n <? 10 ^ 640)%Z
  | VList _ | VDict _ => false
  | _ => true
  end.

(** The components of a path, between its slashes; [current] holds the
    characters of the component being read, last first. *)
Fixpoint components_from (current path : string) : list string :=
  match path with
  | EmptyString => [String.rev current]
  | String c r =>
      if Ascii.eqb c "/" then String.rev current :: components_from "" r
      else components_from (String c current) r
  end.

Definition components (path : string) : list string := components_from "" path.

Definition plain_component (s : string) : bool :=
  negb (String.eqb s "") && negb (String.eqb s ".") && negb (String.eqb s "..").

(** A path written in the one way the file system of the model keys its
    files: relative to the working directory, its components separated by one
    slash each, none of them empty, [.] or [..].  Two such paths name the
    same file only when they are the same text. *)
Definition normal_path (path : string) : bool :=
  forallb plain_component (components path).

(** * Checks on concrete inputs *)

Example lower_ex : Text.lower " PIKACHU " = " pikachu ".
Proof. reflexivity. Qed.

Example strip_ex : Text.strip (Text.lower " PIKACHU ") = "pikachu".
Proof. reflexivity. Qed.

Example capitalize_ex : Text.capitalize (Text.replace "-" " " "razor-WIND") = "Razor wind".
Proof. reflexivity. Qed.

Example of_Z_ex : (Text.of_Z 404, Text.of_Z 0, Text.of_Z (-12)) = ("404", "0", "-12").
Proof. reflexivity. Qed.

Example strip_nbsp : Text.strip (String (ascii_of_N 194) (String (ascii_of_N 160) " a b  ")) = "a b".
Proof. reflexivity. Qed.

Example div_69 : Float.int_truediv 69 10 = Ok (S754_finite false 7768709357214106 (-50)).
Proof. reflexivity. Qed.

Example div_7 : Float.int_truediv 7 10 = Ok (S754_finite false 6305039478318694 (-53)).
Proof. reflexivity. Qed.

Example div_0 : Float.int_truediv 0 10 = Ok (S754_zero false).
Proof. reflexivity. Qed.

Example div_huge : Float.int_truediv (10 ^ 400) 10 = Raise OverflowError.
Proof. vm_compute. reflexivity. Qed.

Example extraer_bulbasaur :
  extraer_informacion_relevante bulbasaur = Ok bulbasaur_info.
Proof. reflexivity. Qed.

Example truthy_ex :
  map Py.truthy [VNone; VDict []; VList []; VStr ""; VInt 0; VStr "   "; bulbasaur]
  = [false; false; false; false; false; true; true].
Proof. reflexivity. Qed.

Example blank_normalized : request_url "   " = BASE_URL.
Proof. reflexivity. Qed.

Example accent_unescaped : Json.dump_str "Flabébé" = quoted "Flabébé".
Proof. reflexivity. Qed.

Example bulbasaur_file :
  Json.dumps (info_dict bulbasaur_info)
  = Text.join nl
      ["{";
       "    " +:+ quoted "nombre" +:+ ": " +:+ quoted "Bulbasaur" +:+ ",";
       "    " +:+ quoted "id" +:+ ": 1,";
       "    " +:+ quoted "peso_kg" +:+ ": 6.9,";
       "    " +:+ quoted "altura_m" +:+ ": 0.7,";
       "    " +:+ quoted "imagen_frontal_url" +:+ ": "
         +:+ quoted "https://img/1.png" +:+ ",";
       "    " +:+ quoted "tipos" +:+ ": [";
       "        " +:+ quoted "Grass" +:+ ",";
       "        " +:+ quoted "Poison";
       "    ],";
       "    " +:+ quoted "habilidades" +:+ ": [";
       "        " +:+ quoted "Overgrow" +:+ ",";
       "        " +:+ quoted "Chlorophyll";
       "    ],";
       "    " +:+ quoted "movimientos_principales" +:+ ": [";
       "        " +:+ quoted "Razor wind" +:+ ",";
       "        " +:+ quoted "Swords dance" +:+ ",";
       "        " +:+ quoted "Cut" +:+ ",";
       "        " +:+ quoted "Bind" +:+ ",";
       "        " +:+ quoted "Vine whip";
       "    ]";
       "}"].
Proof. vm_compute. reflexivity. Qed.

Example run_bulbasaur :
  let end_ := snd (ejecutar_pokedex " Bulbasaur " (fresh pokeapi)) in
  requests end_ = ["https://pokeapi.co/api/v2/pokemon/bulbasaur"]
  /\ read_info end_ "pokedex/bulbasaur.json" = Some bulbasaur_info
  /\ length (stdout end_) = 23%nat.
Proof. vm_compute. repeat split; reflexivity. Qed.

(** * Texts *)

Lemma app_cons (c : ascii) (s t : string) :
  String c s +:+ t = String c (s +:+ t).
Proof. reflexivity. Qed.

Lemma app_empty (s : string) : "" +:+ s = s.
Proof. reflexivity. Qed.

Lemma app_assoc_s (s t u : string) : (s +:+ t) +:+ u = s +:+ (t +:+ u).
Proof.
  induction s as [|c s IH]; [reflexivity|].
  rewrite !app_cons, IH. reflexivity.
Qed.

Lemma length_app_s (s t : string) :
  String.length (s +:+ t) = (String.length s + String.length t)%nat.
Proof.
  induction s as [|c s IH]; [reflexivity|].
  rewrite app_cons. simpl. rewrite IH. reflexivity.
Qed.

Ltac flatten :=
  repeat (rewrite app_assoc_s || rewrite app_cons || rewrite app_empty).

Lemma app_nil_r_s (s : string) : s +:+ "" = s.
Proof. induction s as [|c s IH]; [reflexivity|]. rewrite app_cons, IH. reflexivity. Qed.

(** * The extractor *)

Lemma bind_Ok {A B : Type} (m : result A) (f : A -> result B) (b : B) :
  m >>= f = Ok b -> exists a, m = Ok a /\ f a = Ok b.
Proof.
  destruct m as [a|e]; simpl; intros H; [eauto | discriminate].
Qed.

Lemma bind_Raise {A B : Type} (m : result A) (f : A -> result B) (e : exn) :
  m >>= f = Raise e -> m = Raise e \/ exists a, m = Ok a /\ f a = Raise e.
Proof.
  destruct m as [a|e']; simpl; intros H; [right; eauto | left; congruence].
Qed.

Lemma mapM_Ok {A B : Type} (f : A -> result B) (l : list A) (out : list B) :
  mapM f l = Ok out -> Forall2 (fun x y => f x = Ok y) l out.
Proof.
  revert out. induction l as [|x l IH]; simpl; intros out H.
  - injection H as <-. constructor.
  - apply bind_Ok in H as (y & Hy & H).
    destruct (mapM f l) as [ys|] eqn:Hl; simpl in H; [|discriminate].
    injection H as <-. constructor; auto.
Qed.

Lemma mapM_Raise {A B : Type} (f : A -> result B) (l : list A) (e : exn) :
  mapM f l = Raise e -> exists x, In x l /\ f x = Raise e.
Proof.
  induction l as [|x l IH]; simpl; intros H; [discriminate|].
  destruct (f x) as [y|e'] eqn:Hx; simpl in H.
  - destruct (mapM f l) as [ys|e''] eqn:Hl; simpl in H; [discriminate|].
    injection H as ->. destruct IH as (x' & Hin & Hx'); eauto.
  - injection H as ->. eauto.
Qed.

Lemma mapM_all_Ok {A B : Type} (f : A -> result B) (l : list A) :
  Forall (fun x => exists y, f x = Ok y) l -> exists out, mapM f l = Ok out.
Proof.
  induction 1 as [|x l (y & Hy) _ (out & IH)]; simpl.
  - eauto.
  - rewrite Hy, IH. simpl. eauto.
Qed.

(** The steps of a successful extraction, one per key of the result. *)
Lemma extraer_Ok (datos : value) (i : info) :
  extraer_informacion_relevante datos = Ok i ->
  (Py.getitem "name" datos >>= Py.str_method Text.capitalize = Ok (nombre i))
  /\ Py.getitem "id" datos = Ok (id i)
  /\ (Py.getitem "weight" datos >>= Py.div10 = Ok (peso_kg i))
  /\ (Py.getitem "height" datos >>= Py.div10 = Ok (altura_m i))
  /\ (Py.getitem "sprites" datos >>= Py.getitem "front_default"
      = Ok (imagen_frontal_url i))
  /\ (Py.getitem "types" datos >>= Py.iter >>= mapM tipo_de = Ok (tipos i))
  /\ (Py.getitem "abilities" datos >>= Py.iter >>= mapM habilidad_de
      = Ok (habilidades i))
  /\ (Py.getitem "moves" datos >>= Py.slice5 >>= Py.iter >>= mapM movimiento_de
      = Ok (movimientos_principales i)).
Proof.
  unfold extraer_informacion_relevante. intros H.
  repeat match type of H with
         | ?m >>= _ = Ok _ =>
             let a := fresh "a" in
             let Ha := fresh "Step" in
             destruct m as [a|] eqn:Ha; simpl in H; [|discriminate]
         end.
  injection H as <-. simpl. repeat split; reflexivity.
Qed.

Lemma getitem_error (key : string) (v : value) (e : exn) :
  Py.getitem key v = Raise e -> e = KeyError key \/ e = TypeError.
Proof.
  destruct v; simpl; try (intros [= <-]; auto).
  destruct (Py.lookup key items); intros [= <-]; auto.
Qed.

(** No letter case mapping makes a hyphen, and the replacement leaves
    none. *)
Lemma no_hyphen_char (c : ascii) :
  let c' := if Ascii.eqb c "-" then " "%char else c in
  Ascii.eqb "-" (Text.lower_char c') = false
  /\ Ascii.eqb "-" (Text.upper_char c') = false.
Proof.
  destruct c as [[] [] [] [] [] [] [] []]; vm_compute; split; reflexivity.
Qed.

Lemma no_hyphen_lower (s : string) :
  Text.contains "-" (Text.lower (Text.replace "-" " " s)) = false.
Proof.
  induction s as [|c s IH]; [reflexivity|].
  unfold Text.lower, Text.replace in *.
  cbn [Text.contains Text.map_chars].
  rewrite (proj1 (no_hyphen_char c)). exact IH.
Qed.

Lemma no_hyphen (s : string) :
  Text.contains "-" (Text.capitalize (Text.replace "-" " " s)) = false.
Proof.
  destruct s as [|c s]; [reflexivity|].
  pose proof (no_hyphen_lower s) as Hs.
  unfold Text.lower, Text.replace in *.
  cbn [Text.contains Text.map_chars Text.capitalize].
  rewrite (proj2 (no_hyphen_char c)). exact Hs.
Qed.

(** Capitalizing changes the case of letters and nothing else. *)
Lemma lower_char_idem (c : ascii) :
  Text.lower_char (Text.lower_char c) = Text.lower_char c
  /\ Text.lower_char (Text.upper_char c) = Text.lower_char c.
Proof.
  destruct c as [[] [] [] [] [] [] [] []]; vm_compute; split; reflexivity.
Qed.

Lemma lower_lower (s : string) : Text.lower (Text.lower s) = Text.lower s.
Proof.
  unfold Text.lower. induction s as [|c s IH]; [reflexivity|].
  cbn [Text.map_chars]. rewrite (proj1 (lower_char_idem c)), IH. reflexivity.
Qed.

(** Capitalizing changes the case of letters only.  (A law of Python on
    ASCII texts; outside ASCII, where Python maps letters the model leaves
    alone, it is a fact of the model and is used under [ascii_only].) *)
Lemma lower_capitalize (s : string) :
  Text.lower (Text.capitalize s) = Text.lower s.
Proof.
  destruct s as [|c s]; [reflexivity|].
  pose proof (lower_lower s) as Hs. unfold Text.lower in *.
  cbn [Text.capitalize Text.map_chars].
  rewrite (proj2 (lower_char_idem c)). unfold Text.lower. rewrite Hs.
  reflexivity.
Qed.

Lemma movimiento_de_Ok (m : value) (out : string) :
  movimiento_de m = Ok out ->
  exists s, nested_name "move" m = Ok (VStr s)
            /\ out = Text.capitalize (Text.replace "-" " " s).
Proof.
  unfold movimiento_de. intros H.
  destruct (nested_name "move" m) as [[]|] eqn:Hn; simpl in H; try discriminate.
  injection H as <-. eauto.
Qed.

(** C4: when the record holds a list of [n] moves, the extracted
    [movimientos_principales] has [min 5 n] entries; entry by entry, in the
    order of the source, it comes from one of the first five moves, whose
    [move.name] is a text; when that name is ASCII the entry is the name with
    its hyphens replaced by spaces, letter for letter but for the case (the
    code capitalizes it); no entry keeps a hyphen. *)
Theorem top_moves_first_five (datos : value) (moves : list value) (i : info) :
  Py.getitem "moves" datos = Ok (VList moves) ->
  extraer_informacion_relevante datos = Ok i ->
  length (movimientos_principales i) = Nat.min 5 (length moves)
  /\ Forall2 (from_move "move") (firstn 5 moves) (movimientos_principales i)
  /\ Forall (fun out => Text.contains "-" out = false)
            (movimientos_principales i).
Proof.
  intros Hmoves Hi.
  apply extraer_Ok in Hi as (_ & _ & _ & _ & _ & _ & _ & H).
  rewrite Hmoves in H. simpl in H. apply mapM_Ok in H.
  split; [|split].
  - rewrite <- (Forall2_length _ _ _ H). apply length_firstn.
  - eapply Forall2_impl; [exact H|]. intros m out Hm.
    apply movimiento_de_Ok in Hm as (s & Hs & ->). exists s.
    split; [exact Hs|]. intros _.
    split; [reflexivity | apply lower_capitalize].
  - induction H as [|m out ms outs Hm _ IH]; constructor; [|exact IH].
    apply movimiento_de_Ok in Hm as (s & _ & ->). apply no_hyphen.
Qed.

Lemma top_moves_first_five_witness :
  length (movimientos_principales bulbasaur_info) = 5%nat
  /\ Forall2 (from_move "move")
             (firstn 5 (map (named "move") bulbasaur_moves))
             (movimientos_principales bulbasaur_info)
  /\ Forall (fun out => Text.contains "-" out = false)
            (movimientos_principales bulbasaur_info).
Proof.
  apply (top_moves_first_five bulbasaur (map (named "move") bulbasaur_moves)).
  - reflexivity.
  - reflexivity.
Defined.

(** C5: with a weight [w] and a height [h] that are integers, not negative,
    the extracted [peso_kg] is [w / 10] and [altura_m] is [h / 10]: the
    quotient of the integer by ten, rounded once to a float, and no other
    value. *)
Theorem weight_height_tenth (datos : value) (w h : Z) (i : info) :
  (0 <= w)%Z -> (0 <= h)%Z ->
  Py.getitem "weight" datos = Ok (VInt w) ->
  Py.getitem "height" datos = Ok (VInt h) ->
  extraer_informacion_relevante datos = Ok i ->
  Float.int_truediv w 10 = Ok (peso_kg i)
  /\ Float.int_truediv h 10 = Ok (altura_m i).
Proof.
  intros _ _ Hw Hh Hi.
  apply extraer_Ok in Hi as (_ & _ & Hp & Ha & _).
  rewrite Hw in Hp. rewrite Hh in Ha. simpl in Hp, Ha. auto.
Qed.

Lemma weight_height_tenth_witness :
  Float.int_truediv 69 10 = Ok (peso_kg bulbasaur_info)
  /\ Float.int_truediv 7 10 = Ok (altura_m bulbasaur_info).
Proof.
  apply (weight_height_tenth bulbasaur 69 7 bulbasaur_info).
  - lia.
  - lia.
  - reflexivity.
  - reflexivity.
  - reflexivity.
Defined.

(** *** Missing keys *)

Lemma shapely_bind {A B : Type} (m : result A) (f : A -> result B) :
  shapely m -> (forall a, shapely (f a)) -> shapely (m >>= f).
Proof.
  intros Hm Hf e H. apply bind_Raise in H as [H | (a & _ & H)].
  - exact (Hm e H).
  - exact (Hf a e H).
Qed.

Lemma shapely_ret {A : Type} (a : A) : shapely (mret a).
Proof. intros e H. discriminate. Qed.

Lemma shapely_getitem (key : string) (v : value) : shapely (Py.getitem key v).
Proof. intros e H. apply getitem_error in H as [-> | ->]; reflexivity. Qed.

Lemma shapely_str_method (f : string -> string) (v : value) :
  shapely (Py.str_method f v).
Proof. intros e. destruct v; simpl; intros [= <-]; reflexivity. Qed.

Lemma shapely_iter (v : value) : shapely (Py.iter v).
Proof. intros e. destruct v; simpl; intros [= <-]; reflexivity. Qed.

Lemma shapely_slice5 (v : value) : shapely (Py.slice5 v).
Proof. intros e. destruct v; simpl; intros [= <-]; reflexivity. Qed.

Lemma shapely_int_truediv (n : Z) : shapely (Float.int_truediv n 10).
Proof.
  intros e. unfold Float.int_truediv.
  destruct n; try discriminate;
    match goal with
    | |- context [SFdiv ?p ?m ?x ?y] => destruct (SFdiv p m x y)
    end; intros [= <-]; reflexivity.
Qed.

Lemma shapely_div10 (v : value) : shapely (Py.div10 v).
Proof.
  destruct v; simpl; try (intros e [= <-]; reflexivity);
    try apply shapely_int_truediv.
Qed.

Lemma shapely_mapM {A B : Type} (f : A -> result B) (l : list A) :
  (forall a, shapely (f a)) -> shapely (mapM f l).
Proof.
  intros Hf e H. apply mapM_Raise in H as (x & _ & H). exact (Hf x e H).
Qed.

Lemma shapely_nested_name (outer : string) (x : value) :
  shapely (nested_name outer x).
Proof.
  apply shapely_bind; [apply shapely_getitem | intros; apply shapely_getitem].
Qed.

Create HintDb shapely.

#[local] Hint Resolve shapely_getitem shapely_str_method shapely_iter
  shapely_slice5 shapely_div10 shapely_nested_name shapely_ret : shapely.

Ltac shapely :=
  repeat first
    [ apply shapely_bind; [|intros ?]
    | apply shapely_mapM; intros ?
    | solve [auto with shapely] ].

(** Whatever the record, an exception out of the extractor is one of the
    shape of the data: never one of the network or of the file system. *)
Lemma extraer_shapely (datos : value) :
  shapely (extraer_informacion_relevante datos).
Proof.
  unfold extraer_informacion_relevante, tipo_de, habilidad_de, movimiento_de.
  shapely.
Qed.

Lemma shape_error_not_network (e : exn) :
  shape_error e = true -> is_request_exception e = false /\ is_os_error e = false.
Proof. destruct e; simpl; intros H; try discriminate; auto. Qed.

Lemma getitem_has_key (key : string) (v x : value) :
  Py.getitem key v = Ok x -> has_key key v = true.
Proof.
  destruct v; simpl; try discriminate.
  destruct (Py.lookup key items); [reflexivity | discriminate].
Qed.

Lemma bound_has_key {B : Type} (key : string) (v : value)
    (f : value -> result B) (b : B) :
  Py.getitem key v >>= f = Ok b -> has_key key v = true.
Proof.
  intros H. apply bind_Ok in H as (x & H & _). exact (getitem_has_key _ _ _ H).
Qed.

Lemma nested_name_has (outer : string) (x y : value) :
  nested_name outer x = Ok y -> has_name_under outer x = true.
Proof.
  unfold nested_name, has_name_under. intros H.
  apply bind_Ok in H as (z & -> & H). exact (getitem_has_key _ _ _ H).
Qed.

Lemma all_named_of_mapM (outer : string) (f : value -> result string)
    (r : result value) (out : list string) :
  (forall x y, f x = Ok y -> has_name_under outer x = true) ->
  r >>= Py.iter >>= mapM f = Ok out ->
  all_named outer r = true.
Proof.
  intros Hf H. apply bind_Ok in H as (entries & Hentries & H).
  unfold all_named. rewrite Hentries. apply mapM_Ok in H. clear Hentries.
  induction H as [|x y xs ys Hxy _ IH]; simpl; [reflexivity|].
  rewrite (Hf x y Hxy). exact IH.
Qed.

Lemma tipo_de_has (x : value) (y : string) :
  tipo_de x = Ok y -> has_name_under "type" x = true.
Proof.
  unfold tipo_de. intros H. apply bind_Ok in H as (z & H & _).
  exact (nested_name_has _ _ _ H).
Qed.

Lemma habilidad_de_has (x : value) (y : string) :
  habilidad_de x = Ok y -> has_name_under "ability" x = true.
Proof.
  unfold habilidad_de. intros H. apply bind_Ok in H as (s & H & _).
  apply bind_Ok in H as (z & H & _). exact (nested_name_has _ _ _ H).
Qed.

Lemma movimiento_de_has (x : value) (y : string) :
  movimiento_de x = Ok y -> has_name_under "move" x = true.
Proof.
  intros H. apply movimiento_de_Ok in H as (s & H & _).
  exact (nested_name_has _ _ _ H).
Qed.

(** A record the extractor accepts holds every key it reads. *)
Lemma extraer_Ok_keys (datos : value) (i : info) :
  extraer_informacion_relevante datos = Ok i -> keys_read datos = true.
Proof.
  intros H.
  apply extraer_Ok in H as (Hn & Hid & Hw & Hh & Hs & Ht & Ha & Hm).
  unfold keys_read, keys_outside_moves.
  rewrite (bound_has_key _ _ _ _ Hn), (getitem_has_key _ _ _ Hid),
    (bound_has_key _ _ _ _ Hw), (bound_has_key _ _ _ _ Hh).
  apply bind_Ok in Hs as (sprites & -> & Hs).
  rewrite (getitem_has_key _ _ _ Hs).
  rewrite (all_named_of_mapM _ _ _ _ tipo_de_has Ht),
    (all_named_of_mapM _ _ _ _ habilidad_de_has Ha),
    (all_named_of_mapM _ _ _ _ movimiento_de_has Hm).
  reflexivity.
Qed.

(** C1, as the code has it: a record that lacks a key the extractor reads
    ([name], [id], [weight], [height], [sprites.front_default], the
    [type.name] of every type, the [ability.name] of every ability, the
    [move.name] of each of the first five moves) makes the extractor raise an
    exception of the shape of the data, which is none of the network and none
    of the file system; no record is built. *)
Theorem missing_key_raises (datos : value) :
  keys_read datos = false ->
  exists e, extraer_informacion_relevante datos = Raise e
            /\ shape_error e = true
            /\ is_request_exception e = false
            /\ is_os_error e = false.
Proof.
  intros Hkeys.
  destruct (extraer_informacion_relevante datos) as [i|e] eqn:H.
  - apply extraer_Ok_keys in H. congruence.
  - exists e. pose proof (extraer_shapely datos e H) as He.
    destruct (shape_error_not_network e He). auto.
Qed.

Lemma missing_key_raises_witness :
  exists e, extraer_informacion_relevante nameless = Raise e
            /\ shape_error e = true
            /\ is_request_exception e = false
            /\ is_os_error e = false.
Proof.
  apply (missing_key_raises nameless). reflexivity.
Defined.

(** The first key a dictionary lacks is the one the exception names. *)
Lemma missing_name_KeyError (items : list (string * value)) :
  has_key "name" (VDict items) = false ->
  extraer_informacion_relevante (VDict items) = Raise (KeyError "name").
Proof.
  unfold extraer_informacion_relevante. simpl.
  destruct (Py.lookup "name" items); [discriminate | reflexivity].
Qed.


(** *** When the extractor succeeds *)

Lemma key_is_text (f : string -> string) (key : string) (v : value) :
  key_is is_text key v = true ->
  exists s, Py.getitem key v >>= Py.str_method f = Ok (f s).
Proof.
  unfold key_is. destruct (Py.getitem key v) as [[]|]; try discriminate.
  intros _. eexists. reflexivity.
Qed.

Lemma key_has_tenth (key : string) (v : value) :
  key_is has_tenth key v = true ->
  exists f, Py.getitem key v >>= Py.div10 = Ok f.
Proof.
  unfold key_is, has_tenth. destruct (Py.getitem key v) as [x|]; [|discriminate].
  simpl. destruct (Py.div10 x) as [f|]; [eauto | discriminate].
Qed.

Lemma named_text_Ok (f : string -> string) (outer : string) (x : value) :
  key_is (key_is is_text "name") outer x = true ->
  exists s, nested_name outer x >>= Py.str_method f = Ok (f s).
Proof.
  unfold key_is at 1, nested_name.
  destruct (Py.getitem outer x) as [y|]; [|discriminate]. simpl.
  apply key_is_text.
Qed.

Lemma all_texts_mapM (outer : string) (g : value -> result string)
    (r : result value) :
  (forall x, key_is (key_is is_text "name") outer x = true ->
             exists y, g x = Ok y) ->
  all_texts outer r = true ->
  exists out, r >>= Py.iter >>= mapM g = Ok out.
Proof.
  intros Hg. unfold all_texts.
  destruct (r >>= Py.iter) as [entries|]; [|discriminate]. simpl.
  intros Hall. apply mapM_all_Ok. apply Forall_forall. intros x Hin.
  apply Hg. rewrite forallb_forall in Hall. apply Hall.
  apply list_elem_of_In. exact Hin.
Qed.

(** A record of the accepted shape is extracted, and only such a record
    is. *)
Lemma extraer_well_shaped (datos : value) :
  well_shaped datos = true ->
  exists i, extraer_informacion_relevante datos = Ok i.
Proof.
  unfold well_shaped. intros H.
  apply andb_prop in H as [H Hmoves]. apply andb_prop in H as [H Habilities].
  apply andb_prop in H as [H Htypes]. apply andb_prop in H as [H Hsprites].
  apply andb_prop in H as [H Hheight]. apply andb_prop in H as [H Hweight].
  apply andb_prop in H as [Hname Hid].
  destruct (key_is_text Text.capitalize _ _ Hname) as (n & Hn).
  assert (Hx : exists x, Py.getitem "id" datos = Ok x).
  { destruct datos; try discriminate. simpl in *.
    destruct (Py.lookup "id" items); [eauto | discriminate]. }
  destruct Hx as (x & Hx).
  destruct (key_has_tenth _ _ Hweight) as (p & Hp).
  destruct (key_has_tenth _ _ Hheight) as (a & Ha).
  assert (Hu : exists u, Py.getitem "sprites" datos
                         >>= Py.getitem "front_default" = Ok u).
  { unfold key_is in Hsprites. destruct (Py.getitem "sprites" datos) as [s|];
      [|discriminate]. simpl. destruct s; try discriminate. simpl in *.
    destruct (Py.lookup "front_default" items); [eauto | discriminate]. }
  destruct Hu as (u & Hu).
  assert (Ht : exists t, Py.getitem "types" datos >>= Py.iter
                         >>= mapM tipo_de = Ok t).
  { apply (all_texts_mapM "type"); [|exact Htypes].
    intros y Hy. destruct (named_text_Ok Text.capitalize _ _ Hy) as (s & Hs).
    unfold tipo_de. eauto. }
  assert (Hh : exists h, Py.getitem "abilities" datos >>= Py.iter
                         >>= mapM habilidad_de = Ok h).
  { apply (all_texts_mapM "ability"); [|exact Habilities].
    intros y Hy.
    destruct (named_text_Ok (Text.replace "-" " ") _ _ Hy) as (s & Hs).
    unfold habilidad_de. rewrite Hs. simpl. eauto. }
  assert (Hm : exists m, Py.getitem "moves" datos >>= Py.slice5 >>= Py.iter
                         >>= mapM movimiento_de = Ok m).
  { apply (all_texts_mapM "move"); [|exact Hmoves].
    intros y Hy.
    destruct (named_text_Ok (Text.replace "-" " ") _ _ Hy) as (s & Hs).
    unfold movimiento_de. rewrite Hs. simpl. eauto. }
  destruct Ht as (t & Ht), Hh as (h & Hh), Hm as (m & Hm).
  unfold extraer_informacion_relevante.
  rewrite Hn; simpl. rewrite Hx; simpl. rewrite Hp; simpl. rewrite Ha; simpl.
  rewrite Hu; simpl. rewrite Ht; simpl. rewrite Hh; simpl. rewrite Hm; simpl.
  eauto.
Qed.

Lemma text_key_is (f : string -> string) (key : string) (v : value) (s : string) :
  Py.getitem key v >>= Py.str_method f = Ok s -> key_is is_text key v = true.
Proof.
  unfold key_is. destruct (Py.getitem key v) as [[]|]; simpl; try discriminate.
  reflexivity.
Qed.

Lemma text_named (f : string -> string) (outer : string) (x : value) (s : string) :
  nested_name outer x >>= Py.str_method f = Ok s ->
  key_is (key_is is_text "name") outer x = true.
Proof.
  unfold key_is at 1, nested_name.
  destruct (Py.getitem outer x) as [y|]; simpl; [|discriminate].
  apply text_key_is.
Qed.

Lemma tenth_key_is (key : string) (v : value) (f : spec_float) :
  Py.getitem key v >>= Py.div10 = Ok f -> key_is has_tenth key v = true.
Proof.
  unfold key_is, has_tenth. destruct (Py.getitem key v) as [x|]; simpl;
    [|discriminate].
  intros ->. reflexivity.
Qed.

Lemma mapM_all_texts (outer : string) (g : value -> result string)
    (r : result value) (out : list string) :
  (forall x y, g x = Ok y -> key_is (key_is is_text "name") outer x = true) ->
  r >>= Py.iter >>= mapM g = Ok out ->
  all_texts outer r = true.
Proof.
  intros Hg. unfold all_texts.
  destruct (r >>= Py.iter) as [entries|]; simpl; [|discriminate].
  intros H. apply mapM_Ok in H. apply forallb_forall. intros x Hin.
  induction H as [|x' y l l' Hxy _ IH]; [destruct Hin|].
  destruct Hin as [<- | Hin]; eauto.
Qed.

Lemma extraer_Ok_well_shaped (datos : value) (i : info) :
  extraer_informacion_relevante datos = Ok i -> well_shaped datos = true.
Proof.
  intros H. apply extraer_Ok in H
    as (Hn & Hx & Hp & Ha & Hu & Ht & Hh & Hm).
  unfold well_shaped.
  rewrite (text_key_is _ _ _ _ Hn), (getitem_has_key _ _ _ Hx),
    (tenth_key_is _ _ _ Hp), (tenth_key_is _ _ _ Ha).
  rewrite (mapM_all_texts "type" tipo_de _ _) with (2 := Ht).
  2: { intros x y. unfold tipo_de. apply text_named. }
  rewrite (mapM_all_texts "ability" habilidad_de _ _) with (2 := Hh).
  2: { intros x y Hy. unfold habilidad_de in Hy.
       apply bind_Ok in Hy as (s & Hs & _). exact (text_named _ _ _ _ Hs). }
  rewrite (mapM_all_texts "move" movimiento_de _ _) with (2 := Hm).
  2: { intros x y Hy. unfold movimiento_de in Hy.
       apply bind_Ok in Hy as (s & Hs & _). exact (text_named _ _ _ _ Hs). }
  apply bind_Ok in Hu as (s & Hs & Hu). unfold key_is. rewrite Hs.
  rewrite (getitem_has_key _ _ _ Hu). reflexivity.
Qed.

(** The extractor returns a record exactly for the records of the accepted
    shape. *)
Lemma extraer_iff_well_shaped (datos : value) :
  (exists i, extraer_informacion_relevante datos = Ok i)
  <-> well_shaped datos = true.
Proof.
  split; [intros (i & H); exact (extraer_Ok_well_shaped _ _ H)
         | apply extraer_well_shaped].
Qed.

Example bulbasaur_well_shaped : well_shaped bulbasaur = true.
Proof. reflexivity. Qed.
(** * The normal form of a name *)

Lemma by_length (P : string -> Prop) :
  (forall s, (forall t, (String.length t < String.length s)%nat -> P t) -> P s) ->
  forall s, P s.
Proof.
  intros H s. remember (String.length s) as n eqn:Hn. revert s Hn.
  induction n as [n IH] using lt_wf_ind. intros s ->.
  apply H. intros t Ht. exact (IH _ Ht t eq_refl).
Qed.

Lemma rev_app_app (s t : string) : String.rev_app s t = String.rev s +:+ t.
Proof.
  unfold String.rev. revert t. induction s as [|c s IH]; intros t.
  - reflexivity.
  - cbn [String.rev_app]. rewrite IH, (IH (String c "")), app_assoc_s.
    reflexivity.
Qed.

Lemma rev_cons (c : ascii) (s : string) :
  String.rev (String c s) = String.rev s +:+ String c "".
Proof. unfold String.rev at 1. cbn [String.rev_app]. apply rev_app_app. Qed.

Lemma rev_app_distr_s (s t : string) :
  String.rev (s +:+ t) = String.rev t +:+ String.rev s.
Proof.
  induction s as [|c s IH].
  - rewrite app_empty. change (String.rev "") with "". rewrite app_nil_r_s.
    reflexivity.
  - rewrite app_cons, !rev_cons, IH, app_assoc_s. reflexivity.
Qed.

Lemma rev_involutive_s (s : string) : String.rev (String.rev s) = s.
Proof.
  induction s as [|c s IH]; [reflexivity|].
  rewrite rev_cons, rev_app_distr_s, IH. reflexivity.
Qed.

Lemma map_chars_app (f : ascii -> ascii) (s t : string) :
  Text.map_chars f (s +:+ t) = Text.map_chars f s +:+ Text.map_chars f t.
Proof.
  induction s as [|c s IH]; [reflexivity|].
  rewrite app_cons. cbn [Text.map_chars]. rewrite IH, app_cons. reflexivity.
Qed.

Lemma map_chars_rev (f : ascii -> ascii) (s : string) :
  Text.map_chars f (String.rev s) = String.rev (Text.map_chars f s).
Proof.
  induction s as [|c s IH]; [reflexivity|].
  cbn [Text.map_chars]. rewrite !rev_cons, map_chars_app, IH. reflexivity.
Qed.

(** The case mapping moves letters only, and no byte of a blank is a
    letter. *)
Lemma lower_char_cases (c : ascii) :
  Text.lower_char c = c
  \/ ((Text.code c <=? 122) && (Text.code (Text.lower_char c) <=? 122))%N = true.
Proof.
  destruct c as [[] [] [] [] [] [] [] []];
    first [left; reflexivity | right; reflexivity].
Qed.

Lemma code_lower_high (n : N) (c : ascii) :
  (123 <= n)%N ->
  (Text.code (Text.lower_char c) =? n)%N = (Text.code c =? n)%N.
Proof.
  intros Hn. destruct (lower_char_cases c) as [-> | H]; [reflexivity|].
  apply andb_prop in H as [H1 H2].
  apply N.leb_le in H1, H2.
  transitivity false; [|symmetry]; apply N.eqb_neq; lia.
Qed.

Lemma in_range_lower_high (lo hi : N) (c : ascii) :
  (123 <= lo)%N ->
  Text.in_range lo hi (Text.lower_char c) = Text.in_range lo hi c.
Proof.
  intros Hn. destruct (lower_char_cases c) as [-> | H]; [reflexivity|].
  apply andb_prop in H as [H1 H2].
  apply N.leb_le in H1, H2. unfold Text.in_range.
  transitivity false; [|symmetry]; apply andb_false_iff; left;
    apply N.leb_gt; lia.
Qed.

Lemma space1_lower (c : ascii) :
  Text.space1 (Text.lower_char c) = Text.space1 c.
Proof. destruct c as [[] [] [] [] [] [] [] []]; reflexivity. Qed.

Lemma space2_lower (c1 c2 : ascii) :
  Text.space2 (Text.lower_char c1) (Text.lower_char c2) = Text.space2 c1 c2.
Proof. unfold Text.space2. rewrite !code_lower_high by lia. reflexivity. Qed.

Lemma space3_lower (c1 c2 c3 : ascii) :
  Text.space3 (Text.lower_char c1) (Text.lower_char c2) (Text.lower_char c3)
  = Text.space3 c1 c2 c3.
Proof.
  unfold Text.space3.
  rewrite !code_lower_high, !in_range_lower_high by lia. reflexivity.
Qed.

Lemma lstrip_gen_cons (back : bool) (c1 : ascii) (r1 : string) :
  Text.lstrip_gen back (String c1 r1) =
  if Text.space1 c1 then Text.lstrip_gen back r1 else
  match r1 with
  | String c2 r2 =>
      if (if back then Text.space2 c2 c1 else Text.space2 c1 c2)
      then Text.lstrip_gen back r2 else
      match r2 with
      | String c3 r3 =>
          if (if back then Text.space3 c3 c2 c1 else Text.space3 c1 c2 c3)
          then Text.lstrip_gen back r3 else String c1 r1
      | EmptyString => String c1 r1
      end
  | EmptyString => String c1 r1
  end.
Proof. reflexivity. Qed.

Lemma lstrip_gen_lower (back : bool) (s : string) :
  Text.lstrip_gen back (Text.lower s) = Text.lower (Text.lstrip_gen back s).
Proof.
  unfold Text.lower. induction s as [s IH] using by_length.
  destruct s as [|c1 r1]; [reflexivity|].
  cbn [Text.map_chars]. rewrite (lstrip_gen_cons back c1), lstrip_gen_cons.
  rewrite space1_lower. destruct (Text.space1 c1).
  { apply IH. simpl. lia. }
  destruct r1 as [|c2 r2]; [reflexivity|].
  cbn [Text.map_chars].
  replace (if back then Text.space2 (Text.lower_char c2) (Text.lower_char c1)
           else Text.space2 (Text.lower_char c1) (Text.lower_char c2))
    with (if back then Text.space2 c2 c1 else Text.space2 c1 c2)
    by (rewrite !space2_lower; reflexivity).
  destruct (if back then Text.space2 c2 c1 else Text.space2 c1 c2).
  { apply IH. simpl. lia. }
  destruct r2 as [|c3 r3]; [reflexivity|].
  cbn [Text.map_chars].
  replace (if back
           then Text.space3 (Text.lower_char c3) (Text.lower_char c2)
                  (Text.lower_char c1)
           else Text.space3 (Text.lower_char c1) (Text.lower_char c2)
                  (Text.lower_char c3))
    with (if back then Text.space3 c3 c2 c1 else Text.space3 c1 c2 c3)
    by (rewrite !space3_lower; reflexivity).
  destruct (if back then Text.space3 c3 c2 c1 else Text.space3 c1 c2 c3);
    [|reflexivity].
  apply IH. simpl. lia.
Qed.

Lemma lstrip_gen_length (back : bool) (s : string) :
  (String.length (Text.lstrip_gen back s) <= String.length s)%nat.
Proof.
  induction s as [s IH] using by_length.
  destruct s as [|c1 r1]; [reflexivity|].
  rewrite lstrip_gen_cons. destruct (Text.space1 c1).
  { specialize (IH r1). simpl in *. lia. }
  destruct r1 as [|c2 r2]; [reflexivity|].
  destruct (if back then Text.space2 c2 c1 else Text.space2 c1 c2).
  { specialize (IH r2). simpl in *. lia. }
  destruct r2 as [|c3 r3]; [reflexivity|].
  destruct (if back then Text.space3 c3 c2 c1 else Text.space3 c1 c2 c3);
    [|reflexivity].
  specialize (IH r3). simpl in *. lia.
Qed.

Lemma lstrip_gen_idem (back : bool) (s : string) :
  Text.lstrip_gen back (Text.lstrip_gen back s) = Text.lstrip_gen back s.
Proof.
  induction s as [s IH] using by_length.
  destruct s as [|c1 r1]; [reflexivity|].
  rewrite (lstrip_gen_cons back c1 r1). destruct (Text.space1 c1) eqn:H1.
  { apply IH. simpl. lia. }
  destruct r1 as [|c2 r2].
  { rewrite lstrip_gen_cons, H1. reflexivity. }
  destruct (if back then Text.space2 c2 c1 else Text.space2 c1 c2) eqn:H2.
  { apply IH. simpl. lia. }
  destruct r2 as [|c3 r3].
  { rewrite lstrip_gen_cons, H1, H2. reflexivity. }
  destruct (if back then Text.space3 c3 c2 c1 else Text.space3 c1 c2 c3) eqn:H3.
  { apply IH. simpl. lia. }
  rewrite lstrip_gen_cons, H1, H2, H3. reflexivity.
Qed.

Lemma lstrip_gen_suffix (back : bool) (s : string) :
  exists pre, s = pre +:+ Text.lstrip_gen back s.
Proof.
  induction s as [s IH] using by_length.
  assert (Hcut : forall pre t, (String.length t < String.length s)%nat ->
                 s = pre +:+ t ->
                 exists pre', s = pre' +:+ Text.lstrip_gen back t).
  { intros pre t Ht ->. destruct (IH t Ht) as (p & Hp).
    exists (pre +:+ p). rewrite app_assoc_s, <- Hp. reflexivity. }
  assert (Hsame : exists pre, s = pre +:+ s) by (exists ""; reflexivity).
  destruct s as [|c1 r1]; [exact Hsame|].
  rewrite lstrip_gen_cons. destruct (Text.space1 c1).
  { apply (Hcut (String c1 "")); [simpl; lia | reflexivity]. }
  destruct r1 as [|c2 r2]; [exact Hsame|].
  destruct (if back then Text.space2 c2 c1 else Text.space2 c1 c2).
  { apply (Hcut (String c1 (String c2 ""))); [simpl; lia | reflexivity]. }
  destruct r2 as [|c3 r3]; [exact Hsame|].
  destruct (if back then Text.space3 c3 c2 c1 else Text.space3 c1 c2 c3);
    [|exact Hsame].
  apply (Hcut (String c1 (String c2 (String c3 ""))));
    [simpl; lia | reflexivity].
Qed.

(** A text with no blank at its head has none after its end is cut. *)
Lemma lstrip_prefix (t post : string) :
  Text.lstrip (t +:+ post) = t +:+ post -> Text.lstrip t = t.
Proof.
  unfold Text.lstrip.
  assert (Hshort : forall u v, (String.length u < String.length v)%nat ->
                   Text.lstrip_gen false u <> v).
  { intros u v Hlt Heq. pose proof (lstrip_gen_length false u) as Hle.
    rewrite Heq in Hle. lia. }
  destruct t as [|c1 r1]; [reflexivity|].
  rewrite app_cons, !lstrip_gen_cons. destruct (Text.space1 c1).
  { intros H. exfalso. revert H. apply Hshort. simpl. lia. }
  destruct r1 as [|c2 r2]; [reflexivity|].
  rewrite app_cons. destruct (Text.space2 c1 c2).
  { intros H. exfalso. revert H. apply Hshort. simpl. lia. }
  destruct r2 as [|c3 r3]; [reflexivity|].
  rewrite app_cons. destruct (Text.space3 c1 c2 c3); [|reflexivity].
  intros H. exfalso. revert H. apply Hshort. simpl. lia.
Qed.

Lemma rstrip_prefix (s : string) : exists post, s = Text.rstrip s +:+ post.
Proof.
  unfold Text.rstrip.
  destruct (lstrip_gen_suffix true (String.rev s)) as (pre & Hpre).
  exists (String.rev pre).
  rewrite <- rev_app_distr_s, <- Hpre, rev_involutive_s. reflexivity.
Qed.

Lemma rstrip_idem (s : string) : Text.rstrip (Text.rstrip s) = Text.rstrip s.
Proof.
  unfold Text.rstrip. rewrite rev_involutive_s, lstrip_gen_idem. reflexivity.
Qed.

Lemma strip_idem (s : string) : Text.strip (Text.strip s) = Text.strip s.
Proof.
  unfold Text.strip.
  destruct (rstrip_prefix (Text.lstrip s)) as (post & Hpost).
  rewrite (lstrip_prefix (Text.rstrip (Text.lstrip s)) post).
  - apply rstrip_idem.
  - rewrite <- Hpost. apply lstrip_gen_idem.
Qed.

Lemma lower_rev (s : string) :
  Text.lower (String.rev s) = String.rev (Text.lower s).
Proof. apply map_chars_rev. Qed.

Lemma lower_strip (s : string) :
  Text.lower (Text.strip s) = Text.strip (Text.lower s).
Proof.
  unfold Text.strip, Text.rstrip, Text.lstrip.
  rewrite lstrip_gen_lower, <- lower_rev, lstrip_gen_lower, <- lower_rev.
  reflexivity.
Qed.

(** The normal form of a name is its own normal form. *)
Lemma normalizado_idem (q : string) :
  nombre_normalizado (nombre_normalizado q) = nombre_normalizado q.
Proof.
  unfold nombre_normalizado.
  rewrite <- lower_strip, strip_idem, lower_strip, lower_lower. reflexivity.
Qed.

(** * Paths *)

Lemma contains_app (c : ascii) (s t : string) :
  Text.contains c (s +:+ t) = Text.contains c s || Text.contains c t.
Proof.
  induction s as [|c' s IH]; [reflexivity|].
  rewrite app_cons. cbn [Text.contains]. rewrite IH, orb_assoc. reflexivity.
Qed.

Lemma contains_map_chars (c : ascii) (f : ascii -> ascii) (s : string) :
  (forall x, Ascii.eqb c (f x) = Ascii.eqb c x) ->
  Text.contains c (Text.map_chars f s) = Text.contains c s.
Proof.
  intros Hf. induction s as [|x s IH]; [reflexivity|].
  cbn [Text.map_chars Text.contains]. rewrite Hf, IH. reflexivity.
Qed.

Lemma slash_lower_char (x : ascii) :
  Ascii.eqb "/" (Text.lower_char x) = Ascii.eqb "/" x.
Proof. destruct x as [[] [] [] [] [] [] [] []]; reflexivity. Qed.

Lemma slash_underscore (x : ascii) :
  Ascii.eqb "/" (if Ascii.eqb x " " then "_"%char else x) = Ascii.eqb "/" x.
Proof. destruct x as [[] [] [] [] [] [] [] []]; reflexivity. Qed.

Lemma slash_in_file_name (i : info) :
  Text.contains "/" (nombre_archivo i) = Text.contains "/" (nombre i).
Proof.
  unfold nombre_archivo, Text.replace, Text.lower.
  rewrite contains_app, !contains_map_chars
    by (apply slash_underscore || apply slash_lower_char).
  apply orb_false_r.
Qed.

Lemma contains_starts_with (c : ascii) (s : string) :
  Text.contains c s = false -> Text.starts_with c s = false.
Proof.
  destruct s as [|c' s]; [reflexivity|]. cbn [Text.contains Text.starts_with].
  intros H. apply orb_false_elim in H as [H _]. exact H.
Qed.

Lemma eqb_false_length (a b : string) :
  String.length a <> String.length b -> String.eqb a b = false.
Proof. intros H. apply String.eqb_neq. intros ->. exact (H eq_refl). Qed.

(** The one component of a text without a slash. *)
Lemma components_from_plain (current s : string) :
  Text.contains "/" s = false ->
  components_from current s = [String.rev current +:+ s].
Proof.
  revert current. induction s as [|c s IH]; intros current H.
  - cbn [components_from]. rewrite app_nil_r_s. reflexivity.
  - cbn [Text.contains] in H. apply orb_false_elim in H as [Hc Hs].
    cbn [components_from].
    rewrite Ascii.eqb_sym, Hc, (IH _ Hs), rev_cons, app_assoc_s.
    reflexivity.
Qed.

Lemma components_from_slash (current p s : string) :
  Text.contains "/" p = false ->
  components_from current (p +:+ String "/" s)
  = (String.rev current +:+ p) :: components_from "" s.
Proof.
  revert current. induction p as [|c p IH]; intros current H.
  - rewrite app_empty, app_nil_r_s. reflexivity.
  - cbn [Text.contains] in H. apply orb_false_elim in H as [Hc Hp].
    rewrite app_cons. cbn [components_from].
    rewrite Ascii.eqb_sym, Hc, (IH _ Hp), rev_cons, app_assoc_s.
    reflexivity.
Qed.

(** The file of a record whose name holds no slash is written in the one
    way: the folder, a slash, the name of the file. *)
Lemma components_ruta (i : info) :
  Text.contains "/" (nombre i) = false ->
  components (ruta_completa i) = ["pokedex"; nombre_archivo i].
Proof.
  intros H.
  assert (Hfile : Text.contains "/" (nombre_archivo i) = false)
    by (rewrite slash_in_file_name; exact H).
  unfold ruta_completa, path_join.
  rewrite (contains_starts_with _ _ Hfile).
  change (if String.eqb POKEDEX_FOLDER ""
             || Text.starts_with "/" (String.rev POKEDEX_FOLDER)
          then POKEDEX_FOLDER +:+ nombre_archivo i
          else POKEDEX_FOLDER +:+ "/" +:+ nombre_archivo i)
    with ("pokedex" +:+ String "/" (nombre_archivo i)).
  unfold components.
  rewrite components_from_slash by reflexivity.
  rewrite (components_from_plain "" _ Hfile). reflexivity.
Qed.

Lemma normal_ruta (i : info) :
  Text.contains "/" (nombre i) = false -> normal_path (ruta_completa i) = true.
Proof.
  intros H. unfold normal_path. rewrite (components_ruta i H).
  cbn [forallb]. rewrite andb_true_r.
  assert (Hlen : (5 <= String.length (nombre_archivo i))%nat).
  { unfold nombre_archivo. rewrite length_app_s. simpl. lia. }
  unfold plain_component at 2.
  rewrite !eqb_false_length by (simpl; lia). reflexivity.
Qed.


(** * Fetching *)

Lemma obtener_200 (nombre_pokemon : string) (w : world) (body : value) :
  net w (request_url nombre_pokemon) = Response 200 (Ok body) ->
  obtener_datos_pokemon nombre_pokemon w = (Ok body, sent nombre_pokemon w).
Proof.
  intros H. unfold obtener_datos_pokemon, try_except, requests_get, mbind, M_bind.
  rewrite H. reflexivity.
Qed.

Lemma obtener_404 (nombre_pokemon : string) (w : world) (body : result value) :
  net w (request_url nombre_pokemon) = Response 404 body ->
  obtener_datos_pokemon nombre_pokemon w
  = (Ok VNone, told [not_found_message nombre_pokemon] (sent nombre_pokemon w)).
Proof.
  intros H. unfold obtener_datos_pokemon, try_except, requests_get, mbind, M_bind.
  rewrite H. reflexivity.
Qed.

Lemma obtener_other (nombre_pokemon : string) (w : world) (status_code : Z)
    (body : result value) :
  status_code <> 200%Z -> status_code <> 404%Z ->
  net w (request_url nombre_pokemon) = Response status_code body ->
  obtener_datos_pokemon nombre_pokemon w
  = (Ok VNone, told (status_messages status_code) (sent nombre_pokemon w)).
Proof.
  intros H200 H404 H.
  unfold obtener_datos_pokemon, try_except, requests_get, mbind, M_bind.
  rewrite H. apply Z.eqb_neq in H200, H404. rewrite H200, H404.
  unfold told, sent, print; simpl. rewrite <- app_assoc. reflexivity.
Qed.

Lemma obtener_failed (nombre_pokemon : string) (w : world) (detail : string) :
  net w (request_url nombre_pokemon) = NoResponse (RequestException detail) ->
  obtener_datos_pokemon nombre_pokemon w
  = (Ok VNone, told (connection_messages detail) (sent nombre_pokemon w)).
Proof.
  intros H. unfold obtener_datos_pokemon, try_except, requests_get, mbind, M_bind.
  rewrite H. unfold told, sent, print; simpl. rewrite <- app_assoc. reflexivity.
Qed.

(** An exception that is none of [requests] goes through the fetcher, and a
    body that does not parse is handled as the exception [respuesta.json()]
    raises for it. *)
Lemma obtener_uncaught (nombre_pokemon : string) (w : world) (e : exn) :
  is_request_exception e = false ->
  net w (request_url nombre_pokemon) = NoResponse e
  \/ net w (request_url nombre_pokemon) = Response 200 (Raise e) ->
  obtener_datos_pokemon nombre_pokemon w = (Raise e, sent nombre_pokemon w).
Proof.
  intros He H. unfold obtener_datos_pokemon, try_except, requests_get, mbind, M_bind.
  destruct H as [H | H]; rewrite H; simpl; rewrite He; reflexivity.
Qed.

(** A response 200 whose body makes [respuesta.json()] raise an exception
    of the requests family: the exception is raised inside the [try]. *)
Lemma obtener_200_failed (nombre_pokemon : string) (w : world) (detail : string) :
  net w (request_url nombre_pokemon)
  = Response 200 (Raise (RequestException detail)) ->
  obtener_datos_pokemon nombre_pokemon w
  = (Ok VNone, told (connection_messages detail) (sent nombre_pokemon w)).
Proof.
  intros H. unfold obtener_datos_pokemon, try_except, requests_get, mbind, M_bind.
  rewrite H. unfold told, sent, print; simpl. rewrite <- app_assoc. reflexivity.
Qed.

Lemma told_nil (w : world) : told [] w = w.
Proof.
  destruct w. unfold told, with_stdout. cbn. rewrite app_nil_r. reflexivity.
Qed.

(** C3, as the code has it: what a fetch returns and prints is fixed by the
    answer of the service, and every answer is in one case.  A response 200
    whose body parses returns the parsed body and prints nothing; a response
    200 whose parsing raises an exception of the requests family is told as a
    failed connection and returns [None]; a response 404 prints that the
    Pokemon does not exist and returns [None]; any other status prints the
    status and returns [None]; a request that raises an exception of the
    requests family prints the lines of a failed connection, none of which is
    the line of a 404, and returns [None]; an exception of another family,
    raised by the request or by the parsing of the body of a response 200,
    leaves the fetcher.  In each case one request was sent. *)
Theorem fetch_outcomes (nombre_pokemon : string) (w : world) :
  let url := request_url nombre_pokemon in
  obtener_datos_pokemon nombre_pokemon w
  = (fst (fetch_outcome nombre_pokemon (net w url)),
     told (snd (fetch_outcome nombre_pokemon (net w url)))
          (sent nombre_pokemon w))
  /\ (forall body,
         net w url = Response 200 (Ok body) ->
         obtener_datos_pokemon nombre_pokemon w = (Ok body, sent nombre_pokemon w))
  /\ (forall detail,
         net w url = Response 200 (Raise (RequestException detail)) ->
         obtener_datos_pokemon nombre_pokemon w
         = (Ok VNone, told (connection_messages detail) (sent nombre_pokemon w)))
  /\ (forall body,
         net w url = Response 404 body ->
         obtener_datos_pokemon nombre_pokemon w
         = (Ok VNone,
            told [not_found_message nombre_pokemon] (sent nombre_pokemon w)))
  /\ (forall status_code body,
         status_code <> 200%Z -> status_code <> 404%Z ->
         net w url = Response status_code body ->
         obtener_datos_pokemon nombre_pokemon w
         = (Ok VNone, told (status_messages status_code) (sent nombre_pokemon w)))
  /\ (forall detail,
         net w url = NoResponse (RequestException detail) ->
         obtener_datos_pokemon nombre_pokemon w
         = (Ok VNone, told (connection_messages detail) (sent nombre_pokemon w)))
  /\ (forall e,
         is_request_exception e = false ->
         net w url = NoResponse e \/ net w url = Response 200 (Raise e) ->
         obtener_datos_pokemon nombre_pokemon w
         = (Raise e, sent nombre_pokemon w))
  /\ (forall detail name line,
         In line (connection_messages detail) ->
         line <> not_found_message name).
Proof.
  cbv zeta. split; [|repeat split].
  - destruct (net w (request_url nombre_pokemon)) as [status body|e] eqn:Hnet;
      cbn [fetch_outcome].
    + destruct (Z.eqb_spec status 200) as [->|H200].
      * destruct body as [datos|e]; cbn [fst snd].
        -- rewrite told_nil. apply obtener_200, Hnet.
        -- destruct e; cbn [fst snd]; rewrite ?told_nil;
             solve [ apply obtener_200_failed, Hnet
                   | apply obtener_uncaught; [reflexivity | right; exact Hnet] ].
      * destruct (Z.eqb_spec status 404) as [->|H404]; cbn [fst snd].
        -- apply (obtener_404 _ _ body), Hnet.
        -- apply (obtener_other _ _ status body); assumption.
    + destruct e; cbn [fst snd]; rewrite ?told_nil;
        solve [ apply obtener_failed, Hnet
              | apply obtener_uncaught; [reflexivity | left; exact Hnet] ].
  - apply obtener_200.
  - apply obtener_200_failed.
  - apply obtener_404.
  - intros status_code body. apply obtener_other.
  - apply obtener_failed.
  - intros e. apply obtener_uncaught.
  - intros detail name line Hin Heq. subst line.
    destruct Hin as [H | [H | []]];
      apply (f_equal (String.get 0)) in H; vm_compute in H; discriminate.
Qed.

Lemma fetch_outcomes_witness :
  obtener_datos_pokemon " Bulbasaur" (fresh pokeapi)
  = (Ok bulbasaur, sent " Bulbasaur" (fresh pokeapi))
  /\ obtener_datos_pokemon "mew" (fresh pokeapi)
     = (Ok VNone, told [not_found_message "mew"] (sent "mew" (fresh pokeapi)))
  /\ obtener_datos_pokemon "mew" (fresh (fun _ => Response 503 (Raise ValueError)))
     = (Ok VNone,
        told (status_messages 503)
             (sent "mew" (fresh (fun _ => Response 503 (Raise ValueError)))))
  /\ obtener_datos_pokemon "mew" (fresh (fun _ => NoResponse (RequestException "timed out")))
     = (Ok VNone,
        told (connection_messages "timed out")
             (sent "mew" (fresh (fun _ => NoResponse (RequestException "timed out"))))).
Proof.
  split; [|split; [|split]].
  - destruct (fetch_outcomes " Bulbasaur" (fresh pokeapi)) as (_ & H & _).
    apply H. reflexivity.
  - destruct (fetch_outcomes "mew" (fresh pokeapi)) as (_ & _ & _ & H & _).
    apply (H (Raise ValueError)). reflexivity.
  - destruct (fetch_outcomes "mew" (fresh (fun _ => Response 503 (Raise ValueError))))
      as (_ & _ & _ & _ & H & _).
    apply (H 503%Z (Raise ValueError)).
    + lia.
    + lia.
    + reflexivity.
  - destruct (fetch_outcomes "mew"
                (fresh (fun _ => NoResponse (RequestException "timed out"))))
      as (_ & _ & _ & _ & _ & H & _).
    apply H. reflexivity.
Defined.

(** C3, as stated, fails: the four cases do not hold every answer.  A
    response 200 whose body does not parse is in none of them: when
    [respuesta.json()] raises an exception of the requests family, the fetcher
    tells of a failed connection though the service answered; when it raises
    another one ([ValueError], as with older versions of requests), the
    exception leaves the fetcher: nothing is reported and nothing returned. *)
Lemma fetch_outcomes_counterexample :
  obtener_datos_pokemon "mew"
    (fresh (fun _ => Response 200 (Raise (RequestException "Expecting value"))))
  = (Ok VNone,
     told (connection_messages "Expecting value")
          (sent "mew"
             (fresh (fun _ => Response 200 (Raise (RequestException "Expecting value"))))))
  /\ obtener_datos_pokemon "mew" (fresh (fun _ => Response 200 (Raise ValueError)))
     = (Raise ValueError,
        sent "mew" (fresh (fun _ => Response 200 (Raise ValueError)))).
Proof. split; reflexivity. Qed.

(** The value a fetch returns, the request it sends and what it leaves of the
    file system depend on the name through its normal form only; so does the
    whole outcome, but for the message of a 404, which quotes the name as
    typed. *)
Lemma obtener_by_url (q1 q2 : string) (w : world) :
  request_url q1 = request_url q2 ->
  fst (obtener_datos_pokemon q1 w) = fst (obtener_datos_pokemon q2 w)
  /\ requests (snd (obtener_datos_pokemon q1 w))
     = requests (snd (obtener_datos_pokemon q2 w))
  /\ fs (snd (obtener_datos_pokemon q1 w)) = fs (snd (obtener_datos_pokemon q2 w))
  /\ ((forall body, net w (request_url q2) <> Response 404 body) ->
      obtener_datos_pokemon q1 w = obtener_datos_pokemon q2 w).
Proof.
  intros Hurl.
  unfold obtener_datos_pokemon, try_except, requests_get, mbind, M_bind.
  rewrite Hurl.
  destruct (net w (request_url q2)) as [status body|e] eqn:Hnet.
  - destruct (status =? 200)%Z eqn:H200; [auto|].
    destruct (status =? 404)%Z eqn:H404; simpl.
    + repeat split. intros H. apply Z.eqb_eq in H404 as ->.
      destruct (H body). reflexivity.
    + auto.
  - destruct (is_request_exception e); auto.
Qed.

(** A fetch always sends its request. *)
Lemma obtener_requests (nombre_pokemon : string) (w : world) :
  requests (snd (obtener_datos_pokemon nombre_pokemon w))
  = (requests w ++ [request_url nombre_pokemon])%list.
Proof.
  unfold obtener_datos_pokemon, try_except, requests_get, mbind, M_bind.
  destruct (net w (request_url nombre_pokemon)) as [status body|e].
  - destruct (status =? 200)%Z;
      [destruct body as [v|e]; [|simpl; destruct (is_request_exception e)];
       reflexivity|].
    destruct (status =? 404)%Z; reflexivity.
  - destruct (is_request_exception e); reflexivity.
Qed.

(** C9: for names of ASCII characters, where the case mapping of the model
    is Python's.  The request goes to the base address followed by the name
    in lower case and stripped of the blanks around it, and that normal form
    is its own normal form; two names with the same normal form (as
    [" PIKACHU "] and ["pikachu"]) are asked for at that one URL and give the
    same result; when the service knows the name -- it answers 200 at that
    URL with a body that parses -- the fetch returns that body for both, and
    the whole outcome is the same; it is the same whenever the answer is not
    a 404, whose message quotes the name as typed. *)
Theorem same_fetch_after_normalizing (q canonical : string) (w : world) :
  ascii_only q = true ->
  ascii_only canonical = true ->
  nombre_normalizado q = nombre_normalizado canonical ->
  let url := BASE_URL +:+ Text.strip (Text.lower q) in
  request_url q = url
  /\ nombre_normalizado (nombre_normalizado q) = nombre_normalizado q
  /\ request_url canonical = url
  /\ requests (snd (obtener_datos_pokemon q w)) = (requests w ++ [url])%list
  /\ requests (snd (obtener_datos_pokemon canonical w))
     = (requests w ++ [url])%list
  /\ fst (obtener_datos_pokemon q w) = fst (obtener_datos_pokemon canonical w)
  /\ (forall body,
         net w url = Response 200 (Ok body) ->
         fst (obtener_datos_pokemon q w) = Ok body
         /\ obtener_datos_pokemon q w = obtener_datos_pokemon canonical w)
  /\ ((forall body, net w url <> Response 404 body) ->
      obtener_datos_pokemon q w = obtener_datos_pokemon canonical w).
Proof.
  intros _ _ Hnorm. cbv zeta.
  assert (Hq : request_url q = BASE_URL +:+ Text.strip (Text.lower q))
    by reflexivity.
  assert (Hurl : request_url q = request_url canonical)
    by (unfold request_url; rewrite Hnorm; reflexivity).
  destruct (obtener_by_url q canonical w Hurl) as (H1 & H2 & _ & H3).
  rewrite <- Hq.
  split; [reflexivity|]. split; [apply normalizado_idem|].
  split; [symmetry; exact Hurl|]. split; [apply obtener_requests|].
  split; [rewrite Hurl; apply obtener_requests|]. split; [exact H1|].
  split.
  - intros body Hbody. split.
    + rewrite (obtener_200 q w body Hbody). reflexivity.
    + apply H3. intros b. rewrite <- Hurl, Hbody. discriminate.
  - intros Hnot. apply H3. intros b. rewrite <- Hurl. apply Hnot.
Qed.

Lemma same_fetch_after_normalizing_witness :
  nombre_normalizado " PIKACHU " = "pikachu"
  /\ requests (snd (obtener_datos_pokemon " PIKACHU " (fresh pikachu_service)))
     = ["https://pokeapi.co/api/v2/pokemon/pikachu"]
  /\ fst (obtener_datos_pokemon " PIKACHU " (fresh pikachu_service))
     = Ok (VDict [("name", VStr "pikachu"); ("id", VInt 25)])
  /\ obtener_datos_pokemon " PIKACHU " (fresh pikachu_service)
     = obtener_datos_pokemon "pikachu" (fresh pikachu_service).
Proof.
  destruct (same_fetch_after_normalizing " PIKACHU " "pikachu"
              (fresh pikachu_service) eq_refl eq_refl eq_refl)
    as (_ & _ & _ & Hreq & _ & _ & Hknown & _).
  split; [reflexivity|]. split; [exact Hreq|].
  apply (Hknown (VDict [("name", VStr "pikachu"); ("id", VInt 25)])).
  reflexivity.
Defined.

(** * The main function *)

Lemma app_cons_one {A : Type} (l : list A) (x : A) (r : list A) :
  ((l ++ [x]) ++ r = l ++ x :: r)%list.
Proof. rewrite <- app_assoc. reflexivity. Qed.

Lemma banner_run (w : world) :
  banner w
  = (Ok tt,
     told ["====================================";
           "       PROYECTO POKÉDEX       ";
           "====================================";
           "Consulta detalles de cualquier Pokémon usando la PokeAPI (https://pokeapi.co/).";
           "Bibliotecas requeridas: requests, json, os."] w).
Proof.
  unfold banner, print, told, mbind, M_bind; simpl.
  rewrite !app_cons_one. reflexivity.
Qed.

Lemma ejecutar_unfold (typed : string) (w : world) :
  ejecutar_pokedex typed w =
  if String.eqb typed "" then
    (Ok tt, told ["El nombre del Pokémon no puede estar vacío."] (asked w))
  else
    match obtener_datos_pokemon typed (asked w) with
    | (Ok datos, fetched) =>
        if Py.truthy datos then
          (info_a_guardar ← lift (extraer_informacion_relevante datos);
           mostrar_datos_pokemon info_a_guardar;;
           guardar_informacion_json info_a_guardar) fetched
        else (Ok tt, fetched)
    | (Raise e, fetched) => (Raise e, fetched)
    end.
Proof.
  unfold ejecutar_pokedex. unfold mbind at 1, M_bind at 1.
  rewrite banner_run. unfold mbind at 1, M_bind at 1.
  unfold input; simpl.
  match goal with
  | |- context [with_stdout ?o (told ?l w)] =>
      replace (with_stdout o (told l w)) with (asked w)
        by (unfold asked, told, with_stdout; simpl;
            rewrite <- app_assoc; reflexivity)
  end.
  destruct (String.eqb typed ""); simpl.
  - reflexivity.
  - unfold mbind at 1, M_bind at 1.
    destruct (obtener_datos_pokemon typed (asked w)) as [[datos|e] fetched];
      [destruct (Py.truthy datos)|]; reflexivity.
Qed.

(** C10: once a name is typed and the fetch has returned [datos], the run
    goes on to extract, show and save exactly when [datos] is truthy, and
    ends there otherwise; a response 200 with a falsy body (an empty object,
    say) ends the run as a failed fetch does: nothing is shown and the file
    system is as it was. *)
Theorem continues_iff_truthy (typed : string) (w : world) (datos : value)
    (fetched : world) :
  typed <> "" ->
  obtener_datos_pokemon typed (asked w) = (Ok datos, fetched) ->
  (Py.truthy datos = true ->
   ejecutar_pokedex typed w
   = (info_a_guardar ← lift (extraer_informacion_relevante datos);
      mostrar_datos_pokemon info_a_guardar;;
      guardar_informacion_json info_a_guardar) fetched)
  /\ (Py.truthy datos = false -> ejecutar_pokedex typed w = (Ok tt, fetched))
  /\ (net w (request_url typed) = Response 200 (Ok datos) ->
      Py.truthy datos = false ->
      ejecutar_pokedex typed w = (Ok tt, sent typed (asked w))
      /\ fs (snd (ejecutar_pokedex typed w)) = fs w
      /\ stdout (snd (ejecutar_pokedex typed w)) = stdout (asked w)).
Proof.
  intros Htyped Hfetch. apply String.eqb_neq in Htyped.
  pose proof (ejecutar_unfold typed w) as Hrun.
  rewrite Htyped, Hfetch in Hrun.
  split; [|split].
  - intros Ht. rewrite Hrun, Ht. reflexivity.
  - intros Ht. rewrite Hrun, Ht. reflexivity.
  - intros Hnet Ht. rewrite Hrun, Ht.
    rewrite (obtener_200 typed (asked w) datos Hnet) in Hfetch.
    injection Hfetch as <-. auto.
Qed.

Lemma continues_iff_truthy_witness :
  ejecutar_pokedex "ditto" (fresh (fun _ => Response 200 (Ok (VDict []))))
  = (Ok tt, sent "ditto" (asked (fresh (fun _ => Response 200 (Ok (VDict [])))))).
Proof.
  refine (proj1 (proj2 (proj2
    (continues_iff_truthy "ditto" (fresh (fun _ => Response 200 (Ok (VDict []))))
       (VDict []) _ _ _)) _ _)).
  - discriminate.
  - reflexivity.
  - reflexivity.
  - reflexivity.
Defined.

(** The empty line ends the run at once: a message, no request. *)
Lemma empty_input_stops (w : world) :
  ejecutar_pokedex "" w
  = (Ok tt, told ["El nombre del Pokémon no puede estar vacío."] (asked w)).
Proof. rewrite ejecutar_unfold. reflexivity. Qed.

(** A line of spaces has the empty name as its normal form: the request goes
    to the base address. *)
Lemma spaces_normalized (n : nat) :
  nombre_normalizado (Text.repeat_char " " n) = "".
Proof.
  unfold nombre_normalizado, Text.strip, Text.rstrip, Text.lstrip, Text.lower.
  assert (Hlow : Text.map_chars Text.lower_char (Text.repeat_char " " n)
                 = Text.repeat_char " " n).
  { induction n as [|n IH]; [reflexivity|].
    cbn [Text.repeat_char Text.map_chars]. rewrite IH. reflexivity. }
  assert (Hstrip : Text.lstrip_gen false (Text.repeat_char " " n) = "").
  { clear Hlow. induction n as [|n IH]; [reflexivity|]. exact IH. }
  rewrite Hlow, Hstrip. reflexivity.
Qed.

Lemma blank_line_requested (n : nat) (w : world) :
  Py.truthy (VStr (Text.repeat_char " " (S n))) = true
  /\ requests (snd (obtener_datos_pokemon (Text.repeat_char " " (S n)) w))
     = (requests w ++ [BASE_URL])%list.
Proof.
  split; [reflexivity|].
  rewrite obtener_requests. unfold request_url.
  rewrite spaces_normalized, app_nil_r_s. reflexivity.
Qed.

(** C2, where the code departs from it: a line of three spaces is not
    empty, so the fetch goes out, to the base address; this service answers
    with its list of resources, and the run ends on the [KeyError] of the
    extractor. *)
Theorem blank_input_is_fetched :
  ejecutar_pokedex "   " (fresh pokeapi)
  = (Raise (KeyError "name"), sent "   " (asked (fresh pokeapi)))
  /\ requests (snd (ejecutar_pokedex "   " (fresh pokeapi))) = [BASE_URL].
Proof. split; reflexivity. Qed.

(** C1, as stated, fails twice over.  A record whose sixth move has no name
    lacks a key of the list, and the extractor builds a record from it; a
    record without [name] makes the extractor raise, and nothing catches the
    exception: it leaves the main function. *)
Lemma missing_key_counterexample :
  (keys_listed sixth_move_unnamed = false
   /\ exists i, extraer_informacion_relevante sixth_move_unnamed = Ok i)
  /\ (keys_listed nameless = false
      /\ fst (ejecutar_pokedex "missingno"
                (fresh (fun _ => Response 200 (Ok nameless))))
         = Raise (KeyError "name")).
Proof.
  split; split; try reflexivity.
  eexists. reflexivity.
Qed.

(** An exception of the extractor is caught nowhere: it ends the run, with
    nothing shown after the prompt and nothing saved. *)
Lemma extraer_error_ends_run (typed : string) (w fetched : world)
    (datos : value) (e : exn) :
  typed <> "" ->
  obtener_datos_pokemon typed (asked w) = (Ok datos, fetched) ->
  Py.truthy datos = true ->
  extraer_informacion_relevante datos = Raise e ->
  ejecutar_pokedex typed w = (Raise e, fetched).
Proof.
  intros Htyped Hfetch Ht He. apply String.eqb_neq in Htyped.
  rewrite ejecutar_unfold, Htyped, Hfetch, Ht.
  unfold lift, mbind, M_bind. rewrite He. reflexivity.
Qed.


(** * Saving *)

Lemma makedirs_error_os (w : world) (name : string) (e : exn) :
  makedirs_error w name = Some e -> is_os_error e = true.
Proof.
  unfold makedirs_error.
  destruct (fs w !! name) as [[]|]; [discriminate | | destruct (writable w)];
    intros [= <-] || discriminate; reflexivity.
Qed.

(** The whole of a save, case by case. *)
Lemma guardar_run (i : info) (w : world) :
  guardar_informacion_json i w =
  match makedirs_error w POKEDEX_FOLDER with
  | Some e => (Ok tt, told [folder_error_message e] w)
  | None =>
      match open_error (made w) (ruta_completa i) with
      | Some e =>
          if is_os_error e
          then (Ok tt, told [write_error_message i e] (made w))
          else (Raise e, made w)
      | None => (Ok tt, told (saved_messages i) (written i (made w)))
      end
  end.
Proof.
  unfold guardar_informacion_json, try_except, os_makedirs, escribir_json,
    open_w, mbind, M_bind, mret, M_ret.
  cbn beta.
  destruct (makedirs_error w POKEDEX_FOLDER) as [e|] eqn:Hmk.
  - rewrite (makedirs_error_os _ _ _ Hmk). reflexivity.
  - replace (match fs w !! POKEDEX_FOLDER with
             | Some _ => (Ok tt, w)
             | None => (Ok tt, with_fs (<[POKEDEX_FOLDER := Dir]> (fs w)) w)
             end) with (Ok tt, made w)
      by (unfold made; destruct (fs w !! POKEDEX_FOLDER); reflexivity).
    cbn iota beta.
    destruct (open_error (made w) (ruta_completa i)) as [e|] eqn:Hopen.
    + destruct (is_os_error e); reflexivity.
    + unfold write. cbn [fs with_fs]. rewrite lookup_insert_eq.
      unfold told, written, print, with_stdout, with_fs; cbn.
      rewrite insert_insert_eq, <- app_assoc. reflexivity.
Qed.

Lemma starts_with_slash_file (s : string) :
  Text.starts_with "/" (Text.replace " " "_" (Text.lower s) +:+ ".json")
  = Text.starts_with "/" s.
Proof.
  destruct s as [|c s]; [reflexivity|].
  unfold Text.lower, Text.replace. cbn [Text.map_chars String.append Text.starts_with].
  destruct c as [[] [] [] [] [] [] [] []]; reflexivity.
Qed.

Lemma ruta_under_folder (i : info) :
  Text.starts_with "/" (nombre i) = false ->
  ruta_completa i
  = "pokedex/" +:+ Text.replace " " "_" (Text.lower (nombre i)) +:+ ".json".
Proof.
  intros H. unfold ruta_completa, path_join, nombre_archivo.
  rewrite starts_with_slash_file, H. reflexivity.
Qed.

Lemma ruta_not_folder (i : info) : ruta_completa i <> POKEDEX_FOLDER.
Proof.
  unfold ruta_completa, path_join.
  destruct (Text.starts_with "/" (nombre_archivo i)) eqn:H.
  - intros Heq. rewrite Heq in H. discriminate.
  - simpl. discriminate.
Qed.

Lemma made_folder (w : world) :
  makedirs_error w POKEDEX_FOLDER = None ->
  fs (made w) !! POKEDEX_FOLDER = Some Dir.
Proof.
  unfold makedirs_error, made.
  destruct (fs w !! POKEDEX_FOLDER) as [[]|] eqn:H; intros Hmk;
    try discriminate; [exact H|].
  simpl. apply lookup_insert_eq.
Qed.

Lemma dumps_file_text (i : info) : Json.dumps (info_dict i) = file_text i.
Proof. reflexivity. Qed.

(** A character outside ASCII is written as it is. *)
Lemma escape_char_high (c : ascii) :
  (128 <= Text.code c)%N -> Json.escape_char c = String c "".
Proof.
  intros H. unfold Json.escape_char.
  repeat match goal with
         | |- context [(?a =? ?b)%N] =>
             destruct (N.eqb_spec a b); [lia|]
         end.
  destruct (N.ltb_spec (Text.code c) 32); [lia | reflexivity].
Qed.

(** C6, as the code has it: for a record whose name is an ASCII text that
    holds no slash and is short enough for the name of a file, and whose [id]
    and image are values [json.dump] writes ([None], a text, a number), when
    the folder [pokedex] is there or can be made and the file can be opened
    for writing, the save puts the record in
    [pokedex/<name in lower case, spaces as underscores>.json], a path written
    in the one way; the folder exists afterwards; the file holds the JSON text
    of the dictionary, its keys in the order nombre, id, peso_kg, altura_m,
    imagen_frontal_url, tipos, habilidades, movimientos_principales, indented
    by four spaces, with the bytes of characters outside ASCII unescaped. *)
Theorem saves_under_pokedex (i : info) (w : world) :
  ascii_only (nombre i) = true ->
  Text.contains "/" (nombre i) = false ->
  (String.length (nombre i) <= 250)%nat ->
  printable (id i) = true ->
  printable (imagen_frontal_url i) = true ->
  makedirs_error w POKEDEX_FOLDER = None ->
  open_error (made w) (ruta_completa i) = None ->
  guardar_informacion_json i w
  = (Ok tt, told (saved_messages i) (written i (made w)))
  /\ ruta_completa i
     = "pokedex/" +:+ Text.replace " " "_" (Text.lower (nombre i)) +:+ ".json"
  /\ normal_path (ruta_completa i) = true
  /\ fs (snd (guardar_informacion_json i w)) !! ruta_completa i
     = Some (File (file_text i))
  /\ fs (snd (guardar_informacion_json i w)) !! "pokedex" = Some Dir
  /\ (forall c, (128 <= Text.code c)%N -> Json.escape_char c = String c "").
Proof.
  intros _ Hname _ _ _ Hmk Hopen.
  pose proof (guardar_run i w) as Hrun. rewrite Hmk, Hopen in Hrun.
  rewrite Hrun. cbn [snd fs told written with_stdout with_fs].
  repeat split.
  - exact (ruta_under_folder i (contains_starts_with _ _ Hname)).
  - exact (normal_ruta i Hname).
  - rewrite lookup_insert_eq. reflexivity.
  - rewrite lookup_insert_ne by apply ruta_not_folder.
    exact (made_folder w Hmk).
  - exact escape_char_high.
Qed.

Lemma saves_under_pokedex_witness :
  ruta_completa bulbasaur_info = "pokedex/bulbasaur.json"
  /\ fs (snd (guardar_informacion_json bulbasaur_info (fresh pokeapi)))
       !! "pokedex/bulbasaur.json"
     = Some (File (file_text bulbasaur_info)).
Proof.
  destruct (saves_under_pokedex bulbasaur_info (fresh pokeapi))
    as (_ & Hruta & _ & Hfile & _).
  - reflexivity.
  - reflexivity.
  - simpl. lia.
  - reflexivity.
  - reflexivity.
  - reflexivity.
  - reflexivity.
  - split; [exact Hruta | exact Hfile].
Defined.

(** C6, as stated, fails: a name that begins with a slash sends the file out
    of the folder.  The record [rooted] has the name [/tmp/x]; its file is
    [/tmp/x.json], and nothing is written under [pokedex].  And where the
    folder cannot be made (a file has its name), nothing is written at
    all. *)
Lemma rooted_name_counterexample :
  (extraer_informacion_relevante rooted = Ok rooted_info
   /\ fs (snd (guardar_informacion_json rooted_info with_tmp)) !! "/tmp/x.json"
      = Some (File (file_text rooted_info))
   /\ fs (snd (guardar_informacion_json rooted_info with_tmp))
        !! ("pokedex/" +:+ nombre_archivo rooted_info) = None)
  /\ (fs (snd (guardar_informacion_json bulbasaur_info blocked))
        !! "pokedex/bulbasaur.json" = None
      /\ fs (snd (guardar_informacion_json bulbasaur_info blocked))
         = fs blocked).
Proof. repeat split; vm_compute; reflexivity. Qed.

(** *** Saving twice *)

Lemma makedirs_error_ext (w w' : world) (name : string) :
  fs w = fs w' -> writable w = writable w' ->
  makedirs_error w name = makedirs_error w' name.
Proof. unfold makedirs_error. intros -> ->. reflexivity. Qed.

Lemma open_error_ext (w w' : world) (path : string) :
  fs w = fs w' -> writable w = writable w' ->
  open_error w path = open_error w' path.
Proof. unfold open_error. intros -> ->. reflexivity. Qed.

Lemma made_id (w : world) :
  is_Some (fs w !! POKEDEX_FOLDER) -> made w = w.
Proof. unfold made. intros [x ->]. reflexivity. Qed.

Lemma writable_made (w : world) : writable (made w) = writable w.
Proof. unfold made. destruct (fs w !! POKEDEX_FOLDER); reflexivity. Qed.

Lemma is_dir_insert_file (files : gmap string node) (p q text : string) :
  is_dir (<[p := File text]> files) q = is_dir files q && negb (String.eqb p q).
Proof.
  unfold is_dir. destruct (String.eqb_spec p q) as [->|Hne].
  - rewrite lookup_insert_eq, andb_false_r. reflexivity.
  - rewrite lookup_insert_ne by exact Hne. rewrite andb_true_r. reflexivity.
Qed.

(** A file that could be opened can be opened again once written. *)
Lemma open_error_written (i : info) (w : world) :
  open_error w (ruta_completa i) = None ->
  open_error (written i w) (ruta_completa i) = None.
Proof.
  unfold open_error, parent_exists. cbn [fs writable written with_fs].
  destruct (Text.contains (ascii_of_N 0) (ruta_completa i)); [discriminate|].
  destruct (is_dir (fs w) (ruta_completa i)) eqn:Hdir; [discriminate|].
  rewrite !is_dir_insert_file, Hdir. cbn [andb negb].
  destruct (String.eqb (dirname (ruta_completa i)) "") eqn:Hroot; cbn [orb negb].
  - auto.
  - destruct (is_dir (fs w) (dirname (ruta_completa i))) eqn:Hparent;
      cbn [negb andb]; [|discriminate].
    destruct (String.eqb_spec (ruta_completa i) (dirname (ruta_completa i)))
      as [Heq|Hne]; [|auto].
    rewrite <- Heq, Hdir in Hparent. discriminate.
Qed.

(** The file system after a second save is the file system after the
    first. *)
Lemma guardar_twice_fs (i : info) (w : world) :
  fs (snd (guardar_informacion_json i (snd (guardar_informacion_json i w))))
  = fs (snd (guardar_informacion_json i w)).
Proof.
  rewrite (guardar_run i w).
  destruct (makedirs_error w POKEDEX_FOLDER) as [e|] eqn:Hmk.
  - cbn [snd]. rewrite guardar_run.
    rewrite (makedirs_error_ext (told _ w) w) by reflexivity.
    rewrite Hmk. reflexivity.
  - pose proof (made_folder w Hmk) as Hdir.
    assert (Hmk1 : makedirs_error (made w) POKEDEX_FOLDER = None)
      by (unfold makedirs_error; rewrite Hdir; reflexivity).
    assert (Hid : made (made w) = made w) by (apply made_id; eauto).
    destruct (open_error (made w) (ruta_completa i)) as [e|] eqn:Hopen.
    + destruct (is_os_error e) eqn:Hos; cbn [snd]; rewrite guardar_run.
      * rewrite (makedirs_error_ext (told _ (made w)) (made w)) by reflexivity.
        rewrite Hmk1.
        assert (Hm : made (told [write_error_message i e] (made w))
                     = told [write_error_message i e] (made w))
          by (apply made_id; cbn; eauto).
        rewrite Hm.
        rewrite (open_error_ext (told _ (made w)) (made w)) by reflexivity.
        rewrite Hopen, Hos. reflexivity.
      * rewrite Hmk1, Hid, Hopen, Hos. reflexivity.
    + cbn [snd]. rewrite guardar_run.
      set (once := told (saved_messages i) (written i (made w))).
      assert (Hfolder : fs once !! POKEDEX_FOLDER = Some Dir).
      { subst once. cbn [fs told written with_stdout with_fs].
        rewrite lookup_insert_ne by apply ruta_not_folder. exact Hdir. }
      assert (Hmk2 : makedirs_error once POKEDEX_FOLDER = None)
        by (unfold makedirs_error; rewrite Hfolder; reflexivity).
      assert (Hm : made once = once) by (apply made_id; eauto).
      rewrite Hmk2, Hm.
      rewrite (open_error_ext once (written i (made w))) by reflexivity.
      rewrite (open_error_written i (made w) Hopen).
      subst once. cbn [snd fs told written with_stdout with_fs].
      apply insert_insert_eq.
Qed.




(** * Reading back what was written *)

Lemma skip_ws_spaces (n : nat) (s : string) :
  JsonRead.skip_ws (Text.repeat_char " " n +:+ s) = JsonRead.skip_ws s.
Proof. induction n as [|n IH]; [reflexivity | exact IH]. Qed.

Lemma skip_ws_indent (level : nat) (s : string) :
  JsonRead.skip_ws (Json.indent level +:+ s) = JsonRead.skip_ws s.
Proof.
  unfold Json.indent, nl. rewrite app_assoc_s, app_cons, app_empty.
  cbn [JsonRead.skip_ws]. change (JsonRead.is_ws newline) with true.
  cbv iota. apply skip_ws_spaces.
Qed.

Lemma skip_ws_head (c : ascii) (s : string) :
  JsonRead.is_ws c = false -> JsonRead.skip_ws (String c s) = String c s.
Proof. intros H. simpl. rewrite H. reflexivity. Qed.

(** *** Texts *)

Lemma scan_escape_char (c : ascii) (r : string) :
  JsonRead.scan_string (Json.escape_char c +:+ r)
  = JsonRead.prepend (Some (String c "")) (JsonRead.scan_string r).
Proof.
  destruct c as [[] [] [] [] [] [] [] []]; reflexivity.
Qed.

Lemma scan_escape (s rest : string) :
  JsonRead.scan_string (Json.escape s +:+ String quote rest) = Some (s, rest).
Proof.
  induction s as [|c s IH]; [reflexivity|].
  cbn [Json.escape]. rewrite app_assoc_s, scan_escape_char, IH. reflexivity.
Qed.

Lemma scan_dump_str (s rest : string) :
  exists body,
    Json.dump_str s +:+ rest = String quote body
    /\ JsonRead.scan_string body = Some (s, rest).
Proof.
  exists (Json.escape s +:+ String quote rest). split.
  - unfold Json.dump_str. flatten. reflexivity.
  - apply scan_escape.
Qed.

(** *** Numbers *)

Lemma digit_of_other (c : ascii) :
  Readable.is_digit c = false -> JsonRead.digit_of c = None.
Proof. destruct c as [[] [] [] [] [] [] [] []]; vm_compute; congruence. Qed.

Lemma scan_digits_none (rest : string) :
  match rest with
  | String c _ => Readable.is_digit c = false
  | EmptyString => True
  end ->
  JsonRead.scan_digits rest = (Nil, rest).
Proof.
  destruct rest as [|c r]; [reflexivity|]. intros H. simpl.
  rewrite (digit_of_other c H). reflexivity.
Qed.

Lemma ends_number_digit (rest : string) :
  Readable.ends_number rest = true ->
  match rest with
  | String c _ => Readable.is_digit c = false
  | EmptyString => True
  end.
Proof.
  destruct rest as [|c r]; [trivial|]. simpl.
  destruct (Readable.is_digit c); [discriminate | reflexivity].
Qed.

Lemma scan_digits_text (d : uint) (rest : string) :
  match rest with
  | String c _ => Readable.is_digit c = false
  | EmptyString => True
  end ->
  JsonRead.scan_digits (FloatText.digits_text d +:+ rest) = (d, rest).
Proof.
  intros H. unfold FloatText.digits_text.
  induction d as [|d IH|d IH|d IH|d IH|d IH|d IH|d IH|d IH|d IH|d IH];
    [exact (scan_digits_none rest H)|..];
    cbn [NilEmpty.string_of_uint]; rewrite app_cons;
    cbn [JsonRead.scan_digits]; rewrite IH; reflexivity.
Qed.

Lemma scan_int_text (d : uint) (rest : string) :
  Readable.no_leading_zero d = true ->
  match rest with
  | String c _ => Readable.is_digit c = false
  | EmptyString => True
  end ->
  JsonRead.scan_int (FloatText.digits_text d +:+ rest) = Some (d, rest).
Proof.
  intros Hd Hrest. pose proof (scan_digits_text d rest Hrest) as Hscan.
  unfold FloatText.digits_text in *.
  destruct d as [|d|d|d|d|d|d|d|d|d|d]; try discriminate;
    cbn [NilEmpty.string_of_uint] in *; rewrite app_cons in *;
    unfold JsonRead.scan_int;
    try (change (Ascii.eqb ?c "0") with false; cbv iota; rewrite Hscan;
         reflexivity).
  destruct d; try discriminate. reflexivity.
Qed.

(** The head of a text of digits is a digit. *)
Lemma digits_text_head (d : uint) (rest : string) :
  Readable.some_digits d = true ->
  exists c r, FloatText.digits_text d +:+ rest = String c r
              /\ Readable.is_digit c = true.
Proof.
  unfold FloatText.digits_text.
  destruct d; try discriminate; intros _;
    cbn [NilEmpty.string_of_uint]; rewrite app_cons; eauto.
Qed.

Lemma no_leading_zero_some (d : uint) :
  Readable.no_leading_zero d = true -> Readable.some_digits d = true.
Proof. destruct d; simpl; congruence. Qed.

Lemma scan_exp_text (exp : option (bool * uint)) (rest : string) :
  match exp with
  | Some (_, e) => Readable.some_digits e = true
  | None => True
  end ->
  Readable.ends_number rest = true ->
  JsonRead.scan_exp (exp_text exp +:+ rest) = (exp, rest).
Proof.
  intros Hexp Hrest. destruct exp as [[neg e]|]; unfold exp_text.
  - flatten. unfold JsonRead.scan_exp.
    change (Ascii.eqb "e" "e" || Ascii.eqb "e" "E") with true. cbv iota.
    destruct neg; flatten; simpl;
      rewrite (scan_digits_text e rest (ends_number_digit rest Hrest));
    destruct e; try discriminate; reflexivity.
  - rewrite app_empty. destruct rest as [|c r]; [reflexivity|].
    simpl in Hrest. unfold JsonRead.scan_exp.
    destruct (Ascii.eqb c "e"); [rewrite !orb_true_r in Hrest; discriminate|].
    destruct (Ascii.eqb c "E"); [rewrite !orb_true_r in Hrest; discriminate|].
    reflexivity.
Qed.

(** What follows the integer digits ends them. *)
Lemma after_digits (frac : option uint) (exp : option (bool * uint))
    (rest : string) :
  Readable.ends_number rest = true ->
  match frac_text frac +:+ exp_text exp +:+ rest with
  | String c _ => Readable.is_digit c = false
  | EmptyString => True
  end.
Proof.
  intros Hrest. destruct frac as [f|]; [reflexivity|].
  destruct exp as [[neg e]|]; [reflexivity|].
  exact (ends_number_digit rest Hrest).
Qed.

Lemma scan_frac_text (frac : option uint) (exp : option (bool * uint))
    (rest : string) :
  match frac with
  | Some f => Readable.some_digits f = true
  | None => True
  end ->
  Readable.ends_number rest = true ->
  JsonRead.scan_frac (frac_text frac +:+ exp_text exp +:+ rest)
  = (frac, exp_text exp +:+ rest).
Proof.
  intros Hfrac Hrest. destruct frac as [f|]; unfold frac_text.
  - flatten. unfold JsonRead.scan_frac.
    change (Ascii.eqb "." ".") with true. cbv iota.
    rewrite scan_digits_text.
    + destruct f; try discriminate; reflexivity.
    + exact (after_digits None exp rest Hrest).
  - rewrite app_empty. destruct exp as [[neg e]|]; [reflexivity|].
    unfold exp_text. rewrite app_empty.
    destruct rest as [|c r]; [reflexivity|]. simpl in Hrest.
    unfold JsonRead.scan_frac.
    destruct (Ascii.eqb c "."); [|reflexivity].
    rewrite orb_true_r in Hrest. discriminate.
Qed.

Lemma print_parts (t : FloatText.number) (rest : string) :
  FloatText.print t +:+ rest
  = (if FloatText.num_neg t then "-" else "")
    +:+ FloatText.digits_text (FloatText.num_int t)
    +:+ frac_text (FloatText.num_frac t)
    +:+ exp_text (FloatText.num_exp t) +:+ rest.
Proof.
  unfold FloatText.print, frac_text, exp_text.
  destruct (FloatText.num_exp t) as [[neg e]|]; rewrite !app_assoc_s; reflexivity.
Qed.

Lemma scan_number_print (t : FloatText.number) (rest : string) :
  number_ok t = true ->
  Readable.ends_number rest = true ->
  JsonRead.scan_number (FloatText.print t +:+ rest) = Some (t, rest).
Proof.
  unfold number_ok. intros Hok Hrest.
  apply andb_prop in Hok as [Hok Hexp]. apply andb_prop in Hok as [Hint Hfrac].
  rewrite print_parts. destruct t as [neg int frac exp]. cbn [FloatText.num_neg
    FloatText.num_int FloatText.num_frac FloatText.num_exp] in *.
  unfold JsonRead.scan_number.
  assert (Hsign :
    JsonRead.scan_sign ((if neg then "-" else "")
      +:+ FloatText.digits_text int +:+ frac_text frac +:+ exp_text exp +:+ rest)
    = (neg, FloatText.digits_text int +:+ frac_text frac +:+ exp_text exp +:+ rest)).
  { destruct neg; [reflexivity|]. rewrite app_empty.
    destruct (digits_text_head int (frac_text frac +:+ exp_text exp +:+ rest)
                (no_leading_zero_some int Hint)) as (c & r & -> & Hc).
    unfold JsonRead.scan_sign.
    destruct (Ascii.eqb_spec c "-") as [->|]; [discriminate | reflexivity]. }
  rewrite Hsign.
  rewrite (scan_int_text int _ Hint (after_digits frac exp rest Hrest)).
  rewrite scan_frac_text; [|destruct frac; [exact Hfrac | trivial] | exact Hrest].
  rewrite scan_exp_text; [reflexivity | | exact Hrest].
  destruct exp as [[? e]|]; [exact Hexp | trivial].
Qed.

Lemma no_leading_zero_to_uint (m : N) :
  Readable.no_leading_zero (N.to_uint m) = true.
Proof.
  destruct m as [|p]; [reflexivity|]. simpl.
  pose proof (DecimalPos.Unsigned.to_of (Pos.to_uint p)) as Hnorm.
  rewrite DecimalPos.Unsigned.of_to in Hnorm. simpl in Hnorm.
  pose proof (DecimalPos.Unsigned.to_uint_nonzero p) as Hnz.
  pose proof (DecimalPos.Unsigned.to_uint_nonnil p) as Hnn.
  destruct (Pos.to_uint p) as [|d|d|d|d|d|d|d|d|d|d]; try reflexivity;
    [congruence|].
  unfold unorm in Hnorm. rewrite DecimalFacts.nzhead_D0 in Hnorm.
  destruct (nzhead d) eqn:Hd; try (exfalso; revert Hd; rewrite <- Hnorm;
    apply DecimalFacts.nzhead_nonzero).
  congruence.
Qed.

Lemma of_Z_print (n : Z) : Text.of_Z n = FloatText.print (int_number n).
Proof.
  unfold Text.of_Z, FloatText.print, int_number, FloatText.digits_text.
  cbn [FloatText.num_neg FloatText.num_int FloatText.num_frac FloatText.num_exp].
  rewrite !app_nil_r_s.
  destruct n as [|p|p]; [reflexivity| |];
    cbn [Z.to_int NilZero.string_of_int Z.ltb Z.compare Z.abs_N N.to_uint];
    unfold NilZero.string_of_uint;
    pose proof (DecimalPos.Unsigned.to_uint_nonnil p);
    destruct (Pos.to_uint p); try congruence; reflexivity.
Qed.

Lemma int_number_value (n : Z) : JsonRead.number_value (int_number n) = VInt n.
Proof.
  unfold JsonRead.number_value, int_number, FloatText.digits_value.
  cbn [FloatText.num_neg FloatText.num_int FloatText.num_frac FloatText.num_exp].
  rewrite DecimalN.Unsigned.of_to.
  destruct n; reflexivity.
Qed.

Lemma scan_number_int (n : Z) (rest : string) :
  Readable.ends_number rest = true ->
  JsonRead.scan_number (Text.of_Z n +:+ rest) = Some (int_number n, rest).
Proof.
  intros Hrest. rewrite of_Z_print. apply scan_number_print; [|exact Hrest].
  unfold number_ok, int_number.
  cbn [FloatText.num_neg FloatText.num_int FloatText.num_frac FloatText.num_exp].
  rewrite no_leading_zero_to_uint. reflexivity.
Qed.

Lemma float_eqb_eq (x y : spec_float) : FloatText.eqb x y = true -> x = y.
Proof.
  destruct x, y; simpl; try discriminate; try reflexivity.
  - intros H. apply Bool.eqb_prop in H. congruence.
  - intros H. apply Bool.eqb_prop in H. congruence.
  - intros H. apply andb_prop in H as [H He]. apply andb_prop in H as [Hs Hm].
    apply Bool.eqb_prop in Hs. apply Pos.eqb_eq in Hm. apply Z.eqb_eq in He.
    congruence.
Qed.

(** *** The layout of a float *)

Lemma head_nonzero_to_uint (p : positive) : head_nonzero (Pos.to_uint p) = true.
Proof.
  pose proof (no_leading_zero_to_uint (Npos p)) as H. simpl in H.
  pose proof (DecimalPos.Unsigned.to_uint_nonzero p) as Hnz.
  destruct (Pos.to_uint p) as [|d|d|d|d|d|d|d|d|d|d]; try reflexivity;
    [discriminate|].
  destruct d; try discriminate. congruence.
Qed.

Lemma some_digits_of_list (l : list digits) :
  l <> [] -> Readable.some_digits (DecimalFacts.of_list l) = true.
Proof. destruct l as [|[] l]; [congruence | reflexivity..]. Qed.

Lemma some_digits_to_uint (m : N) : Readable.some_digits (N.to_uint m) = true.
Proof. apply no_leading_zero_some, no_leading_zero_to_uint. Qed.

Lemma skipn_not_nil {A : Type} (n : nat) (l : list A) :
  (n < length l)%nat -> skipn n l <> [].
Proof.
  intros Hlen Hnil. pose proof (length_skipn n l) as H.
  rewrite Hnil in H. simpl in H. lia.
Qed.

Lemma layout_ok (s : bool) (ds : uint) (k : Z) :
  head_nonzero ds = true ->
  Readable.float_layout (FloatText.layout s ds k) = true.
Proof.
  intros Hds. unfold FloatText.layout.
  assert (Hl : exists d tl, DecimalFacts.to_list ds = d :: tl /\ d <> d0).
  { destruct ds; try discriminate; cbn [DecimalFacts.to_list];
      eexists _, _; (split; [reflexivity | discriminate]). }
  destruct Hl as (d & tl & -> & Hd).
  destruct ((k <=? -4)%Z || (16 <? k)%Z).
  - unfold Readable.float_layout.
    cbn [FloatText.num_int FloatText.num_frac FloatText.num_exp firstn skipn].
    assert (Hint : Readable.no_leading_zero (DecimalFacts.of_list [d]) = true)
      by (destruct d; reflexivity).
    assert (Hexp : Readable.some_digits (FloatText.two_digits (Z.abs (k - 1)))
                   = true).
    { unfold FloatText.two_digits.
      destruct (Z.abs (k - 1) <? 10)%Z; [reflexivity | apply some_digits_to_uint]. }
    change (firstn 0 tl) with (@nil digits). change (skipn 0 tl) with tl.
    rewrite Hint, Hexp.
    destruct tl as [|d' tl]; [reflexivity|].
    rewrite some_digits_of_list by discriminate. reflexivity.
  - destruct (Z.leb_spec k 0) as [Hk|Hk].
    + unfold Readable.float_layout.
      cbn [FloatText.num_int FloatText.num_frac FloatText.num_exp].
      rewrite some_digits_of_list; [reflexivity|].
      destruct (FloatText.zeros (Z.to_nat (- k))); discriminate.
    + destruct (Z.leb_spec (Z.of_nat (length (d :: tl))) k) as [Hn|Hn].
      * unfold Readable.float_layout.
        cbn [FloatText.num_int FloatText.num_frac FloatText.num_exp app].
        destruct d; try congruence; reflexivity.
      * unfold Readable.float_layout.
        cbn [FloatText.num_int FloatText.num_frac FloatText.num_exp].
        destruct (Z.to_nat k) as [|k'] eqn:Hk'; [lia|].
        rewrite some_digits_of_list by (apply skipn_not_nil; lia).
        cbn [firstn]. destruct d; try congruence; reflexivity.
Qed.

Lemma number_of_layout (f : spec_float) :
  Readable.float_layout (FloatText.number_of f) = true.
Proof.
  destruct f as [s|s| |s m e]; try (destruct s; reflexivity); try reflexivity.
  unfold FloatText.number_of, FloatText.shortest.
  destruct (FloatText.shortest_from 17 m e (FloatText.point m e) 1) as [c p].
  destruct (FloatText.drop_zeros 400 c p) as [c' p'].
  apply layout_ok, head_nonzero_to_uint.
Qed.

(** A finite float that reads back is scanned as itself. *)
Lemma scan_number_float (f : spec_float) (rest : string) :
  (forall s, f <> S754_infinity s) -> f <> S754_nan ->
  Readable.float_reads_back f = true ->
  Readable.ends_number rest = true ->
  exists t, JsonRead.scan_number (Json.dump_float f +:+ rest) = Some (t, rest)
            /\ JsonRead.number_value t = VFloat f.
Proof.
  intros Hinf Hnan Hback Hrest. exists (FloatText.number_of f).
  assert (Htext : Json.dump_float f = FloatText.print (FloatText.number_of f)).
  { destruct f; try reflexivity; [destruct (Hinf s) | destruct Hnan]; reflexivity. }
  assert (Hvalue : FloatText.to_float (FloatText.number_of f) = f).
  { destruct f; cbv beta iota delta [Readable.float_reads_back] in Hback;
      try exact (float_eqb_eq _ _ Hback).
    - destruct (Hinf s). reflexivity.
    - destruct Hnan. reflexivity. }
  pose proof (number_of_layout f) as Hlayout. rewrite Htext.
  unfold Readable.float_layout in Hlayout.
  apply andb_prop in Hlayout as [Hparts Hkind].
  split.
  - apply scan_number_print; [exact Hparts | exact Hrest].
  - unfold JsonRead.number_value.
    destruct (FloatText.num_frac (FloatText.number_of f)),
      (FloatText.num_exp (FloatText.number_of f));
      try discriminate; rewrite Hvalue; reflexivity.
Qed.

(** *** Values without items *)

Lemma scanned_head (s : string) (t : FloatText.number) (rest : string) :
  JsonRead.scan_number s = Some (t, rest) ->
  exists c r, s = String c r
              /\ (Readable.is_digit c = true \/ c = "-"%char).
Proof.
  destruct s as [|c r]; [discriminate|]. intros H. exists c, r. split; [reflexivity|].
  destruct (Readable.is_digit c) eqn:Hd; [auto|]. right.
  destruct (Ascii.eqb_spec c "-") as [->|Hne]; [reflexivity|].
  exfalso. unfold JsonRead.scan_number, JsonRead.scan_sign in H.
  apply Ascii.eqb_neq in Hne. rewrite Hne in H.
  unfold JsonRead.scan_int in H.
  destruct (Ascii.eqb_spec c "0") as [->|_]; [discriminate|].
  cbn [JsonRead.scan_digits] in H. rewrite (digit_of_other c Hd) in H.
  discriminate.
Qed.

Lemma head_not (c x : ascii) :
  Readable.is_digit c = true \/ c = "-"%char ->
  Readable.is_digit x = false -> x <> "-"%char ->
  Ascii.eqb c x = false /\ Ascii.eqb x c = false.
Proof.
  intros Hc Hx Hx'. split; apply Ascii.eqb_neq; intros <-;
    destruct Hc; congruence.
Qed.

Lemma parse_scanned (fuel : nat) (s : string) (t : FloatText.number)
    (rest : string) :
  JsonRead.scan_number s = Some (t, rest) ->
  JsonRead.parse_value (S fuel) s = Some (JsonRead.number_value t, rest).
Proof.
  intros H. destruct (scanned_head s t rest H) as (c & r & -> & Hc).
  cbn [JsonRead.parse_value].
  rewrite (proj1 (head_not c quote Hc eq_refl ltac:(discriminate))).
  rewrite (proj1 (head_not c "[" Hc eq_refl ltac:(discriminate))).
  rewrite (proj1 (head_not c "{" Hc eq_refl ltac:(discriminate))).
  unfold JsonRead.literal. cbn [JsonRead.after].
  rewrite (proj2 (head_not c "n" Hc eq_refl ltac:(discriminate))).
  rewrite (proj2 (head_not c "t" Hc eq_refl ltac:(discriminate))).
  rewrite (proj2 (head_not c "f" Hc eq_refl ltac:(discriminate))).
  rewrite H. reflexivity.
Qed.

(** *** Induction on values, through their items *)

Lemma value_ind_nested (P : value -> Prop) :
  P VNone ->
  (forall b, P (VBool b)) ->
  (forall n, P (VInt n)) ->
  (forall f, P (VFloat f)) ->
  (forall s, P (VStr s)) ->
  (forall items, Forall P items -> P (VList items)) ->
  (forall items, Forall (fun kv => P (snd kv)) items -> P (VDict items)) ->
  forall v, P v.
Proof.
  intros HNone HBool HInt HFloat HStr HList HDict.
  fix go 1. intros [|b|n|f|s|items|items].
  - exact HNone.
  - apply HBool.
  - apply HInt.
  - apply HFloat.
  - apply HStr.
  - apply HList. induction items as [|x r IH]; constructor; [apply go | exact IH].
  - apply HDict. induction items as [|[k x] r IH]; constructor;
      [apply go | exact IH].
Qed.

(** *** The head of a written value *)

Lemma head_ok_digit (c : ascii) (r : string) :
  Readable.is_digit c = true \/ c = "-"%char -> head_ok (String c r) = true.
Proof.
  intros [H| ->]; [|reflexivity].
  destruct c as [[] [] [] [] [] [] [] []]; try discriminate; reflexivity.
Qed.

Lemma head_ok_print (t : FloatText.number) (rest : string) :
  Readable.no_leading_zero (FloatText.num_int t) = true ->
  head_ok (FloatText.print t +:+ rest) = true.
Proof.
  intros Hint. rewrite print_parts.
  destruct (FloatText.num_neg t); [reflexivity|]. rewrite app_empty.
  destruct (digits_text_head (FloatText.num_int t)
              (frac_text (FloatText.num_frac t)
               +:+ exp_text (FloatText.num_exp t) +:+ rest)
              (no_leading_zero_some _ Hint)) as (c & r & -> & Hc).
  apply head_ok_digit. auto.
Qed.

Lemma head_ok_dump (level : nat) (v : value) (rest : string) :
  Readable.value_ok v = true -> head_ok (Json.dump level v +:+ rest) = true.
Proof.
  destruct v as [|b|n|f|s|items|items]; intros Hok.
  - reflexivity.
  - destruct b; reflexivity.
  - cbn [Json.dump]. rewrite of_Z_print. apply head_ok_print.
    apply no_leading_zero_to_uint.
  - cbn [Json.dump]. destruct f as [s|s| |s m e]; try (destruct s; reflexivity);
      try reflexivity.
    pose proof (number_of_layout (S754_finite s m e)) as Hlayout.
    unfold Readable.float_layout in Hlayout.
    repeat (apply andb_prop in Hlayout as [Hlayout _]).
    change (Json.dump_float (S754_finite s m e))
      with (FloatText.print (FloatText.number_of (S754_finite s m e))).
    apply head_ok_print. exact Hlayout.
  - reflexivity.
  - destruct items; reflexivity.
  - destruct items; reflexivity.
Qed.

Lemma head_ok_skip (s : string) :
  head_ok s = true ->
  exists c r, s = String c r /\ JsonRead.skip_ws s = s
              /\ Ascii.eqb c "]" = false /\ Ascii.eqb c "}" = false.
Proof.
  destruct s as [|c r]; [discriminate|]. unfold head_ok. intros H.
  apply andb_prop in H as [H H3]. apply andb_prop in H as [H1 H2].
  apply negb_true_iff in H1, H2, H3.
  exists c, r. repeat split; auto. simpl. rewrite H1. reflexivity.
Qed.

(** *** Lists and dicts *)

Lemma ends_number_indent (level : nat) (s : string) :
  Readable.ends_number (Json.indent level +:+ s) = true.
Proof. unfold Json.indent, nl. flatten. reflexivity. Qed.

Lemma skip_ws_dump (level : nat) (v : value) (rest : string) :
  Readable.value_ok v = true ->
  exists c r, Json.dump level v +:+ rest = String c r
              /\ JsonRead.skip_ws (Json.dump level v +:+ rest)
                 = Json.dump level v +:+ rest
              /\ Ascii.eqb c "]" = false /\ Ascii.eqb c "}" = false.
Proof. intros Hok. apply head_ok_skip, head_ok_dump, Hok. Qed.

Lemma parse_items_dump (level : nat) (items : list value) :
  items <> [] ->
  Forall reads_back items ->
  forallb Readable.value_ok items = true ->
  forall (fuel : nat) (rest : string),
    (list_sum (map (fun x => S (Readable.size x)) items) <= fuel)%nat ->
    JsonRead.parse_items fuel
      (Json.seq_text ("," +:+ Json.indent (S level))
                     (map (Json.dump (S level)) items)
       +:+ Json.indent level +:+ String "]" rest)
    = Some (items, rest).
Proof.
  intros Hne Hall. induction Hall as [|x xs Hx Hxs IH]; [congruence|].
  clear Hne. intros Hok fuel rest Hfuel.
  cbn [forallb] in Hok. apply andb_prop in Hok as [Hokx Hokxs].
  cbn [map list_sum fold_right] in Hfuel. fold (list_sum (map (fun x => S (Readable.size x)) xs)) in Hfuel.
  destruct fuel as [|fuel]; [lia|]. cbn [JsonRead.parse_items].
  assert (Hfx : (Readable.size x <= fuel)%nat) by lia.
  assert (Hfxs : (list_sum (map (fun x => S (Readable.size x)) xs) <= fuel)%nat)
    by lia.
  clear Hfuel.
  destruct xs as [|y ys].
  - cbn [map Json.seq_text].
    rewrite (Hx Hokx (S level) fuel _ Hfx (ends_number_indent level _)).
    rewrite skip_ws_indent. reflexivity.
  - cbn [map Json.seq_text]. rewrite !app_assoc_s, app_cons, app_empty.
    rewrite (Hx Hokx (S level) fuel (String "," _) Hfx eq_refl).
    cbn [JsonRead.skip_ws]. change (JsonRead.is_ws ",") with false. cbv iota.
    change (Ascii.eqb "," "]") with false. change (Ascii.eqb "," ",") with true.
    cbv iota. rewrite skip_ws_indent.
    specialize (IH ltac:(discriminate) Hokxs fuel rest Hfxs).
    cbn [map Json.seq_text] in IH.
    cbn [forallb] in Hokxs. apply andb_prop in Hokxs as [Hoky _].
    destruct ys as [|z zs]; cbn [map Json.seq_text] in IH |- *.
    + destruct (skip_ws_dump (S level) y (Json.indent level +:+ String "]" rest) Hoky)
        as (c & r & _ & -> & _).
      rewrite IH. reflexivity.
    + rewrite !app_assoc_s in IH |- *.
      match goal with
      | |- context [JsonRead.skip_ws (Json.dump ?l ?v +:+ ?R)] =>
          destruct (skip_ws_dump l v R Hoky) as (c & r & _ & -> & _)
      end.
      rewrite IH. reflexivity.
Qed.

Lemma parse_members_dump (level : nat) (items : list (string * value)) :
  items <> [] ->
  Forall (fun kv => reads_back (snd kv)) items ->
  forallb (fun kv => Readable.value_ok (snd kv)) items = true ->
  forall (fuel : nat) (rest : string),
    (list_sum (map (fun kv => S (Readable.size (snd kv))) items) <= fuel)%nat ->
    JsonRead.parse_members fuel
      (Json.seq_text ("," +:+ Json.indent (S level))
                     (map (member_text level) items)
       +:+ Json.indent level +:+ String "}" rest)
    = Some (items, rest).
Proof.
  intros Hne Hall. induction Hall as [|[k x] xs Hx Hxs IH]; [congruence|].
  clear Hne. intros Hok fuel rest Hfuel. cbn [snd] in Hx.
  cbn [forallb snd] in Hok. apply andb_prop in Hok as [Hokx Hokxs].
  cbn [map list_sum fold_right snd] in Hfuel.
  fold (list_sum (map (fun kv : string * value => S (Readable.size (snd kv))) xs))
    in Hfuel.
  destruct fuel as [|fuel]; [lia|]. cbn [JsonRead.parse_members].
  assert (Hfx : (Readable.size x <= fuel)%nat) by lia.
  assert (Hfxs : (list_sum (map (fun kv : string * value =>
                                   S (Readable.size (snd kv))) xs) <= fuel)%nat)
    by lia.
  clear Hfuel.
  assert (Hmember : forall R,
    exists body,
      member_text level (k, x) +:+ R = String quote body
      /\ JsonRead.scan_string body
         = Some (k, String ":" (String " " (Json.dump (S level) x +:+ R)))).
  { intros R.
    destruct (scan_dump_str k (": " +:+ Json.dump (S level) x +:+ R))
      as (body & Hbody & Hscan).
    exists body. unfold member_text. cbn [fst snd].
    rewrite !app_assoc_s, Hbody. split; [reflexivity|].
    rewrite Hscan. reflexivity. }
  assert (Hvalue : forall R, Readable.ends_number R = true ->
    JsonRead.parse_value fuel
      (JsonRead.skip_ws (String " " (Json.dump (S level) x +:+ R)))
    = Some (x, R)).
  { intros R HR. cbn [JsonRead.skip_ws]. change (JsonRead.is_ws " ") with true.
    cbv iota.
    destruct (skip_ws_dump (S level) x R Hokx) as (c & r & _ & -> & _).
    exact (Hx Hokx (S level) fuel R Hfx HR). }
  destruct xs as [|[k' y] ys]; cbn [map Json.seq_text].
  - destruct (Hmember (Json.indent level +:+ String "}" rest))
      as (body & -> & Hscan).
    change (Ascii.eqb quote quote) with true. cbn [negb]. cbv iota.
    rewrite Hscan. cbn [JsonRead.skip_ws]. change (JsonRead.is_ws ":") with false.
    cbv iota. change (Ascii.eqb ":" ":") with true. cbn [negb]. cbv iota.
    rewrite (Hvalue _ (ends_number_indent level _)).
    rewrite skip_ws_indent. reflexivity.
  - rewrite !app_assoc_s, app_cons, app_empty.
    match goal with
    | |- context [member_text level (k, x) +:+ ?R] =>
        destruct (Hmember R) as (body & -> & Hscan)
    end.
    change (Ascii.eqb quote quote) with true. cbn [negb]. cbv iota.
    rewrite Hscan. cbn [JsonRead.skip_ws]. change (JsonRead.is_ws ":") with false.
    cbv iota. change (Ascii.eqb ":" ":") with true. cbn [negb]. cbv iota.
    rewrite (Hvalue (String "," _) eq_refl).
    cbn [JsonRead.skip_ws]. change (JsonRead.is_ws ",") with false. cbv iota.
    change (Ascii.eqb "," "}") with false. change (Ascii.eqb "," ",") with true.
    cbv iota. rewrite skip_ws_indent.
    specialize (IH ltac:(discriminate) Hokxs fuel rest Hfxs).
    destruct ys as [|z zs]; cbn [map Json.seq_text] in IH |- *;
      rewrite ?app_assoc_s in IH |- *.
    + assert (Hskip : forall R,
        JsonRead.skip_ws (member_text level (k', y) +:+ R)
        = member_text level (k', y) +:+ R).
      { intros R. unfold member_text, Json.dump_str. flatten. reflexivity. }
      rewrite Hskip, IH. reflexivity.
    + assert (Hskip : forall R,
        JsonRead.skip_ws (member_text level (k', y) +:+ R)
        = member_text level (k', y) +:+ R).
      { intros R. unfold member_text, Json.dump_str. flatten. reflexivity. }
      rewrite Hskip, IH. reflexivity.
Qed.

(** Items with distinct keys make the dict they are listed in. *)
Lemma dict_set_new (key : string) (v : value) (items : list (string * value)) :
  existsb (String.eqb key) (map fst items) = false ->
  JsonRead.dict_set key v items = (items ++ [(key, v)])%list.
Proof.
  induction items as [|[k x] items IH]; [reflexivity|]. cbn [map fst existsb].
  intros H. apply orb_false_elim in H as [Hk Hrest].
  cbn [JsonRead.dict_set app]. rewrite String.eqb_sym, Hk, (IH Hrest).
  reflexivity.
Qed.

Lemma dict_of_distinct_from (items acc : list (string * value)) :
  Readable.distinct (map fst items) = true ->
  (forall k, In k (map fst items) ->
             existsb (String.eqb k) (map fst acc) = false) ->
  fold_left (fun done kv => JsonRead.dict_set (fst kv) (snd kv) done) items acc
  = (acc ++ items)%list.
Proof.
  revert acc. induction items as [|[k x] items IH]; intros acc Hd Hacc.
  - rewrite app_nil_r. reflexivity.
  - cbn [map fst Readable.distinct] in Hd. apply andb_prop in Hd as [Hk Hd].
    apply negb_true_iff in Hk.
    cbn [fold_left fst snd].
    rewrite dict_set_new by (apply Hacc; left; reflexivity).
    rewrite IH.
    + rewrite <- app_assoc. reflexivity.
    + exact Hd.
    + intros k' Hin. rewrite map_app, existsb_app. cbn [map fst existsb].
      rewrite (Hacc k' (or_intror Hin)), orb_false_r. cbn [orb].
      destruct (String.eqb_spec k' k) as [->|]; [|reflexivity].
      exfalso. apply eq_true_false_abs with (b := existsb (String.eqb k) (map fst items));
        [|exact Hk].
      apply existsb_exists. exists k. split; [exact Hin | apply String.eqb_refl].
Qed.

Lemma dict_of_distinct (items : list (string * value)) :
  Readable.distinct (map fst items) = true -> JsonRead.dict_of items = items.
Proof.
  intros Hd. unfold JsonRead.dict_of.
  rewrite (dict_of_distinct_from items [] Hd); [reflexivity|].
  intros k _. reflexivity.
Qed.

(** *** Every value *)

Lemma parse_dump (v : value) : reads_back v.
Proof.
  induction v as [|b|n|f|s|items IH|items IH] using value_ind_nested;
    intros Hok level fuel rest Hfuel Hrest;
    (destruct fuel as [|fuel]; [simpl in Hfuel; lia|]).
  - reflexivity.
  - destruct b; reflexivity.
  - cbn [Json.dump].
    rewrite (parse_scanned fuel _ _ _ (scan_number_int n rest Hrest)).
    rewrite int_number_value. reflexivity.
  - cbn [Json.dump]. destruct f as [s|s| |s m e].
    + destruct (scan_number_float (S754_zero s) rest) as (t & Hscan & Ht);
        try discriminate; try assumption.
      rewrite (parse_scanned fuel _ _ _ Hscan), Ht. reflexivity.
    + destruct s; reflexivity.
    + reflexivity.
    + destruct (scan_number_float (S754_finite s m e) rest) as (t & Hscan & Ht);
        try discriminate; try assumption.
      rewrite (parse_scanned fuel _ _ _ Hscan), Ht. reflexivity.
  - cbn [Json.dump]. destruct (scan_dump_str s rest) as (body & -> & Hscan).
    cbn [JsonRead.parse_value]. change (Ascii.eqb quote quote) with true.
    cbv iota. rewrite Hscan. reflexivity.
  - destruct items as [|x xs]; [reflexivity|].
    cbn [Readable.value_ok] in Hok. cbn [Readable.size] in Hfuel.
    cbn [Json.dump]. rewrite !app_assoc_s, app_cons, app_empty.
    change ("]" +:+ rest) with (String "]" rest).
    cbn [JsonRead.parse_value]. change (Ascii.eqb "[" quote) with false.
    change (Ascii.eqb "[" "[") with true. cbv iota.
    rewrite skip_ws_indent.
    pose proof (parse_items_dump level (x :: xs) ltac:(discriminate) IH Hok
                  fuel rest ltac:(lia)) as Hitems.
    cbn [map Json.seq_text] in Hitems |- *.
    cbn [forallb] in Hok. apply andb_prop in Hok as [Hokx _].
    destruct xs as [|y ys]; cbn [map Json.seq_text] in Hitems |- *;
      rewrite ?app_assoc_s in Hitems |- *;
      match goal with
      | |- context [JsonRead.skip_ws (Json.dump ?l ?v +:+ ?R)] =>
          destruct (skip_ws_dump l v R Hokx) as (c & r & Htext & Hskip & Hc & _)
      end;
      rewrite Hskip, Hitems, Htext, Hc; reflexivity.
  - destruct items as [|[k x] xs]; [reflexivity|].
    cbn [Readable.value_ok] in Hok. apply andb_prop in Hok as [Hkeys Hok].
    cbn [Readable.size] in Hfuel.
    cbn [Json.dump]. rewrite !app_assoc_s, app_cons, app_empty.
    change ("}" +:+ rest) with (String "}" rest).
    cbn [JsonRead.parse_value]. change (Ascii.eqb "{" quote) with false.
    change (Ascii.eqb "{" "[") with false. change (Ascii.eqb "{" "{") with true.
    cbv iota. rewrite skip_ws_indent.
    pose proof (parse_members_dump level ((k, x) :: xs) ltac:(discriminate) IH
                  Hok fuel rest ltac:(lia)) as Hitems.
    change (fun kv : string * value =>
              Json.dump_str (fst kv) +:+ ": " +:+ Json.dump (S level) (snd kv))
      with (member_text level).
    assert (Hskip : forall R,
      exists r, member_text level (k, x) +:+ R = String quote r
                /\ JsonRead.skip_ws (member_text level (k, x) +:+ R)
                   = member_text level (k, x) +:+ R).
    { intros R. unfold member_text, Json.dump_str. flatten. eauto. }
    destruct xs as [|y ys]; cbn [map Json.seq_text] in Hitems |- *;
      rewrite ?app_assoc_s in Hitems |- *;
      match goal with
      | |- context [JsonRead.skip_ws (member_text level (k, x) +:+ ?R)] =>
          destruct (Hskip R) as (r & Htext & ->)
      end;
      rewrite Hitems, Htext; change (Ascii.eqb quote "}") with false; cbv iota;
      rewrite (dict_of_distinct _ Hkeys); reflexivity.
Qed.

(** *** Enough steps *)

Lemma dump_not_empty (level : nat) (v : value) :
  Readable.value_ok v = true -> (1 <= String.length (Json.dump level v))%nat.
Proof.
  intros Hok. pose proof (head_ok_dump level v "" Hok) as H.
  rewrite app_nil_r_s in H.
  destruct (Json.dump level v); [discriminate | simpl; lia].
Qed.

Lemma seq_text_length (sep : string) (sizes : list nat) (texts : list string) :
  (1 <= String.length sep)%nat ->
  Forall2 (fun n t => (n <= String.length t)%nat) sizes texts ->
  (list_sum (map S sizes) <= String.length (Json.seq_text sep texts) + 1)%nat.
Proof.
  intros Hsep Hall. induction Hall as [|n t ns ts Hn Hrest IH]; [simpl; lia|].
  cbn [map list_sum fold_right]. fold (list_sum (map S ns)).
  destruct ts as [|t' ts'].
  - inversion Hrest; subst. simpl. lia.
  - cbn [Json.seq_text] in IH |- *. rewrite !length_app_s. lia.
Qed.

Lemma indent_length (level : nat) : (1 <= String.length (Json.indent level))%nat.
Proof. unfold Json.indent, nl. rewrite app_cons. simpl. lia. Qed.

Lemma size_le_length (v : value) :
  Readable.value_ok v = true ->
  forall level, (Readable.size v <= String.length (Json.dump level v))%nat.
Proof.
  induction v as [|b|n|f|s|items IH|items IH] using value_ind_nested;
    intros Hok level;
    try exact (dump_not_empty level _ Hok).
  - destruct items as [|x xs]; [simpl; lia|].
    cbn [Readable.value_ok] in Hok.
    assert (Hall : Forall2 (fun n t => (n <= String.length t)%nat)
                     (map Readable.size (x :: xs))
                     (map (Json.dump (S level)) (x :: xs))).
    { clear -IH Hok. induction IH as [|y ys Hy _ IHys]; [constructor|].
      cbn [forallb] in Hok. apply andb_prop in Hok as [Hoky Hokys].
      cbn [map]. constructor; auto. }
    pose proof (seq_text_length ("," +:+ Json.indent (S level)) _ _
                  ltac:(rewrite app_cons; simpl; lia) Hall) as Hlen.
    rewrite map_map in Hlen.
    cbn [Readable.size Json.dump]. rewrite !length_app_s.
    pose proof (indent_length (S level)). pose proof (indent_length level).
    simpl String.length at 1. lia.
  - destruct items as [|[k x] xs]; [simpl; lia|].
    cbn [Readable.value_ok] in Hok. apply andb_prop in Hok as [_ Hok].
    assert (Hall : Forall2 (fun n t => (n <= String.length t)%nat)
                     (map (fun kv => Readable.size (snd kv)) ((k, x) :: xs))
                     (map (member_text level) ((k, x) :: xs))).
    { clear -IH Hok. induction IH as [|[k' y] ys Hy _ IHys]; [constructor|].
      cbn [forallb snd] in Hok. apply andb_prop in Hok as [Hoky Hokys].
      cbn [map]. constructor; auto.
      unfold member_text. cbn [fst snd]. rewrite !length_app_s.
      specialize (Hy Hoky (S level)). cbn [snd] in Hy. lia. }
    pose proof (seq_text_length ("," +:+ Json.indent (S level)) _ _
                  ltac:(rewrite app_cons; simpl; lia) Hall) as Hlen.
    rewrite map_map in Hlen.
    cbn [Readable.size Json.dump].
    change (fun kv : string * value =>
              Json.dump_str (fst kv) +:+ ": " +:+ Json.dump (S level) (snd kv))
      with (member_text level).
    rewrite !length_app_s.
    pose proof (indent_length (S level)). pose proof (indent_length level).
    simpl String.length at 1. lia.
Qed.

(** What [json.dump] writes, [json.loads] reads as the value written. *)
Lemma loads_dumps (v : value) :
  Readable.value_ok v = true -> JsonRead.loads (Json.dumps v) = Some v.
Proof.
  intros Hok. unfold JsonRead.loads, Json.dumps.
  pose proof (head_ok_dump 0 v "" Hok) as Hhead. rewrite app_nil_r_s in Hhead.
  destruct (head_ok_skip _ Hhead) as (c & r & _ & -> & _).
  pose proof (parse_dump v Hok 0%nat
                (2 * String.length (Json.dump 0 v) + 2)%nat ""
                ltac:(pose proof (size_le_length v Hok 0%nat); lia) eq_refl) as H.
  rewrite app_nil_r_s in H. rewrite H. reflexivity.
Qed.

(** * A saved record read back *)

Lemma texts_of_texts (l : list string) : texts_of (map VStr l) = Some l.
Proof. induction l as [|s l IH]; [reflexivity|]. simpl. rewrite IH. reflexivity. Qed.

Lemma info_of_dict_dict (i : info) : info_of_dict (info_dict i) = Some i.
Proof.
  destruct i. unfold info_of_dict, info_dict, key_texts, texts. simpl.
  rewrite !texts_of_texts. reflexivity.
Qed.

Lemma texts_ok (l : list string) : Readable.value_ok (texts l) = true.
Proof.
  unfold texts. cbn [Readable.value_ok].
  induction l as [|s l IH]; [reflexivity | exact IH].
Qed.

Lemma info_dict_ok (i : info) :
  Readable.info_ok i = true -> Readable.value_ok (info_dict i) = true.
Proof.
  unfold Readable.info_ok. intros H.
  apply andb_prop in H as [H Himg]. apply andb_prop in H as [H Ha].
  apply andb_prop in H as [Hid Hp].
  unfold info_dict. cbn [Readable.value_ok map fst snd forallb].
  change (Readable.distinct _) with true.
  rewrite Hid, Hp, Ha, Himg, !texts_ok. reflexivity.
Qed.



(** * Further properties of the fetcher *)

Lemma app_inv_head_s (p s t : string) : p +:+ s = p +:+ t -> s = t.
Proof.
  induction p as [|c p IH]; [auto|].
  rewrite !app_cons. intros [= H]. auto.
Qed.

Lemma rev_inj_s (s t : string) : String.rev s = String.rev t -> s = t.
Proof.
  intros H. rewrite <- (rev_involutive_s s), <- (rev_involutive_s t), H.
  reflexivity.
Qed.

Lemma app_inv_tail_s (p s t : string) : s +:+ p = t +:+ p -> s = t.
Proof.
  intros H. apply rev_inj_s. apply (f_equal String.rev) in H.
  rewrite !rev_app_distr_s in H. exact (app_inv_head_s _ _ _ H).
Qed.

Lemma not_found_message_inj (q1 q2 : string) :
  not_found_message q1 = not_found_message q2 -> q1 = q2.
Proof.
  unfold not_found_message. intros H. apply app_inv_head_s in H.
  exact (app_inv_tail_s _ _ _ H).
Qed.

(** X1: no exception of the requests family leaves the fetcher.  What it
    lets out was raised by the request itself or by the parsing of the body of
    a response 200, and is of another family. *)
Theorem fetcher_raises_no_request_exception (q : string) (w : world) (e : exn) :
  fst (obtener_datos_pokemon q w) = Raise e ->
  is_request_exception e = false
  /\ (net w (request_url q) = NoResponse e
      \/ net w (request_url q) = Response 200 (Raise e)).
Proof.
  unfold obtener_datos_pokemon, try_except, requests_get, mbind, M_bind.
  destruct (net w (request_url q)) as [status body|e'] eqn:Hnet.
  - destruct (status =? 200)%Z eqn:H200.
    + apply Z.eqb_eq in H200 as ->. destruct body as [v|e']; simpl.
      * discriminate.
      * destruct (is_request_exception e') eqn:He; simpl; [discriminate|].
        intros [= <-]. auto.
    + destruct (status =? 404)%Z; simpl; discriminate.
  - simpl. destruct (is_request_exception e') eqn:He; simpl; [discriminate|].
    intros [= <-]. auto.
Qed.

Lemma fetcher_raises_no_request_exception_witness :
  fst (obtener_datos_pokemon "mew" (fresh (fun _ => Response 200 (Raise ValueError))))
  = Raise ValueError
  /\ is_request_exception ValueError = false.
Proof.
  split; [reflexivity|].
  apply (fetcher_raises_no_request_exception "mew"
           (fresh (fun _ => Response 200 (Raise ValueError))) ValueError).
  reflexivity.
Defined.

(** X2: the parsing of the body is inside the [try]: when it raises an
    exception of the requests family for a response 200, the fetcher prints
    the two lines of a failed connection, with the text of the exception, and
    returns [None]. *)
Theorem body_error_told_as_connection_failure (q : string) (w : world)
    (detail : string) :
  net w (request_url q) = Response 200 (Raise (RequestException detail)) ->
  obtener_datos_pokemon q w
  = (Ok VNone, told (connection_messages detail) (sent q w))
  /\ stdout (snd (obtener_datos_pokemon q w))
     = (stdout w
        ++ [nl +:+ "Fatal Error: No se pudo conectar a la PokeAPI. Revisa tu conexión a internet o la URL base.";
            "Detalles del error: " +:+ detail])%list.
Proof.
  intros H.
  assert (Hrun : obtener_datos_pokemon q w
                 = (Ok VNone, told (connection_messages detail) (sent q w))).
  { unfold obtener_datos_pokemon, try_except, requests_get, mbind, M_bind.
    rewrite H. unfold told, sent, print; simpl. rewrite <- app_assoc.
    reflexivity. }
  split; [exact Hrun|]. rewrite Hrun. reflexivity.
Qed.

Lemma body_error_told_as_connection_failure_witness :
  fst (obtener_datos_pokemon "mew"
         (fresh (fun _ => Response 200 (Raise (RequestException "Expecting value")))))
  = Ok VNone.
Proof.
  rewrite (proj1 (body_error_told_as_connection_failure "mew"
             (fresh (fun _ => Response 200 (Raise (RequestException "Expecting value"))))
             "Expecting value" eq_refl)).
  reflexivity.
Defined.

(** X3: whatever the answer, and also when an exception goes out, a fetch
    sends one request and no more; for a name of ASCII characters, where the
    case mapping of the model is Python's, it goes to the base address
    followed by the name in lower case and stripped.  The fetch leaves the
    file system as it was, keeps what the console showed and adds two lines
    at most. *)
Theorem fetcher_sends_one_request (q : string) (w : world) :
  let after := snd (obtener_datos_pokemon q w) in
  (exists url, requests after = (requests w ++ [url])%list)
  /\ (ascii_only q = true ->
      requests after
      = (requests w ++ [BASE_URL +:+ Text.strip (Text.lower q)])%list)
  /\ fs after = fs w
  /\ exists lines, stdout after = (stdout w ++ lines)%list
                   /\ (length lines <= 2)%nat.
Proof.
  cbv zeta. split; [eexists; apply obtener_requests|].
  split; [intros _; apply obtener_requests|].
  unfold obtener_datos_pokemon, try_except, requests_get, mbind, M_bind.
  destruct (net w (request_url q)) as [status body|e].
  - destruct (status =? 200)%Z.
    + destruct body as [v|e]; simpl.
      * split; [reflexivity|]. exists []. rewrite app_nil_r. auto.
      * destruct (is_request_exception e); simpl.
        -- split; [reflexivity|]. eexists [_; _]. rewrite <- app_assoc. auto.
        -- split; [reflexivity|]. exists []. rewrite app_nil_r. auto.
    + destruct (status =? 404)%Z; simpl.
      * split; [reflexivity|]. eexists [_]. auto.
      * split; [reflexivity|]. eexists [_; _]. rewrite <- app_assoc. auto.
  - simpl. destruct (is_request_exception e); simpl.
    + split; [reflexivity|]. eexists [_; _]. rewrite <- app_assoc. auto.
    + split; [reflexivity|]. exists []. rewrite app_nil_r. auto.
Qed.

Lemma fetcher_sends_one_request_witness :
  requests (snd (obtener_datos_pokemon " Bulbasaur" (fresh pokeapi)))
  = ["https://pokeapi.co/api/v2/pokemon/bulbasaur"].
Proof.
  apply (proj1 (proj2 (fetcher_sends_one_request " Bulbasaur" (fresh pokeapi)))).
  reflexivity.
Defined.

(** X4: a value other than [None] is returned for a response 200 only: it
    is the parsed body, and nothing was printed. *)
Theorem fetcher_value_is_body_of_200 (q : string) (w : world) (v : value) :
  fst (obtener_datos_pokemon q w) = Ok v ->
  v <> VNone ->
  net w (request_url q) = Response 200 (Ok v)
  /\ stdout (snd (obtener_datos_pokemon q w)) = stdout w.
Proof.
  unfold obtener_datos_pokemon, try_except, requests_get, mbind, M_bind.
  destruct (net w (request_url q)) as [status body|e] eqn:Hnet.
  - destruct (status =? 200)%Z eqn:H200.
    + apply Z.eqb_eq in H200 as ->. destruct body as [b|e]; simpl.
      * intros [= ->] _. auto.
      * destruct (is_request_exception e); simpl; [|discriminate].
        intros [= <-] Hv. destruct (Hv eq_refl).
    + destruct (status =? 404)%Z; simpl; intros [= <-] Hv;
        destruct (Hv eq_refl).
  - simpl. destruct (is_request_exception e); simpl; [|discriminate].
    intros [= <-] Hv. destruct (Hv eq_refl).
Qed.

Lemma fetcher_value_is_body_of_200_witness :
  fst (obtener_datos_pokemon "Bulbasaur" (fresh pokeapi)) = Ok bulbasaur
  /\ net (fresh pokeapi) (request_url "Bulbasaur") = Response 200 (Ok bulbasaur).
Proof.
  split; [reflexivity|].
  apply (fetcher_value_is_body_of_200 "Bulbasaur" (fresh pokeapi) bulbasaur).
  - reflexivity.
  - discriminate.
Defined.

(** X5: the message of a 404 quotes the name as it was typed, not its
    normal form: two names that differ, even by their case or by blanks
    around them only, are answered with different lines. *)
Theorem not_found_quotes_typed_name (q1 q2 : string) (w : world)
    (b1 b2 : result value) :
  net w (request_url q1) = Response 404 b1 ->
  net w (request_url q2) = Response 404 b2 ->
  q1 <> q2 ->
  stdout (snd (obtener_datos_pokemon q1 w))
  = (stdout w ++ ["Error: El Pokémon '" +:+ q1
                  +:+ "' no existe en la Pokédex. Intenta con otro nombre."])%list
  /\ stdout (snd (obtener_datos_pokemon q1 w))
     <> stdout (snd (obtener_datos_pokemon q2 w)).
Proof.
  intros H1 H2 Hne.
  rewrite (obtener_404 q1 w b1 H1), (obtener_404 q2 w b2 H2).
  cbn [snd stdout told with_stdout sent with_requests].
  split; [reflexivity|].
  intros Heq. apply app_inv_head in Heq.
  apply (f_equal (hd "")) in Heq. cbn [hd] in Heq.
  exact (Hne (not_found_message_inj _ _ Heq)).
Qed.

Lemma not_found_quotes_typed_name_witness :
  request_url " MEW " = request_url "mew"
  /\ stdout (snd (obtener_datos_pokemon " MEW " (fresh pokeapi)))
     <> stdout (snd (obtener_datos_pokemon "mew" (fresh pokeapi))).
Proof.
  split; [reflexivity|].
  apply (not_found_quotes_typed_name " MEW " "mew" (fresh pokeapi)
           (Raise ValueError) (Raise ValueError)).
  - reflexivity.
  - reflexivity.
  - discriminate.
Defined.

(** * Further properties of the extractor *)

Lemma tipo_de_Ok (t : value) (out : string) :
  tipo_de t = Ok out -> from_type t out.
Proof.
  unfold tipo_de, from_type. intros H.
  destruct (nested_name "type" t) as [[]|] eqn:Hn; simpl in H; try discriminate.
  injection H as <-. eauto.
Qed.

Lemma habilidad_de_Ok (a : value) (out : string) :
  habilidad_de a = Ok out -> from_move "ability" a out.
Proof.
  unfold habilidad_de, from_move. intros H.
  destruct (nested_name "ability" a) as [[]|] eqn:Hn; simpl in H;
    try discriminate.
  injection H as <-. eexists. split; [reflexivity|]. intros _.
  split; [reflexivity | apply lower_capitalize].
Qed.

Lemma no_space_replaced (s : string) :
  Text.contains " " (Text.replace " " "_" s) = false.
Proof.
  unfold Text.replace. induction s as [|c s IH]; [reflexivity|].
  cbn [Text.map_chars Text.contains]. rewrite IH, orb_false_r.
  destruct (Ascii.eqb_spec c " ") as [->|Hne]; [reflexivity|].
  apply Ascii.eqb_neq. congruence.
Qed.

(** X6: the extractor returns a record exactly for the records of the shape
    it reads: a dict with a text at [name], a key [id], numbers at [weight]
    and [height] whose tenth is a float, a key [front_default] in the dict at
    [sprites], and a text at [type.name], [ability.name], [move.name] of every
    type, every ability and each of the first five moves.  For every other
    value it raises an exception of the shape of the data. *)
Theorem extractor_accepts_the_well_shaped (datos : value) :
  (well_shaped datos = true
   <-> exists i, extraer_informacion_relevante datos = Ok i)
  /\ (well_shaped datos = false
      <-> exists e, extraer_informacion_relevante datos = Raise e
                    /\ shape_error e = true).
Proof.
  split; split.
  - apply extraer_well_shaped.
  - intros (i & H). exact (extraer_Ok_well_shaped _ _ H).
  - intros Hno. destruct (extraer_informacion_relevante datos) as [i|e] eqn:H.
    + apply extraer_Ok_well_shaped in H. congruence.
    + exists e. split; [reflexivity|]. exact (extraer_shapely datos e H).
  - intros (e & H & _). destruct (well_shaped datos) eqn:Hw; [|reflexivity].
    apply extraer_well_shaped in Hw as (i & Hi). congruence.
Qed.

(** X7: the types and the abilities are kept whole and in the order of the
    source, unlike the moves: one entry for each item of the list, whose name
    is a text; when that name is ASCII, a type is the name capitalized (a
    hyphen stays) and an ability is the name with hyphens replaced by spaces,
    then capitalized. *)
Theorem types_and_abilities_kept_whole (datos : value) (types abilities : list value)
    (i : info) :
  Py.getitem "types" datos = Ok (VList types) ->
  Py.getitem "abilities" datos = Ok (VList abilities) ->
  extraer_informacion_relevante datos = Ok i ->
  length (tipos i) = length types
  /\ Forall2 from_type types (tipos i)
  /\ length (habilidades i) = length abilities
  /\ Forall2 (from_move "ability") abilities (habilidades i).
Proof.
  intros Ht Ha Hi.
  apply extraer_Ok in Hi as (_ & _ & _ & _ & _ & Htipos & Hhab & _).
  rewrite Ht in Htipos. rewrite Ha in Hhab. simpl in Htipos, Hhab.
  apply mapM_Ok in Htipos, Hhab.
  assert (H1 : Forall2 from_type types (tipos i))
    by (eapply Forall2_impl; [exact Htipos | exact tipo_de_Ok]).
  assert (H2 : Forall2 (from_move "ability") abilities (habilidades i))
    by (eapply Forall2_impl; [exact Hhab | exact habilidad_de_Ok]).
  repeat split; auto; symmetry; eapply Forall2_length; eauto.
Qed.

Lemma types_and_abilities_kept_whole_witness :
  length (tipos bulbasaur_info) = 2%nat
  /\ Forall2 from_type [named "type" "grass"; named "type" "poison"]
       (tipos bulbasaur_info)
  /\ length (habilidades bulbasaur_info) = 2%nat
  /\ Forall2 (from_move "ability")
       [named "ability" "overgrow"; named "ability" "chlorophyll"]
       (habilidades bulbasaur_info).
Proof.
  apply (types_and_abilities_kept_whole bulbasaur
           [named "type" "grass"; named "type" "poison"]
           [named "ability" "overgrow"; named "ability" "chlorophyll"]
           bulbasaur_info).
  - reflexivity.
  - reflexivity.
  - reflexivity.
Defined.

(** X8: the items of the dictionary display are evaluated in the order they
    are written, so the first lookup that fails names the exception, whatever
    else is wrong: a value that is no dict raises [TypeError]; a dict without
    [name] raises [KeyError('name')]; a [name] that is no text raises
    [AttributeError]; with a text at [name], a dict without [id] raises
    [KeyError('id')]. *)
Theorem first_failing_lookup_is_raised (datos : value) :
  ((forall items, datos <> VDict items) ->
   extraer_informacion_relevante datos = Raise TypeError)
  /\ (forall items, datos = VDict items -> has_key "name" datos = false ->
      extraer_informacion_relevante datos = Raise (KeyError "name"))
  /\ (forall v, Py.getitem "name" datos = Ok v -> is_text v = false ->
      extraer_informacion_relevante datos = Raise AttributeError)
  /\ (forall v, Py.getitem "name" datos = Ok v -> is_text v = true ->
      has_key "id" datos = false ->
      extraer_informacion_relevante datos = Raise (KeyError "id")).
Proof.
  unfold extraer_informacion_relevante. repeat split.
  - intros Hno. destruct datos; try reflexivity. destruct (Hno items eq_refl).
  - intros items -> Hname. simpl in *.
    destruct (Py.lookup "name" items); [discriminate | reflexivity].
  - intros v Hv Htext. rewrite Hv. destruct v; try discriminate; reflexivity.
  - intros v Hv Htext Hid. rewrite Hv. destruct v; try discriminate.
    destruct datos; try discriminate. simpl in *.
    destruct (Py.lookup "id" items); [discriminate | reflexivity].
Qed.

Lemma first_failing_lookup_is_raised_witness :
  extraer_informacion_relevante nameless = Raise (KeyError "name")
  /\ extraer_informacion_relevante (VList [bulbasaur]) = Raise TypeError
  /\ extraer_informacion_relevante (VDict [("name", VInt 1)])
     = Raise AttributeError
  /\ extraer_informacion_relevante (VDict [("name", VStr "mew")])
     = Raise (KeyError "id").
Proof.
  split; [|split; [|split]].
  - apply (proj1 (proj2 (first_failing_lookup_is_raised nameless))
             [("count", VInt 1302); ("results", VList [])] eq_refl eq_refl).
  - apply (proj1 (first_failing_lookup_is_raised (VList [bulbasaur]))).
    discriminate.
  - apply (proj1 (proj2 (proj2 (first_failing_lookup_is_raised
             (VDict [("name", VInt 1)])))) (VInt 1)); reflexivity.
  - apply (proj2 (proj2 (proj2 (first_failing_lookup_is_raised
             (VDict [("name", VStr "mew")])))) (VStr "mew")); reflexivity.
Defined.

(** X9: the extractor reads the keys [name], [id], [weight], [height],
    [sprites], [types], [abilities] and the first five items of [moves], and
    nothing else: two dicts that agree on these give the same result, record
    or exception, whatever their other keys, the order of their keys and the
    moves after the fifth. *)
Theorem extractor_reads_its_keys_only (items1 items2 : list (string * value)) :
  (forall k,
      In k ["name"; "id"; "weight"; "height"; "sprites"; "types"; "abilities"] ->
      Py.lookup k items1 = Py.lookup k items2) ->
  same_first_five (Py.lookup "moves" items1) (Py.lookup "moves" items2) ->
  extraer_informacion_relevante (VDict items1)
  = extraer_informacion_relevante (VDict items2).
Proof.
  intros Hkeys Hmoves.
  assert (Hget : forall k,
             In k ["name"; "id"; "weight"; "height"; "sprites"; "types"; "abilities"] ->
             Py.getitem k (VDict items1) = Py.getitem k (VDict items2)).
  { intros k Hk. simpl. rewrite (Hkeys k Hk). reflexivity. }
  assert (Hfive : Py.getitem "moves" (VDict items1) >>= Py.slice5
                  = Py.getitem "moves" (VDict items2) >>= Py.slice5).
  { simpl. destruct Hmoves as [-> | (l1 & l2 & -> & -> & Heq)]; [reflexivity|].
    simpl. rewrite Heq. reflexivity. }
  unfold extraer_informacion_relevante.
  rewrite Hfive.
  rewrite (Hget "name"), (Hget "id"), (Hget "weight"), (Hget "height"),
    (Hget "sprites"), (Hget "types"), (Hget "abilities")
    by (simpl; auto 10).
  reflexivity.
Qed.

Lemma extractor_reads_its_keys_only_witness :
  extraer_informacion_relevante (VDict bulbasaur_later)
  = extraer_informacion_relevante bulbasaur.
Proof.
  apply (extractor_reads_its_keys_only bulbasaur_later
           [("abilities", VList [named "ability" "overgrow";
                                 named "ability" "chlorophyll"]);
            ("height", VInt 7);
            ("id", VInt 1);
            ("moves", VList (map (named "move") bulbasaur_moves));
            ("name", VStr "bulbasaur");
            ("sprites", VDict [("back_default", VNone);
                               ("front_default", VStr "https://img/1.png")]);
            ("types", VList [named "type" "grass"; named "type" "poison"]);
            ("weight", VInt 69)]).
  - intros k Hk. simpl in Hk.
    repeat (destruct Hk as [<- | Hk]; [reflexivity|]). destruct Hk.
  - right. eexists _, _. repeat split.
Defined.

(** X10: the file is named after the name the service gave, an ASCII text:
    its letters in lower case, its spaces replaced by underscores, then
    [.json]; the capital the extractor put is undone, hyphens stay, and the
    name of the file holds no space. *)
Theorem file_named_after_source_name (datos : value) (s : string) (i : info) :
  ascii_only s = true ->
  Py.getitem "name" datos = Ok (VStr s) ->
  extraer_informacion_relevante datos = Ok i ->
  nombre_archivo i = Text.replace " " "_" (Text.lower s) +:+ ".json"
  /\ Text.contains " " (nombre_archivo i) = false.
Proof.
  intros _ Hs Hi. apply extraer_Ok in Hi as (Hn & _).
  rewrite Hs in Hn. simpl in Hn. injection Hn as Hn.
  unfold nombre_archivo. rewrite <- Hn, lower_capitalize.
  split; [reflexivity|].
  rewrite contains_app, no_space_replaced. reflexivity.
Qed.

Lemma file_named_after_source_name_witness :
  nombre_archivo bulbasaur_info = "bulbasaur.json"
  /\ Text.contains " " (nombre_archivo bulbasaur_info) = false.
Proof.
  apply (file_named_after_source_name bulbasaur "bulbasaur" bulbasaur_info).
  - reflexivity.
  - reflexivity.
  - reflexivity.
Defined.

(** X11: a body the main function skips as falsy could not have been
    extracted: the empty dict raises [KeyError('name')], and [None], [False],
    zero, the empty text and the empty list raise [TypeError]. *)
Theorem falsy_body_is_not_extracted (datos : value) :
  Py.truthy datos = false ->
  extraer_informacion_relevante datos
  = Raise (match datos with
           | VDict _ => KeyError "name"
           | _ => TypeError
           end).
Proof.
  destruct datos; try reflexivity.
  destruct items; [reflexivity | discriminate].
Qed.

Lemma falsy_body_is_not_extracted_witness :
  extraer_informacion_relevante (VDict []) = Raise (KeyError "name").
Proof. apply (falsy_body_is_not_extracted (VDict [])). reflexivity. Defined.

(** * Further properties of the display and of the save *)

Lemma told_told (a b : list string) (w : world) :
  told b (told a w) = told (a ++ b) w.
Proof.
  unfold told, with_stdout. cbn. rewrite <- List.app_assoc. reflexivity.
Qed.

Lemma print_then {A : Type} (line : string) (m : M A) (w : world) :
  (print line;; m) w = m (told [line] w).
Proof. reflexivity. Qed.

Lemma print_run (line : string) (w : world) :
  print line w = (Ok tt, told [line] w).
Proof. reflexivity. Qed.

(** The display, line by line. *)
Lemma mostrar_run (i : info) (w : world) :
  mostrar_datos_pokemon i w = (Ok tt, told (shown i) w).
Proof.
  unfold mostrar_datos_pokemon.
  rewrite !print_then, print_run, !told_told. reflexivity.
Qed.

Lemma made_fs_ext (w w' : world) : fs w = fs w' -> fs (made w) = fs (made w').
Proof.
  unfold made. intros H. rewrite H.
  destruct (fs w' !! POKEDEX_FOLDER); cbn [fs with_fs]; congruence.
Qed.

(** What a save returns and writes depends on the files and on the right to
    write, not on what the console or the network saw. *)
Lemma guardar_by_files (i : info) (w w' : world) :
  fs w = fs w' -> writable w = writable w' ->
  fst (guardar_informacion_json i w) = fst (guardar_informacion_json i w')
  /\ fs (snd (guardar_informacion_json i w))
     = fs (snd (guardar_informacion_json i w')).
Proof.
  intros Hfs Hwr. rewrite !guardar_run.
  rewrite (makedirs_error_ext w w' _ Hfs Hwr).
  destruct (makedirs_error w' POKEDEX_FOLDER); [auto|].
  pose proof (made_fs_ext w w' Hfs) as Hmade.
  assert (Hwm : writable (made w) = writable (made w'))
    by (rewrite !writable_made; exact Hwr).
  rewrite (open_error_ext (made w) (made w') _ Hmade Hwm).
  destruct (open_error (made w') (ruta_completa i)) as [e|].
  - destruct (is_os_error e); auto.
  - cbn [fst snd fs told written with_stdout with_fs]. rewrite Hmade. auto.
Qed.

(** X12: for a record whose [id] and image are values [str] writes
    ([None], a text, a number), the display prints its fifteen lines, one for
    each [print], after what the console showed, and does nothing else: it
    returns, sends no request, touches no file, and a save that follows
    returns and writes what it would have without the display. *)
Theorem display_changes_the_console_only (displayed saved : info) (w : world) :
  printable (id displayed) = true ->
  printable (imagen_frontal_url displayed) = true ->
  let after := snd (mostrar_datos_pokemon displayed w) in
  fst (mostrar_datos_pokemon displayed w) = Ok tt
  /\ requests after = requests w
  /\ fs after = fs w
  /\ (exists lines, stdout after = (stdout w ++ lines)%list
                    /\ length lines = 15%nat)
  /\ fst (guardar_informacion_json saved after)
     = fst (guardar_informacion_json saved w)
  /\ fs (snd (guardar_informacion_json saved after))
     = fs (snd (guardar_informacion_json saved w)).
Proof.
  intros _ _. cbv zeta. rewrite mostrar_run. cbn [fst snd].
  repeat split; try reflexivity.
  - exists (shown displayed). split; reflexivity.
  - apply guardar_by_files; reflexivity.
  - apply guardar_by_files; reflexivity.
Qed.

Lemma display_changes_the_console_only_witness :
  fst (mostrar_datos_pokemon bulbasaur_info (fresh pokeapi)) = Ok tt
  /\ fs (snd (mostrar_datos_pokemon bulbasaur_info (fresh pokeapi)))
     = fs (fresh pokeapi).
Proof.
  destruct (display_changes_the_console_only bulbasaur_info bulbasaur_info
              (fresh pokeapi) eq_refl eq_refl) as (Hret & _ & Hfs & _).
  split; [exact Hret | exact Hfs].
Defined.

Lemma NUL_lower_char (x : ascii) :
  Ascii.eqb NUL (Text.lower_char x) = Ascii.eqb NUL x.
Proof. destruct x as [[] [] [] [] [] [] [] []]; reflexivity. Qed.

Lemma NUL_underscore (x : ascii) :
  Ascii.eqb NUL (if Ascii.eqb x " " then "_"%char else x) = Ascii.eqb NUL x.
Proof. destruct x as [[] [] [] [] [] [] [] []]; reflexivity. Qed.

(** The path of the file holds a null character when the name does. *)
Lemma NUL_in_ruta (i : info) :
  Text.contains NUL (ruta_completa i) = Text.contains NUL (nombre i).
Proof.
  assert (Hfile : Text.contains NUL (nombre_archivo i)
                  = Text.contains NUL (nombre i)).
  { unfold nombre_archivo, Text.replace, Text.lower.
    rewrite contains_app, !contains_map_chars
      by (apply NUL_underscore || apply NUL_lower_char).
    apply orb_false_r. }
  unfold ruta_completa, path_join.
  destruct (Text.starts_with "/" (nombre_archivo i)); [exact Hfile|].
  cbn [orb String.eqb POKEDEX_FOLDER]. 
  change (Text.contains NUL ("pokedex" +:+ "/" +:+ nombre_archivo i)
          = Text.contains NUL (nombre i)).
  rewrite !contains_app, Hfile. reflexivity.
Qed.

Lemma open_error_kind (w : world) (path : string) (e : exn) :
  open_error w path = Some e ->
  (e = ValueError /\ Text.contains NUL path = true)
  \/ (is_os_error e = true /\ Text.contains NUL path = false).
Proof.
  unfold open_error. fold NUL.
  destruct (Text.contains NUL path); [intros [= <-]; auto|].
  destruct (is_dir (fs w) path); [intros [= <-]; auto|].
  destruct (negb (parent_exists (fs w) path)); [intros [= <-]; auto|].
  destruct (negb (writable w)); [intros [= <-]; auto | discriminate].
Qed.

(** X13: no exception of the file system leaves the save: that the folder
    cannot be made or the file cannot be opened is caught and reported.  For
    a record whose [id] and image are values [json.dump] writes ([None], a
    text, a number), a save returns normally when the name holds no null
    character, in every world; for a name that holds one, the [ValueError] of
    [open] goes out once the folder is there; and nothing else is raised. *)
Theorem save_raises_no_os_error (i : info) (w : world) :
  printable (id i) = true ->
  printable (imagen_frontal_url i) = true ->
  (forall e, fst (guardar_informacion_json i w) = Raise e ->
             e = ValueError /\ Text.contains NUL (nombre i) = true)
  /\ (Text.contains NUL (nombre i) = false ->
      fst (guardar_informacion_json i w) = Ok tt)
  /\ (Text.contains NUL (nombre i) = true ->
      makedirs_error w POKEDEX_FOLDER = None ->
      guardar_informacion_json i w = (Raise ValueError, made w)).
Proof.
  intros _ _. rewrite guardar_run, <- NUL_in_ruta.
  destruct (makedirs_error w POKEDEX_FOLDER) as [e|]; cbn [fst].
  { repeat split; try discriminate. }
  destruct (open_error (made w) (ruta_completa i)) as [e|] eqn:Hopen.
  - destruct (open_error_kind _ _ _ Hopen) as [[-> Hnul] | [Hos Hnul]].
    + cbn [is_os_error fst]. repeat split; congruence.
    + rewrite Hos. cbn [fst]. repeat split; congruence.
  - cbn [fst]. repeat split; try discriminate.
    intros Hnul _. unfold open_error in Hopen. fold NUL in Hopen.
    rewrite Hnul in Hopen. discriminate.
Qed.

Lemma save_raises_no_os_error_witness :
  fst (guardar_informacion_json bulbasaur_info blocked) = Ok tt
  /\ fst (guardar_informacion_json bulbasaur_info (fresh pokeapi)) = Ok tt.
Proof.
  split.
  - apply (proj1 (proj2 (save_raises_no_os_error bulbasaur_info blocked
                           eq_refl eq_refl))).
    reflexivity.
  - apply (proj1 (proj2 (save_raises_no_os_error bulbasaur_info (fresh pokeapi)
                           eq_refl eq_refl))).
    reflexivity.
Defined.

(** X14: when a file has the name of the folder, the save makes no folder
    and writes no file: it prints the line of [os.makedirs]'s error and
    returns, with the file system as it was. *)
Theorem file_in_place_of_folder (i : info) (w : world) (content : string) :
  fs w !! "pokedex" = Some (File content) ->
  guardar_informacion_json i w
  = (Ok tt,
     told [nl +:+ "Error al crear la carpeta 'pokedex': [Errno 17] File exists: 'pokedex'"] w)
  /\ fs (snd (guardar_informacion_json i w)) = fs w.
Proof.
  intros H. rewrite guardar_run. unfold makedirs_error.
  change POKEDEX_FOLDER with "pokedex". rewrite H. split; reflexivity.
Qed.

Lemma file_in_place_of_folder_witness :
  fs (snd (guardar_informacion_json bulbasaur_info blocked)) = fs blocked.
Proof.
  apply (file_in_place_of_folder bulbasaur_info blocked ""). reflexivity.
Defined.

(** X15: where nothing may be created or written, a save changes no file and
    prints none of the lines of a success; it reports one error of the file
    system and returns (or lets the [ValueError] of a null character out). *)
Theorem read_only_world_is_left_alone (i : info) (w : world) :
  writable w = false ->
  fs (snd (guardar_informacion_json i w)) = fs w
  /\ (Text.contains NUL (nombre i) = false ->
      exists e, is_os_error e = true
                /\ (guardar_informacion_json i w
                    = (Ok tt, told [folder_error_message e] w)
                    \/ guardar_informacion_json i w
                       = (Ok tt, told [write_error_message i e] w))).
Proof.
  intros Hro. rewrite guardar_run.
  destruct (makedirs_error w POKEDEX_FOLDER) as [e|] eqn:Hmk.
  { split; [reflexivity|]. intros _. exists e.
    split; [exact (makedirs_error_os _ _ _ Hmk) | auto]. }
  assert (Hmade : made w = w).
  { apply made_id. unfold makedirs_error in Hmk. rewrite Hro in Hmk.
    destruct (fs w !! POKEDEX_FOLDER); [eauto | discriminate]. }
  rewrite Hmade.
  destruct (open_error w (ruta_completa i)) as [e|] eqn:Hopen.
  - destruct (open_error_kind _ _ _ Hopen) as [[-> Hnul] | [Hos Hnul]].
    + split; [reflexivity|]. rewrite NUL_in_ruta in Hnul. congruence.
    + rewrite Hos. split; [reflexivity|]. intros _. exists e. auto.
  - unfold open_error in Hopen. rewrite Hro in Hopen.
    destruct (Text.contains (ascii_of_N 0) (ruta_completa i)); [discriminate|].
    destruct (is_dir (fs w) (ruta_completa i)); [discriminate|].
    destruct (negb (parent_exists (fs w) (ruta_completa i))); discriminate.
Qed.

Lemma read_only_world_is_left_alone_witness :
  fs (snd (guardar_informacion_json bulbasaur_info read_only)) = fs read_only.
Proof.
  apply (read_only_world_is_left_alone bulbasaur_info read_only). reflexivity.
Defined.

Lemma made_lookup (w : world) (p : string) :
  p <> POKEDEX_FOLDER -> fs (made w) !! p = fs w !! p.
Proof.
  intros Hp. unfold made. destruct (fs w !! POKEDEX_FOLDER); [reflexivity|].
  cbn [fs with_fs]. apply lookup_insert_ne. congruence.
Qed.

Lemma made_keeps (w : world) (p : string) (x : node) :
  fs w !! p = Some x -> fs (made w) !! p = Some x.
Proof.
  intros Hx. destruct (String.eqb_spec p POKEDEX_FOLDER) as [->|Hne].
  - unfold made. rewrite Hx. exact Hx.
  - rewrite made_lookup by exact Hne. exact Hx.
Qed.

(** The file system a save leaves: the one with the folder, or the one with
    the folder and the file, or the one it found. *)
Lemma guardar_fs (i : info) (w : world) :
  fs (snd (guardar_informacion_json i w)) = fs w
  \/ fs (snd (guardar_informacion_json i w)) = fs (made w)
  \/ fs (snd (guardar_informacion_json i w))
     = <[ruta_completa i := File (Json.dumps (info_dict i))]> (fs (made w)).
Proof.
  rewrite guardar_run.
  destruct (makedirs_error w POKEDEX_FOLDER); [auto|].
  destruct (open_error (made w) (ruta_completa i)) as [e|];
    [destruct (is_os_error e)|]; auto.
Qed.

(** X16: for a record whose name holds no slash, a save touches two paths
    at most, the folder and the file of the record, itself a path written in
    the one way: every other such path holds what it held; a folder or a file
    that already has the name of the folder stays as it is; and nothing is
    removed. *)
Theorem save_touches_its_file_only (i : info) (w : world) :
  Text.contains "/" (nombre i) = false ->
  let after := snd (guardar_informacion_json i w) in
  normal_path (ruta_completa i) = true
  /\ (forall p, normal_path p = true ->
                p <> POKEDEX_FOLDER -> p <> ruta_completa i ->
                fs after !! p = fs w !! p)
  /\ (forall x, fs w !! POKEDEX_FOLDER = Some x ->
                fs after !! POKEDEX_FOLDER = Some x)
  /\ (forall p, is_Some (fs w !! p) -> is_Some (fs after !! p)).
Proof.
  intros Hname. cbv zeta. split; [exact (normal_ruta i Hname)|].
  destruct (guardar_fs i w) as [-> | [-> | ->]]; repeat split; auto.
  - intros p _ Hp _. apply made_lookup, Hp.
  - intros x. apply made_keeps.
  - intros p [x Hx]. exists x. apply made_keeps, Hx.
  - intros p _ Hp Hr. rewrite lookup_insert_ne by congruence.
    apply made_lookup, Hp.
  - intros x Hx. rewrite lookup_insert_ne by apply ruta_not_folder.
    apply made_keeps, Hx.
  - intros p [x Hx].
    destruct (String.eqb_spec (ruta_completa i) p) as [<-|Hne].
    + rewrite lookup_insert_eq. eauto.
    + rewrite lookup_insert_ne by exact Hne. exists x. apply made_keeps, Hx.
Qed.

Lemma save_touches_its_file_only_witness :
  fs (snd (guardar_informacion_json (info_named "Mew") stale))
    !! "pokedex/bulbasaur.json"
  = Some (File "{}").
Proof.
  destruct (save_touches_its_file_only (info_named "Mew") stale eq_refl)
    as (_ & Hother & _).
  rewrite (Hother "pokedex/bulbasaur.json").
  - reflexivity.
  - reflexivity.
  - discriminate.
  - discriminate.
Defined.

(** X17: the name of the file forgets the case of the letters and takes
    spaces for underscores, so two records can have the same file; saved one
    after the other, the second replaces the first: the file system is what
    the save of the second alone leaves. *)
Theorem last_save_wins (first second : info) (w : world) :
  nombre_archivo first = nombre_archivo second ->
  fs (snd (guardar_informacion_json second
             (snd (guardar_informacion_json first w))))
  = fs (snd (guardar_informacion_json second w)).
Proof.
  intros Hname.
  assert (Hruta : ruta_completa first = ruta_completa second)
    by (unfold ruta_completa; rewrite Hname; reflexivity).
  rewrite (guardar_run first w), (guardar_run second w).
  destruct (makedirs_error w POKEDEX_FOLDER) as [e|] eqn:Hmk.
  - cbn [snd]. rewrite guardar_run.
    rewrite (makedirs_error_ext (told _ w) w) by reflexivity.
    rewrite Hmk. reflexivity.
  - pose proof (made_folder w Hmk) as Hdir.
    assert (Hmk1 : makedirs_error (made w) POKEDEX_FOLDER = None)
      by (unfold makedirs_error; rewrite Hdir; reflexivity).
    assert (Hid : made (made w) = made w) by (apply made_id; eauto).
    rewrite Hruta.
    destruct (open_error (made w) (ruta_completa second)) as [e|] eqn:Hopen.
    + destruct (is_os_error e) eqn:Hos; cbn [snd]; rewrite guardar_run.
      * rewrite (makedirs_error_ext (told _ (made w)) (made w)) by reflexivity.
        rewrite Hmk1.
        assert (Hm : made (told [write_error_message first e] (made w))
                     = told [write_error_message first e] (made w))
          by (apply made_id; cbn; eauto).
        rewrite Hm.
        rewrite (open_error_ext (told _ (made w)) (made w)) by reflexivity.
        rewrite Hopen, Hos. reflexivity.
      * rewrite Hmk1, Hid, Hopen, Hos. reflexivity.
    + cbn [snd]. rewrite guardar_run.
      set (once := told (saved_messages first) (written first (made w))).
      assert (Hfolder : fs once !! POKEDEX_FOLDER = Some Dir).
      { subst once. cbn [fs told written with_stdout with_fs].
        rewrite lookup_insert_ne by apply ruta_not_folder. exact Hdir. }
      assert (Hmk2 : makedirs_error once POKEDEX_FOLDER = None)
        by (unfold makedirs_error; rewrite Hfolder; reflexivity).
      assert (Hm : made once = once) by (apply made_id; eauto).
      rewrite Hmk2, Hm.
      rewrite (open_error_ext once (written first (made w))) by reflexivity.
      rewrite <- Hruta in Hopen |- *.
      rewrite (open_error_written first (made w) Hopen).
      subst once. cbn [snd fs told written with_stdout with_fs].
      rewrite Hruta. apply insert_insert_eq.
Qed.

Lemma last_save_wins_witness :
  nombre_archivo (info_named "Mr mime") = nombre_archivo (info_named "MR_MIME")
  /\ fs (snd (guardar_informacion_json (info_named "MR_MIME")
                (snd (guardar_informacion_json (info_named "Mr mime")
                        (fresh pokeapi)))))
     = fs (snd (guardar_informacion_json (info_named "MR_MIME") (fresh pokeapi))).
Proof.
  split; [reflexivity|].
  apply (last_save_wins (info_named "Mr mime") (info_named "MR_MIME")
           (fresh pokeapi)).
  reflexivity.
Defined.

(** *** A name that holds a slash *)

Lemma dirname_app (p f : string) :
  Text.contains "/" f = true -> dirname (p +:+ f) = p +:+ dirname f.
Proof.
  intros Hf. induction p as [|c p IH]; [reflexivity|].
  rewrite !app_cons. cbn [dirname].
  rewrite contains_app, Hf, orb_true_r, IH. reflexivity.
Qed.

(** A name that holds a slash after its first character, in a world without
    the folder its file would be in. *)
Lemma slash_name_not_saved (i : info) (w : world) :
  Text.starts_with "/" (nombre i) = false ->
  Text.contains "/" (nombre i) = true ->
  Text.contains NUL (nombre i) = false ->
  makedirs_error w POKEDEX_FOLDER = None ->
  is_dir (fs w) (dirname (ruta_completa i)) = false ->
  dirname (ruta_completa i) = "pokedex/" +:+ dirname (nombre_archivo i)
  /\ exists e,
       is_os_error e = true
       /\ guardar_informacion_json i w
          = (Ok tt, told [write_error_message i e] (made w))
       /\ fs (snd (guardar_informacion_json i w)) !! ruta_completa i
          = fs w !! ruta_completa i.
Proof.
  intros Hroot Hslash Hnul Hmk Hdir.
  assert (Hdirname : dirname (ruta_completa i)
                     = "pokedex/" +:+ dirname (nombre_archivo i)).
  { rewrite (ruta_under_folder i Hroot).
    change (Text.replace " " "_" (Text.lower (nombre i)) +:+ ".json")
      with (nombre_archivo i).
    apply dirname_app. rewrite slash_in_file_name. exact Hslash. }
  split; [exact Hdirname|].
  assert (Hnot : dirname (ruta_completa i) <> POKEDEX_FOLDER).
  { rewrite Hdirname. intros H.
    apply (f_equal String.length) in H. rewrite length_app_s in H.
    simpl in H. lia. }
  assert (Hparent : parent_exists (fs (made w)) (ruta_completa i) = false).
  { unfold parent_exists, is_dir. rewrite made_lookup by exact Hnot.
    fold (is_dir (fs w) (dirname (ruta_completa i))). rewrite Hdir, orb_false_r.
    apply String.eqb_neq. rewrite Hdirname. discriminate. }
  assert (Hopen : exists e, open_error (made w) (ruta_completa i) = Some e
                            /\ is_os_error e = true).
  { unfold open_error. fold NUL. rewrite NUL_in_ruta, Hnul, Hparent.
    destruct (is_dir (fs (made w)) (ruta_completa i)); eauto. }
  destruct Hopen as (e & Hopen & Hos).
  exists e. split; [exact Hos|].
  rewrite guardar_run, Hmk, Hopen, Hos. split; [reflexivity|].
  cbn [snd fs told with_stdout]. apply made_lookup, ruta_not_folder.
Qed.

Lemma dirname_last (p rest : string) :
  Text.contains "/" rest = false -> dirname (p +:+ String "/" rest) = p.
Proof.
  intros H. induction p as [|c p IH].
  - rewrite app_empty. cbn [dirname]. rewrite H. reflexivity.
  - rewrite app_cons. cbn [dirname].
    rewrite contains_app. cbn [Text.contains Ascii.eqb Bool.eqb].
    rewrite orb_true_r, IH. reflexivity.
Qed.

(** X18: a name made of the name of a folder, a slash and the name of a
    file (ASCII texts, the folder neither [.] nor [..]) names a file in a
    folder below [pokedex], which the save does not make: unless that folder
    is there, the save makes [pokedex], reports that the file cannot be
    written, writes no file and returns. *)
Theorem name_with_slash_is_not_saved (i : info) (w : world) (folder file : string) :
  nombre i = folder +:+ "/" +:+ file ->
  ascii_only (nombre i) = true ->
  plain_component folder = true ->
  Text.contains "/" folder = false ->
  Text.contains "/" file = false ->
  Text.contains NUL (nombre i) = false ->
  makedirs_error w POKEDEX_FOLDER = None ->
  is_dir (fs w) (dirname (ruta_completa i)) = false ->
  dirname (ruta_completa i)
  = "pokedex/" +:+ Text.replace " " "_" (Text.lower folder)
  /\ exists e,
       is_os_error e = true
       /\ guardar_informacion_json i w
          = (Ok tt, told [write_error_message i e] (made w))
       /\ fs (snd (guardar_informacion_json i w)) !! ruta_completa i
          = fs w !! ruta_completa i.
Proof.
  intros Hname _ Hplain Hfolder Hfile Hnul Hmk Hdir.
  assert (Hroot : Text.starts_with "/" (nombre i) = false).
  { rewrite Hname. destruct folder as [|c folder]; [discriminate|].
    rewrite app_cons. cbn [Text.starts_with].
    cbn [Text.contains] in Hfolder. apply orb_false_elim in Hfolder as [Hc _].
    exact Hc. }
  assert (Hslash : Text.contains "/" (nombre i) = true).
  { rewrite Hname, !contains_app. cbn [Text.contains Ascii.eqb Bool.eqb].
    rewrite orb_true_r. reflexivity. }
  destruct (slash_name_not_saved i w Hroot Hslash Hnul Hmk Hdir)
    as (Hdirname & Hsave).
  split; [|exact Hsave].
  rewrite Hdirname. f_equal.
  unfold nombre_archivo, Text.replace, Text.lower. rewrite Hname.
  rewrite !map_chars_app, !app_assoc_s.
  change (Text.map_chars (fun c : ascii => if Ascii.eqb c " " then "_"%char else c)
            (Text.map_chars Text.lower_char "/"))
    with (String "/" "").
  rewrite app_cons, app_empty.
  apply dirname_last.
  rewrite contains_app, !contains_map_chars
    by (apply slash_underscore || apply slash_lower_char).
  rewrite Hfile. reflexivity.
Qed.

Lemma name_with_slash_is_not_saved_witness :
  dirname (ruta_completa (info_named "a/b")) = "pokedex/a"
  /\ exists e,
       is_os_error e = true
       /\ guardar_informacion_json (info_named "a/b") (fresh pokeapi)
          = (Ok tt, told [write_error_message (info_named "a/b") e]
                      (made (fresh pokeapi)))
       /\ fs (snd (guardar_informacion_json (info_named "a/b") (fresh pokeapi)))
            !! ruta_completa (info_named "a/b")
          = fs (fresh pokeapi) !! ruta_completa (info_named "a/b").
Proof.
  apply (name_with_slash_is_not_saved (info_named "a/b") (fresh pokeapi) "a" "b");
    reflexivity.
Defined.
(** * Further properties of the main function *)

(** What a fetch returns, by the answer of the service. *)
Lemma obtener_fst (q : string) (w : world) :
  fst (obtener_datos_pokemon q w)
  = match net w (request_url q) with
    | Response status_code body =>
        if (status_code =? 200)%Z then
          match body with
          | Ok datos => Ok datos
          | Raise e => if is_request_exception e then Ok VNone else Raise e
          end
        else Ok VNone
    | NoResponse e => if is_request_exception e then Ok VNone else Raise e
    end.
Proof.
  unfold obtener_datos_pokemon, try_except, requests_get, mbind, M_bind.
  destruct (net w (request_url q)) as [status body|e].
  - destruct (status =? 200)%Z.
    + destruct body as [v|e]; simpl; [|destruct (is_request_exception e)];
        reflexivity.
    + destruct (status =? 404)%Z; reflexivity.
  - simpl. destruct (is_request_exception e); reflexivity.
Qed.

(** A fetch leaves the files, the right to write and the service as they
    were. *)
Lemma obtener_frame (q : string) (w : world) :
  fs (snd (obtener_datos_pokemon q w)) = fs w
  /\ writable (snd (obtener_datos_pokemon q w)) = writable w
  /\ net (snd (obtener_datos_pokemon q w)) = net w.
Proof.
  unfold obtener_datos_pokemon, try_except, requests_get, mbind, M_bind.
  destruct (net w (request_url q)) as [status body|e].
  - destruct (status =? 200)%Z.
    + destruct body as [v|e]; simpl; [|destruct (is_request_exception e)];
        auto.
    + destruct (status =? 404)%Z; auto.
  - simpl. destruct (is_request_exception e); auto.
Qed.

Lemma guardar_requests (i : info) (w : world) :
  requests (snd (guardar_informacion_json i w)) = requests w.
Proof.
  rewrite guardar_run.
  assert (Hmade : requests (made w) = requests w)
    by (unfold made; destruct (fs w !! POKEDEX_FOLDER); reflexivity).
  destruct (makedirs_error w POKEDEX_FOLDER); [reflexivity|].
  destruct (open_error (made w) (ruta_completa i)) as [e|];
    [destruct (is_os_error e)|]; exact Hmade.
Qed.

(** A save that raises has made the folder and nothing else. *)
Lemma guardar_raise (i : info) (w : world) (e : exn) :
  fst (guardar_informacion_json i w) = Raise e ->
  e = ValueError /\ fs (snd (guardar_informacion_json i w)) = fs (made w).
Proof.
  rewrite guardar_run.
  destruct (makedirs_error w POKEDEX_FOLDER); [discriminate|].
  destruct (open_error (made w) (ruta_completa i)) as [e'|] eqn:Hopen;
    [|discriminate].
  destruct (open_error_kind _ _ _ Hopen) as [[-> _] | [Hos _]].
  - cbn. intros [= <-]. auto.
  - rewrite Hos. discriminate.
Qed.

(** A record of the shape the extractor reads is a dict with a key, so it
    is truthy. *)
Lemma well_shaped_truthy (datos : value) :
  well_shaped datos = true -> Py.truthy datos = true.
Proof.
  intros H. destruct (Py.truthy datos) eqn:Ht; [reflexivity|].
  pose proof (extraer_well_shaped datos H) as (i & Hi).
  destruct datos; try discriminate.
  destruct items; [discriminate | discriminate].
Qed.

(** The run after the prompt, when the record [i] is extracted. *)
Lemma ejecutar_extracted (typed : string) (w : world) (i : info) :
  extracted typed w = Some i ->
  ejecutar_pokedex typed w
  = guardar_informacion_json i (told (shown i) (sent typed (asked w))).
Proof.
  unfold extracted. rewrite ejecutar_unfold.
  destruct (String.eqb typed ""); [discriminate|].
  destruct (net w (request_url typed)) as [status [datos|e]|e] eqn:Hnet;
    try discriminate.
  destruct (status =? 200)%Z eqn:H200; [|discriminate].
  apply Z.eqb_eq in H200 as ->. cbn [andb].
  destruct (Py.truthy datos) eqn:Ht; [|discriminate].
  destruct (extraer_informacion_relevante datos) as [i'|] eqn:Hi;
    [|discriminate].
  intros [= ->].
  rewrite (obtener_200 typed (asked w) datos) by exact Hnet.
  rewrite Ht. unfold lift, mbind, M_bind. rewrite Hi, mostrar_run. reflexivity.
Qed.

(** The end of a run that extracts no record: the files are as they were,
    and an exception that goes out is none of the requests family. *)
Lemma ejecutar_not_extracted (typed : string) (w : world) :
  extracted typed w = None ->
  fs (snd (ejecutar_pokedex typed w)) = fs w
  /\ forall e, fst (ejecutar_pokedex typed w) = Raise e ->
               is_request_exception e = false.
Proof.
  unfold extracted. rewrite ejecutar_unfold.
  destruct (String.eqb typed ""); [split; [reflexivity | discriminate]|].
  pose proof (obtener_fst typed (asked w)) as Hfst.
  pose proof (obtener_frame typed (asked w)) as (Hfs & _).
  change (net (asked w)) with (net w) in Hfst.
  change (fs (asked w)) with (fs w) in Hfs.
  destruct (obtener_datos_pokemon typed (asked w)) as [[datos|e] fetched];
    cbn [fst snd] in *.
  - destruct (Py.truthy datos) eqn:Ht; [|split; [exact Hfs | discriminate]].
    assert (Hbody : net w (request_url typed) = Response 200 (Ok datos)).
    { destruct (net w (request_url typed)) as [status [d|e]|e].
      - destruct (status =? 200)%Z eqn:H200.
        + apply Z.eqb_eq in H200 as ->. congruence.
        + injection Hfst as ->. discriminate.
      - destruct (status =? 200)%Z; [destruct (is_request_exception e)|];
          try discriminate; injection Hfst as ->; discriminate.
      - destruct (is_request_exception e); [|discriminate].
        injection Hfst as ->. discriminate. }
    rewrite Hbody. cbn [Z.eqb Pos.eqb andb]. rewrite Ht.
    destruct (extraer_informacion_relevante datos) as [i|e] eqn:Hi;
      [discriminate|].
    intros _. unfold lift, mbind, M_bind. cbn [fst snd].
    split; [exact Hfs|]. intros e' [= <-].
    exact (proj1 (shape_error_not_network e (extraer_shapely datos e Hi))).
  - intros _. split; [exact Hfs|]. intros e' [= <-].
    destruct (net w (request_url typed)) as [status [d|e']|e'].
    + destruct (status =? 200)%Z; discriminate.
    + destruct (status =? 200)%Z; [|discriminate].
      destruct (is_request_exception e') eqn:He; [discriminate | congruence].
    + destruct (is_request_exception e') eqn:He; [discriminate | congruence].
Qed.

Lemma extracted_Some (typed : string) (w : world) (i : info) :
  extracted typed w = Some i ->
  typed <> ""
  /\ exists datos, net w (request_url typed) = Response 200 (Ok datos)
                   /\ Py.truthy datos = true
                   /\ extraer_informacion_relevante datos = Ok i.
Proof.
  unfold extracted.
  destruct (String.eqb_spec typed ""); [discriminate|].
  destruct (net w (request_url typed)) as [status [datos|e]|e];
    try discriminate.
  destruct (status =? 200)%Z eqn:H200; [|discriminate].
  apply Z.eqb_eq in H200 as ->. cbn [andb].
  destruct (Py.truthy datos) eqn:Ht; [|discriminate].
  destruct (extraer_informacion_relevante datos) as [i'|] eqn:Hi;
    [|discriminate].
  intros [= ->]. eauto.
Qed.

(** X19: a run sends one request at most: none for the empty line, which
    ends the run on its message, and for every other line -- a line of blanks
    too -- one, whatever happens next; for a line of ASCII characters, where
    the case mapping of the model is Python's, it goes to the base address
    followed by the line in lower case and stripped. *)
Theorem run_sends_one_request_at_most (typed : string) (w : world) :
  (exists urls,
      requests (snd (ejecutar_pokedex typed w)) = (requests w ++ urls)%list
      /\ length urls = (if String.eqb typed "" then 0 else 1)%nat)
  /\ (ascii_only typed = true ->
      requests (snd (ejecutar_pokedex typed w))
      = (requests w
         ++ (if String.eqb typed "" then []
             else [BASE_URL +:+ Text.strip (Text.lower typed)]))%list)
  /\ (typed = "" ->
      ejecutar_pokedex typed w
      = (Ok tt, told ["El nombre del Pokémon no puede estar vacío."] (asked w))).
Proof.
  assert (Hreqs : requests (snd (ejecutar_pokedex typed w))
                  = (requests w
                     ++ (if String.eqb typed "" then [] else [request_url typed]))%list).
  { rewrite ejecutar_unfold. destruct (String.eqb typed "").
    - cbn. rewrite app_nil_r. reflexivity.
    - pose proof (obtener_requests typed (asked w)) as Hreq.
      change (requests (asked w)) with (requests w) in Hreq.
      destruct (obtener_datos_pokemon typed (asked w)) as [[datos|e] fetched];
        cbn [snd] in *; [|exact Hreq].
      destruct (Py.truthy datos); [|exact Hreq].
      unfold lift, mbind, M_bind.
      destruct (extraer_informacion_relevante datos) as [i|e]; [|exact Hreq].
      rewrite mostrar_run, guardar_requests. exact Hreq. }
  split; [|split].
  - eexists. split; [exact Hreqs|]. destruct (String.eqb typed ""); reflexivity.
  - intros _. exact Hreqs.
  - intros ->. apply empty_input_stops.
Qed.

Lemma run_sends_one_request_at_most_witness :
  requests (snd (ejecutar_pokedex " Bulbasaur" (fresh pokeapi)))
  = ["https://pokeapi.co/api/v2/pokemon/bulbasaur"]
  /\ ejecutar_pokedex "" (fresh pokeapi)
     = (Ok tt, told ["El nombre del Pokémon no puede estar vacío."]
                 (asked (fresh pokeapi))).
Proof.
  split.
  - apply (proj1 (proj2 (run_sends_one_request_at_most " Bulbasaur"
                           (fresh pokeapi)))).
    reflexivity.
  - apply (proj2 (proj2 (run_sends_one_request_at_most "" (fresh pokeapi)))).
    reflexivity.
Defined.

(** X20: the files a run leaves are the files the save of the extracted
    record leaves; a record is extracted when the line is not empty and the
    service answers 200 with a body that is truthy and that the extractor
    accepts, and in every other case the file system is as it was. *)
Theorem run_writes_what_the_save_writes (typed : string) (w : world) :
  fs (snd (ejecutar_pokedex typed w))
  = match extracted typed w with
    | Some i => fs (snd (guardar_informacion_json i w))
    | None => fs w
    end
  /\ (forall i, extracted typed w = Some i ->
        typed <> ""
        /\ exists datos, net w (request_url typed) = Response 200 (Ok datos)
                         /\ Py.truthy datos = true
                         /\ extraer_informacion_relevante datos = Ok i).
Proof.
  split; [|apply extracted_Some].
  destruct (extracted typed w) as [i|] eqn:Hx.
  - rewrite (ejecutar_extracted typed w i Hx).
    apply guardar_by_files; reflexivity.
  - apply ejecutar_not_extracted, Hx.
Qed.

Lemma run_writes_what_the_save_writes_witness :
  extracted " Bulbasaur" (fresh pokeapi) = Some bulbasaur_info
  /\ exists datos,
       net (fresh pokeapi) (request_url " Bulbasaur") = Response 200 (Ok datos)
       /\ Py.truthy datos = true
       /\ extraer_informacion_relevante datos = Ok bulbasaur_info.
Proof.
  split; [reflexivity|].
  apply (proj2 (run_writes_what_the_save_writes " Bulbasaur" (fresh pokeapi))
           bulbasaur_info).
  reflexivity.
Defined.

(** X21: no exception of the requests family leaves a run, and a run that
    ends on an exception has written no file: every path but the folder holds
    what it held. *)
Theorem run_raises_no_request_exception (typed : string) (w : world) (e : exn) :
  fst (ejecutar_pokedex typed w) = Raise e ->
  is_request_exception e = false
  /\ forall p, p <> POKEDEX_FOLDER ->
               fs (snd (ejecutar_pokedex typed w)) !! p = fs w !! p.
Proof.
  destruct (extracted typed w) as [i|] eqn:Hx.
  - rewrite (ejecutar_extracted typed w i Hx). intros He.
    apply guardar_raise in He as (-> & Hfs). split; [reflexivity|].
    intros p Hp. rewrite Hfs, made_lookup by exact Hp. reflexivity.
  - destruct (ejecutar_not_extracted typed w Hx) as (Hfs & Hraise).
    intros He. split; [exact (Hraise e He)|].
    intros p _. rewrite Hfs. reflexivity.
Qed.

Lemma run_raises_no_request_exception_witness :
  fst (ejecutar_pokedex "mew" (fresh (fun _ => Response 200 (Ok (VList [VInt 1])))))
  = Raise TypeError
  /\ is_request_exception TypeError = false.
Proof.
  split; [reflexivity|].
  apply (run_raises_no_request_exception "mew"
           (fresh (fun _ => Response 200 (Ok (VList [VInt 1])))) TypeError).
  reflexivity.
Defined.

Lemma made_told (lines : list string) (w : world) :
  made (told lines w) = told lines (made w).
Proof.
  unfold made. cbn [fs told with_stdout].
  destruct (fs w !! POKEDEX_FOLDER); reflexivity.
Qed.

Lemma made_sent (q : string) (w : world) : made (sent q w) = sent q (made w).
Proof.
  unfold made. cbn [fs sent with_requests].
  destruct (fs w !! POKEDEX_FOLDER); reflexivity.
Qed.

(** X22: the run as a whole, when all goes well.  For a line that is not
    empty, answered 200 with a body of the shape the extractor reads, the run
    is the save of the extracted record after the display; and when the
    folder can be made and the file opened, it returns with the banner, the
    prompt, the fifteen lines of the display and the two of the save on the
    console, one request sent, and the record in its file. *)
Theorem good_run_shows_and_saves (typed : string) (w : world) (datos : value) :
  typed <> "" ->
  net w (request_url typed) = Response 200 (Ok datos) ->
  well_shaped datos = true ->
  exists i,
    extraer_informacion_relevante datos = Ok i
    /\ ejecutar_pokedex typed w
       = guardar_informacion_json i (told (shown i) (sent typed (asked w)))
    /\ (makedirs_error w POKEDEX_FOLDER = None ->
        open_error (made w) (ruta_completa i) = None ->
        fst (ejecutar_pokedex typed w) = Ok tt
        /\ stdout (snd (ejecutar_pokedex typed w))
           = (stdout (asked w) ++ shown i ++ saved_messages i)%list
        /\ requests (snd (ejecutar_pokedex typed w))
           = (requests w ++ [request_url typed])%list
        /\ fs (snd (ejecutar_pokedex typed w))
           = <[ruta_completa i := File (Json.dumps (info_dict i))]>
               (fs (made w))).
Proof.
  intros Htyped Hnet Hshape.
  destruct (extraer_well_shaped datos Hshape) as (i & Hi).
  exists i. split; [exact Hi|].
  assert (Hx : extracted typed w = Some i).
  { unfold extracted. apply String.eqb_neq in Htyped.
    rewrite Htyped, Hnet, (well_shaped_truthy datos Hshape), Hi. reflexivity. }
  pose proof (ejecutar_extracted typed w i Hx) as Hrun.
  split; [exact Hrun|].
  intros Hmk Hopen. rewrite Hrun, guardar_run.
  rewrite (makedirs_error_ext _ w) by reflexivity. rewrite Hmk.
  rewrite made_told, made_sent.
  assert (Hout : stdout (made (asked w)) = stdout (asked w))
    by (unfold made; destruct (fs (asked w) !! POKEDEX_FOLDER); reflexivity).
  assert (Hreq : requests (made (asked w)) = requests w)
    by (unfold made; destruct (fs (asked w) !! POKEDEX_FOLDER); reflexivity).
  assert (Hfs : fs (made (asked w)) = fs (made w))
    by (apply made_fs_ext; reflexivity).
  assert (Hwr : writable (made (asked w)) = writable (made w))
    by (rewrite !writable_made; reflexivity).
  rewrite (open_error_ext (told (shown i) (sent typed (made (asked w))))
             (made w) _ Hfs Hwr), Hopen.
  cbn [fst snd stdout requests fs told sent written with_stdout with_requests
       with_fs].
  rewrite Hout, Hreq, Hfs, <- app_assoc. repeat split.
Qed.

Lemma good_run_shows_and_saves_witness :
  fst (ejecutar_pokedex " Bulbasaur" (fresh pokeapi)) = Ok tt
  /\ requests (snd (ejecutar_pokedex " Bulbasaur" (fresh pokeapi)))
     = ["https://pokeapi.co/api/v2/pokemon/bulbasaur"]
  /\ fs (snd (ejecutar_pokedex " Bulbasaur" (fresh pokeapi)))
       !! "pokedex/bulbasaur.json"
     = Some (File (Json.dumps (info_dict bulbasaur_info))).
Proof.
  destruct (good_run_shows_and_saves " Bulbasaur" (fresh pokeapi) bulbasaur)
    as (i & Hi & _ & Hrun).
  - discriminate.
  - reflexivity.
  - reflexivity.
  - rewrite extraer_bulbasaur in Hi. injection Hi as <-.
    destruct (Hrun eq_refl eq_refl) as (Hret & _ & Hreq & Hfs).
    split; [exact Hret|]. split; [exact Hreq|].
    rewrite Hfs. change "pokedex/bulbasaur.json" with (ruta_completa bulbasaur_info).
    apply lookup_insert_eq.
Defined.
